(** * Tap-tempo LFO (ATtiny84A firmware): signal core

    A shallow embedding of [firmware/signaling.c] and of the interrupt
    handlers and tap handling of [firmware/main.c], followed by the
    properties of the waveform generator and of the tap-tempo state
    machine.

    Conventions.  C integers are [Z] with the wrap-around of their type
    written out ([C.u8], [C.u16], [C.u32], [C.s16]); on the AVR [int] is
    16 bits wide.  [float] is IEEE-754 binary32, computed with the
    Standard Library's [SpecFloat] at precision 24.  The global variables
    of the two files are the fields of one record, [State]; every C
    function that writes them is a function [State -> State]. *)

From Stdlib Require Import ZArith List Bool Lia.
From Stdlib Require Import Floats.SpecFloat.
Import ListNotations.

Local Open Scope Z_scope.

(** ** Machine integers *)

Module C.

Definition u8 (z : Z) : Z := z mod 256.
Definition u16 (z : Z) : Z := z mod 65536.
Definition u32 (z : Z) : Z := z mod 4294967296.

(** Two's-complement reading of a 16-bit pattern ([int16_t], [int]). *)
Definition s16 (z : Z) : Z :=
  let w := u16 z in if w <? 32768 then w else w - 65536.

(** C's [%] truncates toward zero. *)
Definition rem (a b : Z) : Z := Z.rem a b.

End C.

(** ** Single-precision floats *)

Module F32.

Definition prec : Z := 24.
Definition emax : Z := 128.

Definition t : Type := spec_float.

(** Integer to [float] conversion (round to nearest even). *)
Definition of_Z (z : Z) : t := binary_normalize prec emax z 0 false.

Definition add : t -> t -> t := SFadd prec emax.
Definition mul : t -> t -> t := SFmul prec emax.
Definition div : t -> t -> t := SFdiv prec emax.

(** A decimal literal [n / 10^k], given as the quotient of two integers
    that are both exact in binary32; the correctly rounded quotient is
    the float nearest to the literal. *)
Definition lit (n d : Z) : t := div (of_Z n) (of_Z d).

(** [float] to integer conversion: the fractional part is discarded.
    C leaves the conversion of infinities and NaN undefined; they are
    sent to 0 here. *)
Definition to_Z (x : t) : Z :=
  match x with
  | S754_finite s m e =>
      let a := if 0 <=? e then Zpos m * 2 ^ e else Zpos m / 2 ^ (- e) in
      if s then - a else a
  | _ => 0
  end.

End F32.

(** ** Enumerations and constant tables of signaling.c *)

Inductive Waveform : Type :=
| WaveformSine
| WaveformRampUp
| WaveformRampDown
| WaveformTriangle
| WaveformSquare
| WaveformQuadPulse
| WaveformRandom.

Definition WaveformCount : Z := 7.

Definition Waveform_to_Z (w : Waveform) : Z :=
  match w with
  | WaveformSine => 0
  | WaveformRampUp => 1
  | WaveformRampDown => 2
  | WaveformTriangle => 3
  | WaveformSquare => 4
  | WaveformQuadPulse => 5
  | WaveformRandom => 6
  end.

Definition Waveform_of_Z (z : Z) : option Waveform :=
  match z with
  | 0 => Some WaveformSine
  | 1 => Some WaveformRampUp
  | 2 => Some WaveformRampDown
  | 3 => Some WaveformTriangle
  | 4 => Some WaveformSquare
  | 5 => Some WaveformQuadPulse
  | 6 => Some WaveformRandom
  | _ => None
  end.

Inductive Multiplier : Type :=
| MultiplierWhole
| MultiplierDottedHalf
| MultiplierHalf
| MultiplierDottedQuarter
| MultiplierQuarter
| MultiplierDottedEighth
| MultiplierEighth
| MultiplierDottedSixteenth
| MultiplierTriplet
| MultiplierSixteenth.

Definition MultiplierCount : Z := 10.

Definition Multiplier_to_Z (m : Multiplier) : Z :=
  match m with
  | MultiplierWhole => 0
  | MultiplierDottedHalf => 1
  | MultiplierHalf => 2
  | MultiplierDottedQuarter => 3
  | MultiplierQuarter => 4
  | MultiplierDottedEighth => 5
  | MultiplierEighth => 6
  | MultiplierDottedSixteenth => 7
  | MultiplierTriplet => 8
  | MultiplierSixteenth => 9
  end.

(** The tables are indexed by the integer held in [g_multiplier].  A read
    outside them is undefined in C; here it yields the entry of the 1:1
    multiplier. *)
Definition k_multiplier_ratio (m : Z) : F32.t :=
  nth (Z.to_nat m)
    [ F32.lit 25 100;
      F32.lit 333334 1000000;
      F32.lit 5 10;
      F32.lit 666667 1000000;
      F32.of_Z 1;
      F32.lit 1333334 1000000;
      F32.of_Z 2;
      F32.lit 2666667 1000000;
      F32.of_Z 3;
      F32.of_Z 4 ]
    (F32.of_Z 1).

Definition k_multiplier_alignment (m : Z) : Z :=
  nth (Z.to_nat m) [4; 3; 2; 3; 1; 3; 1; 3; 2; 1] 1.

Definition MULTIPLIER_ALIGNMENT_OFFSET : Z := 12.

Definition TEMPO_TO_FREQUENCY : F32.t := F32.of_Z 1000.

Definition WAVEFORM_RESOLUTION : Z := 256.

Definition k_sine_table (i : Z) : Z :=
  nth (Z.to_nat i)
    [   0;   0;   0;   0;   1;   1;   1;   2;   2;   3;   4;   5;   5;   6;   7;   9;
       10;  11;  12;  14;  15;  17;  18;  20;  21;  23;  25;  27;  29;  31;  33;  35;
       37;  40;  42;  44;  47;  49;  52;  54;  57;  59;  62;  65;  67;  70;  73;  76;
       79;  82;  85;  88;  90;  93;  97; 100; 103; 106; 109; 112; 115; 118; 121; 124 ]
    0.

(** Modelled from the spec: main.h is not among the sources.  The clock
    is the 8 MHz of the comments of signaling.c and main.c ("8Mhz / 256 =
    31.25kHz"); the tempo limits are the periods of the 20 Hz and 0.1 Hz
    that SetBaseTempo's comment and the data model give. *)
Definition CLOCK_FREQUENCY : Z := 8000000.
Definition LFO_MAX_TEMPO : Z := 50.
Definition LFO_MIN_TEMPO : Z := 10000.

Definition TIMER0_SAMPLE_RATE : Z := CLOCK_FREQUENCY / WAVEFORM_RESOLUTION.
Definition DUTY_CYCLE_DIVISOR : Z := 4294967296 / TIMER0_SAMPLE_RATE.

Definition WAVEFORM_RANDOM_STEP_COUNT : Z := 8.
Definition WAVEFORM_STEP_SIZE : Z := 255 / WAVEFORM_RANDOM_STEP_COUNT.

Definition DEFAULT_TEMPO : Z := 1000.

(** ** The global state

    One field per global variable the core reads or writes.  Enumeration
    variables hold their integer value, as in C.  [rand_next] is the state
    of the C library's generator.  [srand_log] and [random_log] are not
    program variables: they record, most recent first, every seed given to
    [srand] and every value stored in [g_random_number], so that
    properties of the whole sequence can be stated. *)

Record State : Type := mkState {
  (* signaling.c *)
  g_random_number : Z;
  g_base_tempo : Z;
  g_base_duty_cycle : Z;
  g_base_table_index : Z;
  g_base_phase_accumulator : Z;
  g_duty_cycle : Z;
  g_table_index : Z;
  g_phase_accumulator : Z;
  g_multiplier_alignment_index : Z;
  g_waveform : Z;
  g_multiplier : Z;
  g_tempo_adjust_offset : Z;
  g_depth_ratio : Z;
  g_depth_offset : Z;
  g_depth_table : list Z;
  (* main.c: the bits of g_state that the core reads, and the counter *)
  is_counting_tempo : bool;
  has_received_tap_input : bool;
  has_random_seed : bool;
  g_tempo_ms_count : Z;
  (* PCINT1_vect's static *)
  previous_sync_input : bool;
  (* the PWM compare register and bit TEMPO_OUT of PORTA *)
  OCR0A : Z;
  PORTA_TEMPO_OUT : bool;
  (* the C library's generator state *)
  rand_next : Z;
  (* history: the seeds passed to srand and the values stored in
     g_random_number, most recent first *)
  srand_log : list Z;
  random_log : list Z
}.

Definition set_g_random_number (v : Z) (s : State) : State :=
  mkState v (g_base_tempo s) (g_base_duty_cycle s) (g_base_table_index s)
    (g_base_phase_accumulator s) (g_duty_cycle s) (g_table_index s)
    (g_phase_accumulator s) (g_multiplier_alignment_index s) (g_waveform s)
    (g_multiplier s) (g_tempo_adjust_offset s) (g_depth_ratio s)
    (g_depth_offset s) (g_depth_table s) (is_counting_tempo s)
    (has_received_tap_input s) (has_random_seed s) (g_tempo_ms_count s)
    (previous_sync_input s) (OCR0A s) (PORTA_TEMPO_OUT s) (rand_next s)
    (srand_log s) (random_log s).

Definition set_g_base_tempo (v : Z) (s : State) : State :=
  mkState (g_random_number s) v (g_base_duty_cycle s) (g_base_table_index s)
    (g_base_phase_accumulator s) (g_duty_cycle s) (g_table_index s)
    (g_phase_accumulator s) (g_multiplier_alignment_index s) (g_waveform s)
    (g_multiplier s) (g_tempo_adjust_offset s) (g_depth_ratio s)
    (g_depth_offset s) (g_depth_table s) (is_counting_tempo s)
    (has_received_tap_input s) (has_random_seed s) (g_tempo_ms_count s)
    (previous_sync_input s) (OCR0A s) (PORTA_TEMPO_OUT s) (rand_next s)
    (srand_log s) (random_log s).

Definition set_g_base_duty_cycle (v : Z) (s : State) : State :=
  mkState (g_random_number s) (g_base_tempo s) v (g_base_table_index s)
    (g_base_phase_accumulator s) (g_duty_cycle s) (g_table_index s)
    (g_phase_accumulator s) (g_multiplier_alignment_index s) (g_waveform s)
    (g_multiplier s) (g_tempo_adjust_offset s) (g_depth_ratio s)
    (g_depth_offset s) (g_depth_table s) (is_counting_tempo s)
    (has_received_tap_input s) (has_random_seed s) (g_tempo_ms_count s)
    (previous_sync_input s) (OCR0A s) (PORTA_TEMPO_OUT s) (rand_next s)
    (srand_log s) (random_log s).

Definition set_g_base_table_index (v : Z) (s : State) : State :=
  mkState (g_random_number s) (g_base_tempo s) (g_base_duty_cycle s) v
    (g_base_phase_accumulator s) (g_duty_cycle s) (g_table_index s)
    (g_phase_accumulator s) (g_multiplier_alignment_index s) (g_waveform s)
    (g_multiplier s) (g_tempo_adjust_offset s) (g_depth_ratio s)
    (g_depth_offset s) (g_depth_table s) (is_counting_tempo s)
    (has_received_tap_input s) (has_random_seed s) (g_tempo_ms_count s)
    (previous_sync_input s) (OCR0A s) (PORTA_TEMPO_OUT s) (rand_next s)
    (srand_log s) (random_log s).

Definition set_g_base_phase_accumulator (v : Z) (s : State) : State :=
  mkState (g_random_number s) (g_base_tempo s) (g_base_duty_cycle s)
    (g_base_table_index s) v (g_duty_cycle s) (g_table_index s)
    (g_phase_accumulator s) (g_multiplier_alignment_index s) (g_waveform s)
    (g_multiplier s) (g_tempo_adjust_offset s) (g_depth_ratio s)
    (g_depth_offset s) (g_depth_table s) (is_counting_tempo s)
    (has_received_tap_input s) (has_random_seed s) (g_tempo_ms_count s)
    (previous_sync_input s) (OCR0A s) (PORTA_TEMPO_OUT s) (rand_next s)
    (srand_log s) (random_log s).

Definition set_g_duty_cycle (v : Z) (s : State) : State :=
  mkState (g_random_number s) (g_base_tempo s) (g_base_duty_cycle s)
    (g_base_table_index s) (g_base_phase_accumulator s) v (g_table_index s)
    (g_phase_accumulator s) (g_multiplier_alignment_index s) (g_waveform s)
    (g_multiplier s) (g_tempo_adjust_offset s) (g_depth_ratio s)
    (g_depth_offset s) (g_depth_table s) (is_counting_tempo s)
    (has_received_tap_input s) (has_random_seed s) (g_tempo_ms_count s)
    (previous_sync_input s) (OCR0A s) (PORTA_TEMPO_OUT s) (rand_next s)
    (srand_log s) (random_log s).

Definition set_g_table_index (v : Z) (s : State) : State :=
  mkState (g_random_number s) (g_base_tempo s) (g_base_duty_cycle s)
    (g_base_table_index s) (g_base_phase_accumulator s) (g_duty_cycle s) v
    (g_phase_accumulator s) (g_multiplier_alignment_index s) (g_waveform s)
    (g_multiplier s) (g_tempo_adjust_offset s) (g_depth_ratio s)
    (g_depth_offset s) (g_depth_table s) (is_counting_tempo s)
    (has_received_tap_input s) (has_random_seed s) (g_tempo_ms_count s)
    (previous_sync_input s) (OCR0A s) (PORTA_TEMPO_OUT s) (rand_next s)
    (srand_log s) (random_log s).

Definition set_g_phase_accumulator (v : Z) (s : State) : State :=
  mkState (g_random_number s) (g_base_tempo s) (g_base_duty_cycle s)
    (g_base_table_index s) (g_base_phase_accumulator s) (g_duty_cycle s)
    (g_table_index s) v (g_multiplier_alignment_index s) (g_waveform s)
    (g_multiplier s) (g_tempo_adjust_offset s) (g_depth_ratio s)
    (g_depth_offset s) (g_depth_table s) (is_counting_tempo s)
    (has_received_tap_input s) (has_random_seed s) (g_tempo_ms_count s)
    (previous_sync_input s) (OCR0A s) (PORTA_TEMPO_OUT s) (rand_next s)
    (srand_log s) (random_log s).

Definition set_g_multiplier_alignment_index (v : Z) (s : State) : State :=
  mkState (g_random_number s) (g_base_tempo s) (g_base_duty_cycle s)
    (g_base_table_index s) (g_base_phase_accumulator s) (g_duty_cycle s)
    (g_table_index s) (g_phase_accumulator s) v (g_waveform s)
    (g_multiplier s) (g_tempo_adjust_offset s) (g_depth_ratio s)
    (g_depth_offset s) (g_depth_table s) (is_counting_tempo s)
    (has_received_tap_input s) (has_random_seed s) (g_tempo_ms_count s)
    (previous_sync_input s) (OCR0A s) (PORTA_TEMPO_OUT s) (rand_next s)
    (srand_log s) (random_log s).

Definition set_g_waveform (v : Z) (s : State) : State :=
  mkState (g_random_number s) (g_base_tempo s) (g_base_duty_cycle s)
    (g_base_table_index s) (g_base_phase_accumulator s) (g_duty_cycle s)
    (g_table_index s) (g_phase_accumulator s)
    (g_multiplier_alignment_index s) v (g_multiplier s)
    (g_tempo_adjust_offset s) (g_depth_ratio s) (g_depth_offset s)
    (g_depth_table s) (is_counting_tempo s) (has_received_tap_input s)
    (has_random_seed s) (g_tempo_ms_count s) (previous_sync_input s)
    (OCR0A s) (PORTA_TEMPO_OUT s) (rand_next s) (srand_log s) (random_log s).

Definition set_g_multiplier (v : Z) (s : State) : State :=
  mkState (g_random_number s) (g_base_tempo s) (g_base_duty_cycle s)
    (g_base_table_index s) (g_base_phase_accumulator s) (g_duty_cycle s)
    (g_table_index s) (g_phase_accumulator s)
    (g_multiplier_alignment_index s) (g_waveform s) v
    (g_tempo_adjust_offset s) (g_depth_ratio s) (g_depth_offset s)
    (g_depth_table s) (is_counting_tempo s) (has_received_tap_input s)
    (has_random_seed s) (g_tempo_ms_count s) (previous_sync_input s)
    (OCR0A s) (PORTA_TEMPO_OUT s) (rand_next s) (srand_log s) (random_log s).

Definition set_g_tempo_adjust_offset (v : Z) (s : State) : State :=
  mkState (g_random_number s) (g_base_tempo s) (g_base_duty_cycle s)
    (g_base_table_index s) (g_base_phase_accumulator s) (g_duty_cycle s)
    (g_table_index s) (g_phase_accumulator s)
    (g_multiplier_alignment_index s) (g_waveform s) (g_multiplier s) v
    (g_depth_ratio s) (g_depth_offset s) (g_depth_table s)
    (is_counting_tempo s) (has_received_tap_input s) (has_random_seed s)
    (g_tempo_ms_count s) (previous_sync_input s) (OCR0A s)
    (PORTA_TEMPO_OUT s) (rand_next s) (srand_log s) (random_log s).

Definition set_g_depth_ratio (v : Z) (s : State) : State :=
  mkState (g_random_number s) (g_base_tempo s) (g_base_duty_cycle s)
    (g_base_table_index s) (g_base_phase_accumulator s) (g_duty_cycle s)
    (g_table_index s) (g_phase_accumulator s)
    (g_multiplier_alignment_index s) (g_waveform s) (g_multiplier s)
    (g_tempo_adjust_offset s) v (g_depth_offset s) (g_depth_table s)
    (is_counting_tempo s) (has_received_tap_input s) (has_random_seed s)
    (g_tempo_ms_count s) (previous_sync_input s) (OCR0A s)
    (PORTA_TEMPO_OUT s) (rand_next s) (srand_log s) (random_log s).

Definition set_g_depth_offset (v : Z) (s : State) : State :=
  mkState (g_random_number s) (g_base_tempo s) (g_base_duty_cycle s)
    (g_base_table_index s) (g_base_phase_accumulator s) (g_duty_cycle s)
    (g_table_index s) (g_phase_accumulator s)
    (g_multiplier_alignment_index s) (g_waveform s) (g_multiplier s)
    (g_tempo_adjust_offset s) (g_depth_ratio s) v (g_depth_table s)
    (is_counting_tempo s) (has_received_tap_input s) (has_random_seed s)
    (g_tempo_ms_count s) (previous_sync_input s) (OCR0A s)
    (PORTA_TEMPO_OUT s) (rand_next s) (srand_log s) (random_log s).

Definition set_g_depth_table (v : list Z) (s : State) : State :=
  mkState (g_random_number s) (g_base_tempo s) (g_base_duty_cycle s)
    (g_base_table_index s) (g_base_phase_accumulator s) (g_duty_cycle s)
    (g_table_index s) (g_phase_accumulator s)
    (g_multiplier_alignment_index s) (g_waveform s) (g_multiplier s)
    (g_tempo_adjust_offset s) (g_depth_ratio s) (g_depth_offset s) v
    (is_counting_tempo s) (has_received_tap_input s) (has_random_seed s)
    (g_tempo_ms_count s) (previous_sync_input s) (OCR0A s)
    (PORTA_TEMPO_OUT s) (rand_next s) (srand_log s) (random_log s).

Definition set_is_counting_tempo (v : bool) (s : State) : State :=
  mkState (g_random_number s) (g_base_tempo s) (g_base_duty_cycle s)
    (g_base_table_index s) (g_base_phase_accumulator s) (g_duty_cycle s)
    (g_table_index s) (g_phase_accumulator s)
    (g_multiplier_alignment_index s) (g_waveform s) (g_multiplier s)
    (g_tempo_adjust_offset s) (g_depth_ratio s) (g_depth_offset s)
    (g_depth_table s) v (has_received_tap_input s) (has_random_seed s)
    (g_tempo_ms_count s) (previous_sync_input s) (OCR0A s)
    (PORTA_TEMPO_OUT s) (rand_next s) (srand_log s) (random_log s).

Definition set_has_received_tap_input (v : bool) (s : State) : State :=
  mkState (g_random_number s) (g_base_tempo s) (g_base_duty_cycle s)
    (g_base_table_index s) (g_base_phase_accumulator s) (g_duty_cycle s)
    (g_table_index s) (g_phase_accumulator s)
    (g_multiplier_alignment_index s) (g_waveform s) (g_multiplier s)
    (g_tempo_adjust_offset s) (g_depth_ratio s) (g_depth_offset s)
    (g_depth_table s) (is_counting_tempo s) v (has_random_seed s)
    (g_tempo_ms_count s) (previous_sync_input s) (OCR0A s)
    (PORTA_TEMPO_OUT s) (rand_next s) (srand_log s) (random_log s).

Definition set_has_random_seed (v : bool) (s : State) : State :=
  mkState (g_random_number s) (g_base_tempo s) (g_base_duty_cycle s)
    (g_base_table_index s) (g_base_phase_accumulator s) (g_duty_cycle s)
    (g_table_index s) (g_phase_accumulator s)
    (g_multiplier_alignment_index s) (g_waveform s) (g_multiplier s)
    (g_tempo_adjust_offset s) (g_depth_ratio s) (g_depth_offset s)
    (g_depth_table s) (is_counting_tempo s) (has_received_tap_input s) v
    (g_tempo_ms_count s) (previous_sync_input s) (OCR0A s)
    (PORTA_TEMPO_OUT s) (rand_next s) (srand_log s) (random_log s).

Definition set_g_tempo_ms_count (v : Z) (s : State) : State :=
  mkState (g_random_number s) (g_base_tempo s) (g_base_duty_cycle s)
    (g_base_table_index s) (g_base_phase_accumulator s) (g_duty_cycle s)
    (g_table_index s) (g_phase_accumulator s)
    (g_multiplier_alignment_index s) (g_waveform s) (g_multiplier s)
    (g_tempo_adjust_offset s) (g_depth_ratio s) (g_depth_offset s)
    (g_depth_table s) (is_counting_tempo s) (has_received_tap_input s)
    (has_random_seed s) v (previous_sync_input s) (OCR0A s)
    (PORTA_TEMPO_OUT s) (rand_next s) (srand_log s) (random_log s).

Definition set_previous_sync_input (v : bool) (s : State) : State :=
  mkState (g_random_number s) (g_base_tempo s) (g_base_duty_cycle s)
    (g_base_table_index s) (g_base_phase_accumulator s) (g_duty_cycle s)
    (g_table_index s) (g_phase_accumulator s)
    (g_multiplier_alignment_index s) (g_waveform s) (g_multiplier s)
    (g_tempo_adjust_offset s) (g_depth_ratio s) (g_depth_offset s)
    (g_depth_table s) (is_counting_tempo s) (has_received_tap_input s)
    (has_random_seed s) (g_tempo_ms_count s) v (OCR0A s) (PORTA_TEMPO_OUT s)
    (rand_next s) (srand_log s) (random_log s).

Definition set_OCR0A (v : Z) (s : State) : State :=
  mkState (g_random_number s) (g_base_tempo s) (g_base_duty_cycle s)
    (g_base_table_index s) (g_base_phase_accumulator s) (g_duty_cycle s)
    (g_table_index s) (g_phase_accumulator s)
    (g_multiplier_alignment_index s) (g_waveform s) (g_multiplier s)
    (g_tempo_adjust_offset s) (g_depth_ratio s) (g_depth_offset s)
    (g_depth_table s) (is_counting_tempo s) (has_received_tap_input s)
    (has_random_seed s) (g_tempo_ms_count s) (previous_sync_input s) v
    (PORTA_TEMPO_OUT s) (rand_next s) (srand_log s) (random_log s).

Definition set_PORTA_TEMPO_OUT (v : bool) (s : State) : State :=
  mkState (g_random_number s) (g_base_tempo s) (g_base_duty_cycle s)
    (g_base_table_index s) (g_base_phase_accumulator s) (g_duty_cycle s)
    (g_table_index s) (g_phase_accumulator s)
    (g_multiplier_alignment_index s) (g_waveform s) (g_multiplier s)
    (g_tempo_adjust_offset s) (g_depth_ratio s) (g_depth_offset s)
    (g_depth_table s) (is_counting_tempo s) (has_received_tap_input s)
    (has_random_seed s) (g_tempo_ms_count s) (previous_sync_input s)
    (OCR0A s) v (rand_next s) (srand_log s) (random_log s).

Definition set_rand_next (v : Z) (s : State) : State :=
  mkState (g_random_number s) (g_base_tempo s) (g_base_duty_cycle s)
    (g_base_table_index s) (g_base_phase_accumulator s) (g_duty_cycle s)
    (g_table_index s) (g_phase_accumulator s)
    (g_multiplier_alignment_index s) (g_waveform s) (g_multiplier s)
    (g_tempo_adjust_offset s) (g_depth_ratio s) (g_depth_offset s)
    (g_depth_table s) (is_counting_tempo s) (has_received_tap_input s)
    (has_random_seed s) (g_tempo_ms_count s) (previous_sync_input s)
    (OCR0A s) (PORTA_TEMPO_OUT s) v (srand_log s) (random_log s).

Definition set_srand_log (v : list Z) (s : State) : State :=
  mkState (g_random_number s) (g_base_tempo s) (g_base_duty_cycle s)
    (g_base_table_index s) (g_base_phase_accumulator s) (g_duty_cycle s)
    (g_table_index s) (g_phase_accumulator s)
    (g_multiplier_alignment_index s) (g_waveform s) (g_multiplier s)
    (g_tempo_adjust_offset s) (g_depth_ratio s) (g_depth_offset s)
    (g_depth_table s) (is_counting_tempo s) (has_received_tap_input s)
    (has_random_seed s) (g_tempo_ms_count s) (previous_sync_input s)
    (OCR0A s) (PORTA_TEMPO_OUT s) (rand_next s) v (random_log s).

Definition set_random_log (v : list Z) (s : State) : State :=
  mkState (g_random_number s) (g_base_tempo s) (g_base_duty_cycle s)
    (g_base_table_index s) (g_base_phase_accumulator s) (g_duty_cycle s)
    (g_table_index s) (g_phase_accumulator s)
    (g_multiplier_alignment_index s) (g_waveform s) (g_multiplier s)
    (g_tempo_adjust_offset s) (g_depth_ratio s) (g_depth_offset s)
    (g_depth_table s) (is_counting_tempo s) (has_received_tap_input s)
    (has_random_seed s) (g_tempo_ms_count s) (previous_sync_input s)
    (OCR0A s) (PORTA_TEMPO_OUT s) (rand_next s) (srand_log s) v.

(** ** The depth table: a 256-entry byte array *)

Definition tget (t : list Z) (i : Z) : Z := nth (Z.to_nat i) t 0.

Fixpoint upd (n : nat) (v : Z) (t : list Z) : list Z :=
  match t, n with
  | [], _ => []
  | _ :: r, O => v :: r
  | x :: r, S k => x :: upd k v r
  end.

(** [t[i] = v].  Every index the firmware uses lies inside the array; a
    write outside it (undefined in C) leaves the list as it is. *)
Definition tset (t : list Z) (i : Z) (v : Z) : list Z :=
  if i <? 0 then t else upd (Z.to_nat i) v t.

(** [for (i = lo; ...; i++) body], run for [n] iterations. *)
Fixpoint for_loop {A : Type} (n : nat) (i : Z) (body : Z -> A -> A) (a : A) : A :=
  match n with
  | O => a
  | S n' => for_loop n' (i + 1) body (body i a)
  end.

(** ** signaling.c: local functions *)

Definition CalcSignalDepth (s : State) (value : Z) : Z :=
  let value := C.u8 value in
  if g_depth_ratio s =? 100 then value
  else
    C.u8 (F32.to_Z
            (F32.add (F32.of_Z (g_depth_offset s))
                     (F32.div (F32.of_Z (C.s16 (value * g_depth_ratio s)))
                              (F32.of_Z 100)))).

Definition ResetBaseTempo (s : State) : State :=
  set_g_base_phase_accumulator 0 (set_g_base_table_index 0 s).

Definition RecalculateTempo (s : State) : State :=
  let new_frequency :=
    F32.div TEMPO_TO_FREQUENCY
            (F32.of_Z (C.u16 (g_base_tempo s + g_tempo_adjust_offset s))) in
  let s1 :=
    set_g_base_duty_cycle
      (C.u32 (F32.to_Z (F32.mul new_frequency (F32.of_Z DUTY_CYCLE_DIVISOR)))) s in
  set_g_duty_cycle
    (C.u32 (F32.to_Z (F32.mul (F32.of_Z (g_base_duty_cycle s1))
                              (k_multiplier_ratio (g_multiplier s1))))) s1.

(** The product may exceed 32 bits, which the source's note expects to
    wrap; the conversion is taken modulo 2^32. *)
Definition AdjustPhaseAccumulation (s : State) : State :=
  set_g_phase_accumulator
    (C.u32 (F32.to_Z
              (F32.mul (F32.of_Z (g_base_phase_accumulator s))
                       (F32.mul (k_multiplier_ratio (g_multiplier s))
                                (F32.of_Z (g_multiplier_alignment_index s))))))
    s.

(** ** signaling.c: the depth table builder *)

Definition quad_pulse_high (i : Z) : bool :=
  ((0 <=? i) && (i <? 16)) || ((32 <=? i) && (i <? 48))
  || ((64 <=? i) && (i <? 80)) || ((96 <=? i) && (i <? 112)).

(** The body of CalcDepthTable's [switch], with CalcSignalDepth (which
    reads only g_depth_ratio and g_depth_offset, neither written here)
    passed as [csd]. *)
Definition CalcDepthTable_fill (csd : Z -> Z) (w : option Waveform) (t : list Z)
  : list Z :=
  match w with
  | Some WaveformSine =>
      for_loop 64 0
        (fun i t =>
           let t := tset t i (csd (k_sine_table i)) in
           let t := tset t (255 - i) (tget t i) in
           let t := tset t (127 - i) (csd (255 - k_sine_table i)) in
           tset t (128 + i) (tget t (127 - i)))
        t
  | Some WaveformRampUp | Some WaveformRandom =>
      for_loop 256 0 (fun i t => tset t i (csd i)) t
  | Some WaveformRampDown =>
      for_loop 256 0 (fun i t => tset t i (csd (255 - i))) t
  | Some WaveformTriangle =>
      for_loop 128 0
        (fun i t =>
           let t := tset t i (csd (i * 2)) in
           tset t (255 - i) (tget t i))
        t
  | Some WaveformSquare =>
      let t := tset t 0 (csd 0) in
      for_loop 255 1
        (fun i t => if i <? 128 then tset t i (tget t 0) else tset t i 255)
        t
  | Some WaveformQuadPulse =>
      let t := tset t 255 (csd 0) in
      for_loop 256 0
        (fun i t =>
           if quad_pulse_high i then tset t i 255 else tset t i (tget t 255))
        t
  | None => t
  end.

Definition CalcDepthTable (s : State) : State :=
  set_g_depth_table
    (CalcDepthTable_fill (CalcSignalDepth s) (Waveform_of_Z (g_waveform s))
                         (g_depth_table s))
    s.

(** ** signaling.c: public functions *)

Definition SetBaseTempo (milliseconds : Z) (s : State) : State :=
  if (milliseconds >? LFO_MIN_TEMPO) || (milliseconds <? LFO_MAX_TEMPO) then s
  else if (g_base_tempo s >? C.u16 (milliseconds + 2))
          || (g_base_tempo s <? C.u16 (milliseconds - 2))
  then RecalculateTempo (set_g_tempo_adjust_offset 0 (set_g_base_tempo milliseconds s))
  else s.

Definition AlignWaveform (s : State) : State :=
  let s :=
    if g_multiplier_alignment_index s >=? MULTIPLIER_ALIGNMENT_OFFSET
    then set_g_multiplier_alignment_index 0 s else s in
  let s :=
    if C.rem (g_multiplier_alignment_index s)
             (k_multiplier_alignment (g_multiplier s)) =? 0
    then set_g_phase_accumulator 0 s else s in
  set_g_multiplier_alignment_index (C.u8 (g_multiplier_alignment_index s + 1)) s.

Definition StartTempoCount (s : State) : State :=
  let s := set_g_tempo_ms_count 0 s in
  let s := set_is_counting_tempo true s in
  AlignWaveform (ResetBaseTempo s).

Definition StopTempoCount (s : State) : State :=
  let s :=
    if is_counting_tempo s then
      let s := set_is_counting_tempo false s in
      let s := SetBaseTempo (g_tempo_ms_count s) s in
      set_g_tempo_ms_count 0 s
    else s in
  AlignWaveform (ResetBaseTempo s).

Definition TempoCountTimeout (s : State) : State :=
  set_g_tempo_ms_count 0 (set_is_counting_tempo false s).

Definition ResetSignals (s : State) : State :=
  let s := ResetBaseTempo s in
  let s := set_g_phase_accumulator 0 s in
  let s := set_g_table_index 0 s in
  set_g_multiplier_alignment_index 0 s.

(** [srand] takes an [unsigned int], 16 bits here, and stores it as the
    generator's state. *)
Definition SeedRandomNumberGenerator (seed : Z) (s : State) : State :=
  set_srand_log (seed :: srand_log s) (set_rand_next (C.u16 seed) s).

Definition AdjustSpeed (change_value : Z) (s : State) : State :=
  let new_tempo_count :=
    C.s16 (g_base_tempo s + g_tempo_adjust_offset s + change_value) in
  if (new_tempo_count >? LFO_MIN_TEMPO) || (new_tempo_count <? LFO_MAX_TEMPO)
  then s
  else
    RecalculateTempo
      (set_g_tempo_adjust_offset (C.s16 (g_tempo_adjust_offset s + change_value)) s).

Definition ResetSpeedAdjustSetting (s : State) : State :=
  RecalculateTempo (set_g_tempo_adjust_offset 0 s).

Definition SetWaveform (change_value : Z) (s : State) : State :=
  let s :=
    if (g_waveform s =? Waveform_to_Z WaveformSine) && (change_value <? 0)
    then set_g_waveform (Waveform_to_Z WaveformRandom) s
    else if (g_waveform s =? Waveform_to_Z WaveformRandom) && (change_value >? 0)
    then set_g_waveform (Waveform_to_Z WaveformSine) s
    else set_g_waveform (g_waveform s + change_value) s in
  CalcDepthTable s.

Definition ResetWaveformSetting (s : State) : State :=
  set_g_waveform (Waveform_to_Z WaveformSine) s.

Definition SetMultiplier (change_value : Z) (s : State) : State :=
  let multiplier :=
    if (g_multiplier s =? Multiplier_to_Z MultiplierWhole) && (change_value <? 0)
    then Multiplier_to_Z MultiplierWhole
    else if (g_multiplier s =? Multiplier_to_Z MultiplierSixteenth)
            && (change_value >? 0)
    then Multiplier_to_Z MultiplierSixteenth
    else g_multiplier s + change_value in
  if negb (multiplier =? g_multiplier s)
  then AdjustPhaseAccumulation (RecalculateTempo (set_g_multiplier multiplier s))
  else s.

Definition ResetMultiplierSetting (s : State) : State :=
  if negb (g_multiplier s =? Multiplier_to_Z MultiplierQuarter)
  then AdjustPhaseAccumulation
         (RecalculateTempo (set_g_multiplier (Multiplier_to_Z MultiplierQuarter) s))
  else s.

Definition SetDepth (change_value : Z) (s : State) : State :=
  let step s := set_g_depth_ratio (C.u8 (g_depth_ratio s + change_value * 5)) s in
  let '(s, updateDepthTable) :=
    if (g_depth_ratio s >=? 5) && (g_depth_ratio s <=? 95) then (step s, true)
    else if (change_value >? 0) && (g_depth_ratio s =? 0) then (step s, true)
    else if (change_value <? 0) && (g_depth_ratio s =? 100) then (step s, true)
    else (s, false) in
  let s :=
    set_g_depth_offset
      (C.u8 (F32.to_Z
               (F32.div (F32.mul (F32.of_Z 255) (F32.of_Z (100 - g_depth_ratio s)))
                        (F32.of_Z 100))))
      s in
  if updateDepthTable then CalcDepthTable s else s.

Definition ResetDepthSetting (s : State) : State :=
  CalcDepthTable (set_g_depth_offset 0 (set_g_depth_ratio 100 s)).

(** ** The handlers that draw random numbers

    [rand] is the C library's generator: from its state it yields the
    value returned and the next state.  The firmware is embedded for an
    arbitrary generator. *)

Section Firmware.

Variable rand : Z -> Z * Z.

Definition UpdateRandomNumber (s : State) : State :=
  let '(r, next) := rand (rand_next s) in
  let v := C.u8 (C.rem r WAVEFORM_RANDOM_STEP_COUNT * WAVEFORM_STEP_SIZE) in
  set_random_log (v :: random_log s)
    (set_g_random_number v (set_rand_next next s)).

Definition PlotWaveform (s : State) : State :=
  let previous_table_index := g_table_index s in
  let s :=
    set_g_phase_accumulator (C.u32 (g_phase_accumulator s + g_duty_cycle s)) s in
  let s :=
    set_g_table_index
      (Z.shiftr (Z.land (g_phase_accumulator s) 4278190080) 24) s in
  let s :=
    if g_waveform s =? Waveform_to_Z WaveformRandom
    then set_OCR0A (tget (g_depth_table s) (g_random_number s)) s
    else set_OCR0A (tget (g_depth_table s) (g_table_index s)) s in
  if previous_table_index >? g_table_index s
  then UpdateRandomNumber (set_PORTA_TEMPO_OUT (negb (PORTA_TEMPO_OUT s)) s)
  else s.

(** *** main.c *)

(** Timer0 overflow, the sample tick. *)
Definition TIM0_OVF_vect (s : State) : State :=
  let s :=
    set_g_base_phase_accumulator
      (C.u32 (g_base_phase_accumulator s + g_base_duty_cycle s)) s in
  let s :=
    set_g_base_table_index
      (Z.shiftr (Z.land (g_base_phase_accumulator s) 4278190080) 24) s in
  PlotWaveform s.

(** Timer1 compare, the 1 kHz tick: the tempo count.  The debouncer, the
    mode-reset hold timer and the speed-adjust idle counter act on the
    switching and mode modules, whose calls into the core are the
    [EvSet...] and [EvReset...] events below. *)
Definition TIM1_COMPA_vect (s : State) : State :=
  if is_counting_tempo s then
    let s := set_g_tempo_ms_count (C.u16 (g_tempo_ms_count s + 1)) s in
    if g_tempo_ms_count s >? LFO_MIN_TEMPO then TempoCountTimeout s else s
  else s.

(** Pin change on the sync input, read as [sync_input]. *)
Definition PCINT1_vect (sync_input : bool) (s : State) : State :=
  if negb (eqb sync_input (previous_sync_input s)) then
    let s := set_previous_sync_input sync_input s in
    if sync_input then StopTempoCount s else StartTempoCount s
  else s.

(** The main loop's reaction to [SwitchWasClosed(1 << TAP_IN)]. *)
Definition main_tap_closed (s : State) : State :=
  let s :=
    if negb (is_counting_tempo s) then StartTempoCount (ResetSignals s)
    else set_has_received_tap_input true (StopTempoCount (ResetSignals s)) in
  if negb (has_random_seed s) then
    if negb (has_received_tap_input s) then
      let s := set_has_random_seed true s in
      UpdateRandomNumber (SeedRandomNumberGenerator (g_tempo_ms_count s) s)
    else s
  else s.

(** The statically initialised globals. *)
Definition power_on : State :=
  {| g_random_number := 0;
     g_base_tempo := 0;
     g_base_duty_cycle := 0;
     g_base_table_index := 255;
     g_base_phase_accumulator := 0;
     g_duty_cycle := 0;
     g_table_index := 0;
     g_phase_accumulator := 0;
     g_multiplier_alignment_index := 0;
     g_waveform := Waveform_to_Z WaveformSine;
     g_multiplier := Multiplier_to_Z MultiplierQuarter;
     g_tempo_adjust_offset := 0;
     g_depth_ratio := 100;
     g_depth_offset := 0;
     g_depth_table := repeat 0 256;
     is_counting_tempo := false;
     has_received_tap_input := false;
     has_random_seed := false;
     g_tempo_ms_count := 0;
     previous_sync_input := false;
     OCR0A := 0;
     PORTA_TEMPO_OUT := false;
     rand_next := 1;
     srand_log := [];
     random_log := [] |}.

(** [main] up to its loop: the ports are driven high, the generator is
    seeded and the default tempo set.  InitializeSwitching, the power
    reduction and the timer set-up write no variable of the core. *)
Definition main_init (s : State) : State :=
  let s := set_PORTA_TEMPO_OUT true s in
  let s := SeedRandomNumberGenerator 0 s in
  let s := UpdateRandomNumber s in
  SetBaseTempo DEFAULT_TEMPO s.

Definition boot : State := main_init power_on.

(** *** Runs *)

Inductive Event : Type :=
| EvSample
| EvMillisecond
| EvTap
| EvSync (sync_input : bool)
| EvSetWaveform (change_value : Z)
| EvSetMultiplier (change_value : Z)
| EvSetDepth (change_value : Z)
| EvAdjustSpeed (change_value : Z)
| EvResetWaveform
| EvResetMultiplier
| EvResetDepth
| EvResetSpeedAdjust.

Definition step (e : Event) (s : State) : State :=
  match e with
  | EvSample => TIM0_OVF_vect s
  | EvMillisecond => TIM1_COMPA_vect s
  | EvTap => main_tap_closed s
  | EvSync b => PCINT1_vect b s
  | EvSetWaveform c => SetWaveform c s
  | EvSetMultiplier c => SetMultiplier c s
  | EvSetDepth c => SetDepth c s
  | EvAdjustSpeed c => AdjustSpeed c s
  | EvResetWaveform => ResetWaveformSetting s
  | EvResetMultiplier => ResetMultiplierSetting s
  | EvResetDepth => ResetDepthSetting s
  | EvResetSpeedAdjust => ResetSpeedAdjustSetting s
  end.

Fixpoint run (es : list Event) (s : State) : State :=
  match es with
  | [] => s
  | e :: es' => run es' (step e s)
  end.

Definition is_tap (e : Event) : bool :=
  match e with EvTap => true | _ => false end.

(** *** Observations of a run of sample ticks *)

Definition toggles (s : State) : bool :=
  negb (eqb (PORTA_TEMPO_OUT (TIM0_OVF_vect s)) (PORTA_TEMPO_OUT s)).

Definition base_index_wraps (s : State) : bool :=
  g_base_table_index s >? g_base_table_index (TIM0_OVF_vect s).

Definition working_index_wraps (s : State) : bool :=
  g_table_index s >? g_table_index (TIM0_OVF_vect s).

(** How many of the next [n] sample ticks satisfy [p] in the state they
    start from. *)
Fixpoint count_ticks (p : State -> bool) (n : nat) (s : State) : nat :=
  match n with
  | O => O
  | S n' => ((if p s then 1 else 0) + count_ticks p n' (TIM0_OVF_vect s))%nat
  end.

End Firmware.

(** avr-libc's [rand] (the library's [do_rand]): the minimal-standard
    generator by Schrage's method, on a 32-bit state. *)
Definition libc_rand (ctx : Z) : Z * Z :=
  let x := if ctx <? 2147483648 then ctx else ctx - 4294967296 in
  let x := if x =? 0 then 123459876 else x in
  let hi := Z.quot x 127773 in
  let lo := Z.rem x 127773 in
  let x := 16807 * lo - 2836 * hi in
  let x := if x <? 0 then x + 2147483647 else x in
  let next := C.u32 x in
  (next mod 32768, next).

(** ** The shapes as the data model words them

    [spec_WaveformSample w i] is the raw sample of waveform [w] at index
    [i] before depth scaling: the quarter sine table mirrored four ways,
    the two ramps, the triangle, the square and the four pulses. *)

Definition spec_WaveformSample (w : Waveform) (i : Z) : Z :=
  match w with
  | WaveformSine =>
      if i <? 64 then k_sine_table i
      else if i <? 128 then 255 - k_sine_table (127 - i)
      else if i <? 192 then 255 - k_sine_table (i - 128)
      else k_sine_table (255 - i)
  | WaveformRampUp | WaveformRandom => i
  | WaveformRampDown => 255 - i
  | WaveformTriangle => if i <? 128 then 2 * i else 2 * (255 - i)
  | WaveformSquare => if i <? 128 then 0 else 255
  | WaveformQuadPulse => if quad_pulse_high i then 255 else 0
  end.

(** What CalcDepthTable stores at index [i] for waveform [w]: the scaled
    sample, except that Square and QuadPulse store their high level as the
    literal 255. *)
Definition stored_sample (csd : Z -> Z) (w : Waveform) (i : Z) : Z :=
  match w with
  | WaveformSquare | WaveformQuadPulse =>
      if spec_WaveformSample w i =? 255 then 255
      else csd (spec_WaveformSample w i)
  | _ => csd (spec_WaveformSample w i)
  end.

(** [f] applied [n] times. *)
Fixpoint iter {A : Type} (n : nat) (f : A -> A) (x : A) : A :=
  match n with
  | O => x
  | S n' => iter n' f (f x)
  end.

(** The indices 0 .. n-1. *)
Definition indices (n : nat) : list Z := map Z.of_nat (seq 0 n).

(** The integer reading of the depth scaling: the offset SetDepth derives
    from a ratio, and the check that, with that offset, the
    single-precision expression of CalcSignalDepth yields
    DepthOffset + floor (value * DepthRatio / 100) on every byte. *)
Definition depth_offset_of (ratio : Z) : Z := 255 * (100 - ratio) / 100.

Definition CalcSignalDepth_agrees (ratio : Z) : bool :=
  forallb
    (fun v =>
       CalcSignalDepth
         (set_g_depth_offset (depth_offset_of ratio)
            (set_g_depth_ratio ratio power_on))
         v
       =? depth_offset_of ratio + v * ratio / 100)
    (indices 256).

(** ** Scenarios

    States reached from [boot] with avr-libc's generator. *)

(** Depth turned down ten steps to 50 %, then Square selected. *)
Definition half_depth_square : State :=
  run libc_rand (repeat (EvSetDepth (-1)) 10 ++ repeat (EvSetWaveform 1) 4)
      (boot libc_rand).

(** Square selected at full depth. *)
Definition full_depth_square : State :=
  run libc_rand (repeat (EvSetWaveform 1) 4) (boot libc_rand).

(** Eighth notes (ratio 2) selected, then a tempo of 100 ms tapped in; the
    second tap leaves both accumulators and both indices at 0. *)
Definition eighth_at_100ms : State :=
  run libc_rand
      ([EvSetMultiplier 1; EvSetMultiplier 1; EvTap]
         ++ repeat EvMillisecond 100 ++ [EvTap])
      (boot libc_rand).

(** The same tempo tapped in with the multiplier left at Quarter. *)
Definition quarter_at_100ms : State :=
  run libc_rand ([EvTap] ++ repeat EvMillisecond 100 ++ [EvTap]) (boot libc_rand).

(** Twelve changes of the sync input, starting with a rising edge. *)
Definition twelve_sync_edges : list Event :=
  [ EvSync true; EvSync false; EvSync true; EvSync false;
    EvSync true; EvSync false; EvSync true; EvSync false;
    EvSync true; EvSync false; EvSync true; EvSync false ].

(** The effect of SetDepth on g_depth_ratio alone. *)
Definition SetDepth_ratio (change_value ratio : Z) : Z :=
  if (ratio >=? 5) && (ratio <=? 95) then C.u8 (ratio + change_value * 5)
  else if (change_value >? 0) && (ratio =? 0) then C.u8 (ratio + change_value * 5)
  else if (change_value <? 0) && (ratio =? 100) then C.u8 (ratio + change_value * 5)
  else ratio.

(** The depth ratios that steps of +1 and -1 reach from 100. *)
Definition depth_ratio_reachable (ratio : Z) : Prop :=
  0 <= ratio <= 100 /\ ratio mod 5 = 0.

(** One tap, 500 ms, a second tap. *)
Definition taps_500ms_apart : list Event :=
  [EvTap] ++ repeat EvMillisecond 500 ++ [EvTap].

(** The default tempo replaced by a tapped 500 ms. *)
Definition quarter_at_500ms : State :=
  run libc_rand taps_500ms_apart (boot libc_rand).

(** ** The generator's sequence *)

(** What a run does to the generator is read off three fields. *)
Definition rng_view (s : State) : Z * list Z * list Z :=
  (rand_next s, random_log s, srand_log s).

(** [srand (seed)] on a view. *)
Definition seed_view (seed : Z) (v : Z * list Z * list Z) : Z * list Z * list Z :=
  let '(_, log, seeds) := v in (C.u16 seed, log, seed :: seeds).

Section Sequence.

Variable rand : Z -> Z * Z.

(** The level UpdateRandomNumber derives from one value of [rand]. *)
Definition random_level (r : Z) : Z :=
  C.u8 (C.rem r WAVEFORM_RANDOM_STEP_COUNT * WAVEFORM_STEP_SIZE).

(** One refresh of g_random_number on a view. *)
Definition draw_view (v : Z * list Z * list Z) : Z * list Z * list Z :=
  let '(next, log, seeds) := v in
  (snd (rand next), random_level (fst (rand next)) :: log, seeds).

(** The generator state after [n] calls from state [x]. *)
Fixpoint draws (n : nat) (x : Z) : Z :=
  match n with
  | O => x
  | S n' => snd (rand (draws n' x))
  end.

(** The [n]-th level drawn from state [x], counting from 0. *)
Definition random_value_at (x : Z) (n : nat) : Z :=
  random_level (fst (rand (draws n x))).

(** A view whose generator was seeded once, with 0, and has since only
    been drawn from. *)
Definition canonical_view (v : Z * list Z * list Z) : Prop :=
  let '(next, log, seeds) := v in
  seeds = [0]
  /\ rev log = map (random_value_at 0) (seq 0 (length log))
  /\ next = draws (length log) 0.

End Sequence.

Definition no_tap (es : list Event) : Prop :=
  forallb (fun e => negb (is_tap e)) es = true.

(** A 50 ms tempo set from the sync input, sixteenth notes, 400 samples. *)
Definition synced_sixteenths : list Event :=
  [EvSync true; EvSync false] ++ repeat EvMillisecond 50 ++ [EvSync true]
    ++ repeat (EvSetMultiplier 1) 5 ++ repeat EvSample 400.

(** The same tempo, triplets, Random selected, 1100 samples. *)
Definition synced_triplets_random : list Event :=
  [EvSetWaveform (-1); EvSync true; EvSync false] ++ repeat EvMillisecond 50
    ++ [EvSync true] ++ repeat (EvSetMultiplier 1) 4 ++ repeat EvSample 1100.

(** ** Settings reached with the encoder

    The mode module passes the encoder's +1 and -1 on to SetWaveform,
    SetMultiplier and SetDepth. *)

Definition unit_step (c : Z) : bool := (c =? 1) || (c =? -1).

Definition encoder_event (e : Event) : bool :=
  match e with
  | EvSetWaveform c | EvSetMultiplier c | EvSetDepth c => unit_step c
  | _ => true
  end.

Definition encoder_run (es : list Event) : Prop :=
  forallb encoder_event es = true.

(** The waveform and the multiplier name entries of their enumerations, the
    depth ratio is one of 0, 5, ..., 100 with the offset derived from it,
    and the depth table has its 256 entries. *)
Definition settings_ok (s : State) : Prop :=
  0 <= g_waveform s <= 6
  /\ 0 <= g_multiplier s <= 9
  /\ depth_ratio_reachable (g_depth_ratio s)
  /\ g_depth_offset s = depth_offset_of (g_depth_ratio s)
  /\ length (g_depth_table s) = 256%nat.

Definition table_in_range (s : State) : Prop :=
  Forall (fun v => g_depth_offset s <= v <= 255) (g_depth_table s).

(** The fields the timing handlers (sample tick, millisecond tick, tap,
    sync edge) and the speed trim never write. *)
Definition settings_view (s : State) : Z * Z * Z * Z * list Z :=
  (g_waveform s, g_multiplier s, g_depth_ratio s, g_depth_offset s,
   g_depth_table s).

(** SetDepth's single-precision offset, checked against the integer
    formula on every ratio from 0 to 100. *)
Definition depth_offset_agrees (ratio : Z) : bool :=
  C.u8 (F32.to_Z (F32.div (F32.mul (F32.of_Z 255) (F32.of_Z (100 - ratio)))
                          (F32.of_Z 100)))
  =? depth_offset_of ratio.

Definition sample_is_byte (w : Waveform) (i : Z) : bool :=
  (0 <=? spec_WaveformSample w i) && (spec_WaveformSample w i <=? 255).

Definition all_waveforms : list Waveform :=
  [ WaveformSine; WaveformRampUp; WaveformRampDown; WaveformTriangle;
    WaveformSquare; WaveformQuadPulse; WaveformRandom ].

(** Mirror and reversal relations between raw samples, checked on every
    index. *)
Definition sample_symmetries (i : Z) : bool :=
  (spec_WaveformSample WaveformSine (255 - i) =? spec_WaveformSample WaveformSine i)
  && (spec_WaveformSample WaveformTriangle (255 - i)
      =? spec_WaveformSample WaveformTriangle i)
  && (spec_WaveformSample WaveformRampDown i
      =? spec_WaveformSample WaveformRampUp (255 - i)).

(** Ten depth steps down, then four waveform steps up. *)
Definition depth_down_then_square : list Event :=
  repeat (EvSetDepth (-1)) 10 ++ repeat (EvSetWaveform 1) 4.

(** ** Tempo, count and phase: what every run keeps *)

(** The two values RecalculateTempo stores, as functions of what it
    reads. *)
Definition base_duty_of (tempo : Z) : Z :=
  C.u32 (F32.to_Z (F32.mul (F32.div TEMPO_TO_FREQUENCY (F32.of_Z tempo))
                           (F32.of_Z DUTY_CYCLE_DIVISOR))).

Definition working_duty_of (base_duty multiplier : Z) : Z :=
  C.u32 (F32.to_Z (F32.mul (F32.of_Z base_duty) (k_multiplier_ratio multiplier))).

(** The base tempo and the trimmed tempo lie in the accepted range and
    both duty cycles are the ones RecalculateTempo derives from them. *)
Definition tempo_ok (s : State) : Prop :=
  LFO_MAX_TEMPO <= g_base_tempo s <= LFO_MIN_TEMPO
  /\ LFO_MAX_TEMPO <= g_base_tempo s + g_tempo_adjust_offset s <= LFO_MIN_TEMPO
  /\ g_base_duty_cycle s
     = base_duty_of (C.u16 (g_base_tempo s + g_tempo_adjust_offset s))
  /\ g_duty_cycle s = working_duty_of (g_base_duty_cycle s) (g_multiplier s).

(** The millisecond count never passes LFO_MIN_TEMPO and is 0 when no
    count is running. *)
Definition count_ok (s : State) : Prop :=
  0 <= g_tempo_ms_count s <= LFO_MIN_TEMPO
  /\ (is_counting_tempo s = false -> g_tempo_ms_count s = 0).

(** Both table indices and the random level are bytes, both accumulators
    32-bit words. *)
Definition phase_ok (s : State) : Prop :=
  0 <= g_random_number s <= 255
  /\ 0 <= g_table_index s <= 255
  /\ 0 <= g_base_table_index s <= 255
  /\ 0 <= g_phase_accumulator s < 4294967296
  /\ 0 <= g_base_phase_accumulator s < 4294967296.

Definition core_ok (s : State) : Prop := tempo_ok s /\ count_ok s /\ phase_ok s.

(** The working index is the top byte of the working accumulator, as after
    any sample tick, and the duty cycle is small enough for a carry out of
    the accumulator to lower that byte. *)
Definition tick_consistent (s : State) : Prop :=
  0 <= g_phase_accumulator s < 4294967296
  /\ g_table_index s = g_phase_accumulator s / 16777216
  /\ 0 <= g_duty_cycle s <= 4278190080.

(** What a tap is about: the counting flag, the count, the base tempo, and
    the two accumulators with their indices and the alignment index. *)
Definition tap_view (s : State) : bool * Z * Z * (Z * Z * Z * Z * Z) :=
  (is_counting_tempo s, g_tempo_ms_count s, g_base_tempo s,
   (g_base_phase_accumulator s, g_base_table_index s, g_phase_accumulator s,
    g_table_index s, g_multiplier_alignment_index s)).

(** The tempo SetBaseTempo leaves when asked for [ms] while [base] is
    current. *)
Definition tempo_after (ms base : Z) : Z :=
  if (ms >? LFO_MIN_TEMPO) || (ms <? LFO_MAX_TEMPO) then base
  else if (base >? C.u16 (ms + 2)) || (base <? C.u16 (ms - 2)) then ms
  else base.

(** Both accumulators and indices cleared, the alignment index at 1. *)
Definition restarted : Z * Z * Z * Z * Z := (0, 0, 0, 0, 1).

(** A tap, [n] milliseconds, a tap. *)
Definition tap_pair (n : nat) : list Event :=
  [EvTap] ++ repeat EvMillisecond n ++ [EvTap].

(** AlignWaveform's effect on the alignment index alone. *)
Definition next_alignment_index (i : Z) : Z := i mod 12 + 1.

(** For one tempo: the base duty cycle is floor (137438000 / tempo) or one
    more, and the Quarter, Eighth, Triplet and Sixteenth multipliers give
    exactly 1, 2, 3 and 4 times it. *)
Definition duty_cycles_exact (tempo : Z) : bool :=
  let d := base_duty_of tempo in
  (137438000 / tempo <=? d) && (d <=? 137438000 / tempo + 1)
  && (working_duty_of d (Multiplier_to_Z MultiplierQuarter) =? d)
  && (working_duty_of d (Multiplier_to_Z MultiplierEighth) =? 2 * d)
  && (working_duty_of d (Multiplier_to_Z MultiplierTriplet) =? 3 * d)
  && (working_duty_of d (Multiplier_to_Z MultiplierSixteenth) =? 4 * d).

(** ** main.c: the rotary encoder (PCINT0_vect)

    The handler's two statics, and its call of the mode module as a
    result: [Some 1] for ModifyCurrentSelectionMode(1), [Some (-1)] for
    ModifyCurrentSelectionMode(-1). *)

Record Encoder : Type := mkEncoder {
  encoder_samples : Z;
  encoder_value : Z
}.

Definition encoder_table (i : Z) : Z :=
  nth (Z.to_nat i) [0; -1; 1; 0; 1; 0; 0; -1; -1; 0; 0; 1; 0; 1; -1; 0] 0.

Definition encoder_initial : Encoder :=
  {| encoder_samples := 3; encoder_value := 0 |}.

(** Two's-complement reading of an 8-bit pattern ([int8_t]). *)
Definition s8 (z : Z) : Z :=
  let w := C.u8 z in if w <? 128 then w else w - 256.

(** [a] and [b] are the levels read on pins ROTARY_A_IN and ROTARY_B_IN of
    PINA; the handler shifts the first to bit 0 and the second to bit 1. *)
Definition PCINT0_vect (a b : bool) (e : Encoder) : Encoder * option Z :=
  let samples := C.u8 (Z.shiftl (encoder_samples e) 2) in
  let samples := Z.lor samples (Z.lor (Z.b2z a) (Z.shiftl (Z.b2z b) 1)) in
  let value := s8 (encoder_value e + encoder_table (Z.land samples 15)) in
  if value >? 3 then (mkEncoder samples 0, Some 1)
  else if value <? -3 then (mkEncoder samples 0, Some (-1))
  else (mkEncoder samples value, None).

(** The handler run over a sequence of pin readings; the second component
    is the sum of the steps passed to the mode module. *)
Fixpoint PCINT0_run (ins : list (bool * bool)) (e : Encoder) : Encoder * Z :=
  match ins with
  | [] => (e, 0)
  | (a, b) :: ins' =>
      let '(e1, out) := PCINT0_vect a b e in
      let '(e2, total) := PCINT0_run ins' e1 in
      (e2, match out with Some c => c | None => 0 end + total)
  end.

(** The two pin levels as the 2-bit sample the handler stores. *)
Definition sample_of (ab : bool * bool) : Z :=
  Z.b2z (fst ab) + 2 * Z.b2z (snd ab).

(** The quarter steps the table assigns to a sequence of readings that
    follows the sample [prev]. *)
Fixpoint quarter_steps (prev : Z) (ins : list (bool * bool)) : Z :=
  match ins with
  | [] => 0
  | ab :: ins' =>
      encoder_table (4 * prev + sample_of ab) + quarter_steps (sample_of ab) ins'
  end.

Definition encoder_ok (e : Encoder) : Prop :=
  0 <= encoder_samples e <= 255 /\ -3 <= encoder_value e <= 3.

(** ** main.c: the mode switch and its hold timer

    The main loop's reactions to SwitchWasClosed and SwitchWasOpened for
    MODE_IN and the mode part of TIM1_COMPA_vect, with their calls of the
    mode module as results.

    The main loop runs these reactions with interrupts enabled; only the
    call of SetNextSelectionMode is inside an ATOMIC_BLOCK.  The timer
    interrupt can therefore be served between the statements of the
    release reaction, and the model says how often it is at each place. *)

Record ModeTimer : Type := mkModeTimer {
  is_counting_mode_reset_time : bool;
  is_resetting_mode : bool;
  g_mode_reset_ms_count : Z
}.

Inductive ModeCall : Type :=
| SetNextSelectionMode
| ResetCurrentSelectionMode.

(** [ModeOpened k1 k2 k3] is the release reaction with the timer interrupt
    served [k1] times after the test of is_resetting_mode, [k2] times
    after the store to is_counting_mode_reset_time and [k3] times after
    the store to g_mode_reset_ms_count.  The branch that only clears
    is_resetting_mode has the first of these places alone, and [k2] and
    [k3] are not used there.  Interrupts served before the test or after
    the reaction are [ModeMillisecond] events of their own. *)
Inductive ModeEvent : Type :=
| ModeClosed
| ModeOpened (k1 k2 k3 : nat)
| ModeMillisecond.

Section ModeSwitch.

(** The hold time, a constant of main.h. *)
Variable MODE_RESET_MIN_TIME : Z.

Definition main_mode_closed (t : ModeTimer) : ModeTimer :=
  mkModeTimer true (is_resetting_mode t) (g_mode_reset_ms_count t).

Definition TIM1_COMPA_vect_mode (t : ModeTimer) : ModeTimer * list ModeCall :=
  if is_counting_mode_reset_time t then
    let count := C.u16 (g_mode_reset_ms_count t + 1) in
    if count >=? MODE_RESET_MIN_TIME
    then (mkModeTimer false true 0, [ResetCurrentSelectionMode])
    else (mkModeTimer true (is_resetting_mode t) count, [])
  else (t, []).

(** The timer interrupt served [k] times in a row. *)
Fixpoint mode_ticks (k : nat) (t : ModeTimer) : ModeTimer * list ModeCall :=
  match k with
  | O => (t, [])
  | S k' =>
      let '(t1, calls) := TIM1_COMPA_vect_mode t in
      let '(t2, calls') := mode_ticks k' t1 in
      (t2, calls ++ calls')
  end.

Definition main_mode_opened (k1 k2 k3 : nat) (t : ModeTimer)
  : ModeTimer * list ModeCall :=
  if is_resetting_mode t then
    let '(t1, calls1) := mode_ticks k1 t in
    (mkModeTimer (is_counting_mode_reset_time t1) false
                 (g_mode_reset_ms_count t1),
     calls1)
  else
    let '(t1, calls1) := mode_ticks k1 t in
    let t2 :=
      mkModeTimer false (is_resetting_mode t1) (g_mode_reset_ms_count t1) in
    let '(t3, calls2) := mode_ticks k2 t2 in
    let t4 :=
      mkModeTimer (is_counting_mode_reset_time t3) (is_resetting_mode t3) 0 in
    let '(t5, calls3) := mode_ticks k3 t4 in
    (t5, calls1 ++ calls2 ++ calls3 ++ [SetNextSelectionMode]).

Definition mode_step (e : ModeEvent) (t : ModeTimer) : ModeTimer * list ModeCall :=
  match e with
  | ModeClosed => (main_mode_closed t, [])
  | ModeOpened k1 k2 k3 => main_mode_opened k1 k2 k3 t
  | ModeMillisecond => TIM1_COMPA_vect_mode t
  end.

Fixpoint mode_run (es : list ModeEvent) (t : ModeTimer)
  : ModeTimer * list ModeCall :=
  match es with
  | [] => (t, [])
  | e :: es' =>
      let '(t1, calls) := mode_step e t in
      let '(t2, calls') := mode_run es' t1 in
      (t2, calls ++ calls')
  end.

End ModeSwitch.

Definition mode_idle : ModeTimer := mkModeTimer false false 0.

(** A press: the switch closed, held for [held] milliseconds and opened,
    with the timer interrupt served [in_test], [in_flag] and [in_count]
    times inside the release reaction. *)
Record Press : Type := mkPress {
  held : nat;
  in_test : nat;
  in_flag : nat;
  in_count : nat
}.

Definition mode_press (p : Press) : list ModeEvent :=
  [ModeClosed] ++ repeat ModeMillisecond (held p)
    ++ [ModeOpened (in_test p) (in_flag p) (in_count p)].

(** The hold time is not reached between the release reaction's test of
    is_resetting_mode and its first store: it is reached while the switch
    is held, or not even with the interrupts served after the test. *)
Definition press_settled (min_time : Z) (p : Press) : Prop :=
  Z.of_nat (held p) + Z.of_nat (in_test p) < min_time
  \/ min_time <= Z.of_nat (held p).

Definition press_call (min_time : Z) (p : Press) : ModeCall :=
  if Z.of_nat (held p) <? min_time
  then SetNextSelectionMode else ResetCurrentSelectionMode.

(** * Properties *)

(** ** Machine integers *)

Lemma u8_range z : 0 <= C.u8 z < 256.
Proof. unfold C.u8. apply Z.mod_pos_bound. lia. Qed.

Lemma u8_small z : 0 <= z < 256 -> C.u8 z = z.
Proof. intros H. unfold C.u8. apply Z.mod_small. exact H. Qed.

Lemma u16_small z : 0 <= z < 65536 -> C.u16 z = z.
Proof. intros H. unfold C.u16. apply Z.mod_small. exact H. Qed.

(** ** Reading fields through updates *)

Ltac state_simpl :=
  cbn [
    g_random_number g_base_tempo g_base_duty_cycle g_base_table_index
    g_base_phase_accumulator g_duty_cycle g_table_index g_phase_accumulator
    g_multiplier_alignment_index g_waveform g_multiplier
    g_tempo_adjust_offset g_depth_ratio g_depth_offset g_depth_table
    is_counting_tempo has_received_tap_input has_random_seed
    g_tempo_ms_count previous_sync_input OCR0A PORTA_TEMPO_OUT rand_next
    srand_log random_log set_g_random_number set_g_base_tempo
    set_g_base_duty_cycle set_g_base_table_index
    set_g_base_phase_accumulator set_g_duty_cycle set_g_table_index
    set_g_phase_accumulator set_g_multiplier_alignment_index set_g_waveform
    set_g_multiplier set_g_tempo_adjust_offset set_g_depth_ratio
    set_g_depth_offset set_g_depth_table set_is_counting_tempo
    set_has_received_tap_input set_has_random_seed set_g_tempo_ms_count
    set_previous_sync_input set_OCR0A set_PORTA_TEMPO_OUT set_rand_next
    set_srand_log set_random_log ].

Ltac state_simpl_all :=
  cbn [
    g_random_number g_base_tempo g_base_duty_cycle g_base_table_index
    g_base_phase_accumulator g_duty_cycle g_table_index g_phase_accumulator
    g_multiplier_alignment_index g_waveform g_multiplier
    g_tempo_adjust_offset g_depth_ratio g_depth_offset g_depth_table
    is_counting_tempo has_received_tap_input has_random_seed
    g_tempo_ms_count previous_sync_input OCR0A PORTA_TEMPO_OUT rand_next
    srand_log random_log set_g_random_number set_g_base_tempo
    set_g_base_duty_cycle set_g_base_table_index
    set_g_base_phase_accumulator set_g_duty_cycle set_g_table_index
    set_g_phase_accumulator set_g_multiplier_alignment_index set_g_waveform
    set_g_multiplier set_g_tempo_adjust_offset set_g_depth_ratio
    set_g_depth_offset set_g_depth_table set_is_counting_tempo
    set_has_received_tap_input set_has_random_seed set_g_tempo_ms_count
    set_previous_sync_input set_OCR0A set_PORTA_TEMPO_OUT set_rand_next
    set_srand_log set_random_log ] in *.

(** Splits on every conditional of the goal, simplifying field reads. *)
Ltac split_ifs :=
  repeat (state_simpl;
          match goal with
          | |- context [if ?c then _ else _] => destruct c eqn:?
          end);
  state_simpl_all.

(** ** Lists as arrays *)

Lemma map_nth_seq (t : list Z) (d : Z) :
  map (fun n => nth n t d) (seq 0 (length t)) = t.
Proof.
  induction t as [|x r IH]; simpl; [reflexivity|].
  f_equal. rewrite <- seq_shift, map_map. exact IH.
Qed.

Lemma tget_indices (g : Z -> Z) (n : nat) (i : Z) :
  0 <= i < Z.of_nat n -> tget (map g (indices n)) i = g i.
Proof.
  intros Hi. unfold tget, indices. rewrite map_map.
  rewrite nth_indep with (d' := g (Z.of_nat 0)).
  - rewrite (map_nth (fun x => g (Z.of_nat x)) (seq 0 n) 0%nat).
    rewrite seq_nth by lia. simpl. f_equal. lia.
  - rewrite length_map, length_seq. lia.
Qed.

(** ** The depth table builder *)

Section DepthTable.

Variable csd : Z -> Z.

Lemma CalcDepthTable_fill_stored (w : Waveform) (t : list Z) :
  length t = 256%nat ->
  CalcDepthTable_fill csd (Some w) t = map (stored_sample csd w) (indices 256).
Proof.
  intros Hlen. rewrite <- (map_nth_seq t 0). rewrite Hlen.
  destruct w; vm_compute; reflexivity.
Qed.

End DepthTable.

Lemma CalcSignalDepth_floor_all :
  forallb CalcSignalDepth_agrees (indices 100) = true.
Proof. vm_compute. reflexivity. Qed.

Lemma In_indices (n : nat) (i : Z) : In i (indices n) <-> 0 <= i < Z.of_nat n.
Proof.
  unfold indices. rewrite in_map_iff. split.
  - intros [k [Hk Hin]]. apply in_seq in Hin. lia.
  - intros Hi. exists (Z.to_nat i). split; [lia|]. apply in_seq. lia.
Qed.

Lemma CalcSignalDepth_floor (s : State) (v : Z) :
  0 <= g_depth_ratio s < 100 ->
  g_depth_offset s = depth_offset_of (g_depth_ratio s) ->
  0 <= v <= 255 ->
  CalcSignalDepth s v = g_depth_offset s + v * g_depth_ratio s / 100.
Proof.
  intros Hr Ho Hv.
  pose proof CalcSignalDepth_floor_all as Hall.
  rewrite forallb_forall in Hall.
  specialize (Hall (g_depth_ratio s)).
  unfold CalcSignalDepth_agrees in Hall. rewrite forallb_forall in Hall.
  assert (Hin : In (g_depth_ratio s) (indices 100)) by (apply In_indices; lia).
  specialize (Hall Hin v).
  assert (Hinv : In v (indices 256)) by (apply In_indices; lia).
  specialize (Hall Hinv). apply Z.eqb_eq in Hall.
  rewrite Ho. rewrite <- Hall.
  unfold CalcSignalDepth. simpl. rewrite Ho. reflexivity.
Qed.

(** C2 (as amended).  After a rebuild of the depth table, the entry at
    every index i in [0,255] is CalcSignalDepth of the waveform's raw
    sample at i for Sine, RampUp, Random, RampDown and Triangle; for
    Square and QuadPulse the entries whose raw sample is 0 are
    CalcSignalDepth 0 and the entries whose raw sample is 255 hold the
    literal 255, whatever the depth ratio. *)
Theorem CalcDepthTable_entries (s : State) (w : Waveform) (i : Z) :
  length (g_depth_table s) = 256%nat ->
  Waveform_of_Z (g_waveform s) = Some w ->
  0 <= i <= 255 ->
  tget (g_depth_table (CalcDepthTable s)) i
  = stored_sample (CalcSignalDepth s) w i.
Proof.
  intros Hlen Hw Hi. unfold CalcDepthTable. simpl. rewrite Hw.
  rewrite CalcDepthTable_fill_stored by exact Hlen.
  apply tget_indices. simpl. lia.
Qed.

Lemma CalcDepthTable_entries_witness :
  tget (g_depth_table (CalcDepthTable half_depth_square)) 128
  = stored_sample (CalcSignalDepth half_depth_square) WaveformSquare 128.
Proof.
  apply (CalcDepthTable_entries half_depth_square WaveformSquare 128).
  - vm_compute. reflexivity.
  - vm_compute. reflexivity.
  - lia.
Defined.

(** C2 as stated fails.  At depth 50 % (offset 127) the rebuilt Square
    table holds 255 at index 128, whose raw sample is 255, while
    CalcSignalDepth 255 is 127 + floor (255 * 50 / 100) = 254. *)
Lemma CalcDepthTable_square_high_raw :
  g_depth_ratio half_depth_square = 50
  /\ g_depth_offset half_depth_square = 127
  /\ Waveform_of_Z (g_waveform half_depth_square) = Some WaveformSquare
  /\ spec_WaveformSample WaveformSquare 128 = 255
  /\ tget (g_depth_table (CalcDepthTable half_depth_square)) 128 = 255
  /\ CalcSignalDepth half_depth_square 255 = 127 + 255 * 50 / 100
  /\ tget (g_depth_table (CalcDepthTable half_depth_square)) 128
     <> CalcSignalDepth half_depth_square
          (spec_WaveformSample WaveformSquare 128).
Proof.
  repeat split; try (vm_compute; reflexivity).
  vm_compute. discriminate.
Qed.

(** C4: ResetWaveformSetting stores Sine in g_waveform and leaves the
    depth table alone.  From Square at full depth the table is still the
    Square table (0 at index 64), not the Sine table a rebuild would give
    (131 at index 64). *)
Theorem ResetWaveformSetting_keeps_table :
  (forall s, g_depth_table (ResetWaveformSetting s) = g_depth_table s)
  /\ g_waveform (ResetWaveformSetting full_depth_square)
     = Waveform_to_Z WaveformSine
  /\ Waveform_of_Z (g_waveform full_depth_square) = Some WaveformSquare
  /\ tget (g_depth_table (ResetWaveformSetting full_depth_square)) 64 = 0
  /\ tget (g_depth_table (CalcDepthTable (ResetWaveformSetting full_depth_square))) 64
     = 131
  /\ g_depth_table (ResetWaveformSetting full_depth_square)
     <> g_depth_table (CalcDepthTable (ResetWaveformSetting full_depth_square)).
Proof.
  split; [intros s; reflexivity|].
  repeat split; try (vm_compute; reflexivity).
  intros H. apply (f_equal (fun t => tget t 64)) in H.
  vm_compute in H. discriminate.
Qed.

(** ** The sample tick and the tempo output *)

Section SampleTick.

Variable rand : Z -> Z * Z.

Lemma PlotWaveform_table_index (s : State) :
  g_table_index (PlotWaveform rand s)
  = Z.shiftr
      (Z.land (C.u32 (g_phase_accumulator s + g_duty_cycle s)) 4278190080) 24.
Proof.
  unfold PlotWaveform, UpdateRandomNumber. cbv zeta.
  destruct (rand _) as [r next].
  split_ifs; reflexivity.
Qed.

Lemma PlotWaveform_tempo_out (s : State) :
  PORTA_TEMPO_OUT (PlotWaveform rand s)
  = if g_table_index s >? g_table_index (PlotWaveform rand s)
    then negb (PORTA_TEMPO_OUT s) else PORTA_TEMPO_OUT s.
Proof.
  rewrite PlotWaveform_table_index.
  unfold PlotWaveform, UpdateRandomNumber. cbv zeta.
  destruct (rand _) as [r next].
  split_ifs; congruence.
Qed.

Lemma toggles_working_index_wraps (s : State) :
  toggles rand s = working_index_wraps rand s.
Proof.
  unfold toggles, working_index_wraps, TIM0_OVF_vect. cbv zeta.
  rewrite PlotWaveform_tempo_out. state_simpl.
  destruct (_ >? _); destruct (PORTA_TEMPO_OUT s); reflexivity.
Qed.

(** On a sample tick the tempo output toggles exactly when the working
    table index wraps, that is when the index held before the tick
    exceeds the top byte of the working accumulator advanced by the
    working duty cycle; over any run of ticks the number of toggles is
    the number of working-index wraps.  The base accumulator plays no
    part. *)
Theorem tempo_out_follows_working_index (n : nat) (s : State) :
  toggles rand s
  = (g_table_index s
     >? Z.shiftr
          (Z.land (C.u32 (g_phase_accumulator s + g_duty_cycle s)) 4278190080)
          24)
  /\ count_ticks rand (toggles rand) n s
     = count_ticks rand (working_index_wraps rand) n s.
Proof.
  split.
  - rewrite toggles_working_index_wraps.
    unfold working_index_wraps, TIM0_OVF_vect. cbv zeta.
    rewrite PlotWaveform_table_index. state_simpl. reflexivity.
  - revert s. induction n as [|n IH]; intros s; simpl; [reflexivity|].
    rewrite toggles_working_index_wraps, IH. reflexivity.
Qed.

End SampleTick.

(** C1 does not hold of the code.  The sample-tick handler advances the
    base accumulator, by its comment for the LED and sync output, and
    stores g_base_table_index, but nothing reads that index: PlotWaveform
    toggles the tempo output on a wrap of the working index.  With Eighth
    notes at a tapped tempo of 100 ms, the 3126 sample ticks of one base
    cycle wrap the base index once and toggle the tempo output twice; with
    Quarter notes at the same tempo the same ticks toggle it once. *)
Lemma tempo_out_twice_per_base_cycle :
  g_multiplier eighth_at_100ms = Multiplier_to_Z MultiplierEighth
  /\ g_base_tempo eighth_at_100ms = 100
  /\ g_base_tempo quarter_at_100ms = 100
  /\ count_ticks libc_rand (base_index_wraps libc_rand) 3126 eighth_at_100ms
     = 1%nat
  /\ count_ticks libc_rand (toggles libc_rand) 3126 eighth_at_100ms = 2%nat
  /\ count_ticks libc_rand (base_index_wraps libc_rand) 3126 quarter_at_100ms
     = 1%nat
  /\ count_ticks libc_rand (toggles libc_rand) 3126 quarter_at_100ms = 1%nat.
Proof. repeat split; vm_compute; reflexivity. Qed.

(** ** The alignment index *)

Lemma AlignWaveform_index (s : State) :
  0 <= g_multiplier_alignment_index s ->
  1 <= g_multiplier_alignment_index (AlignWaveform s) <= 12.
Proof.
  intros H0. unfold AlignWaveform, MULTIPLIER_ALIGNMENT_OFFSET. cbv zeta.
  split_ifs; unfold C.u8;
    match goal with
    | |- _ <= ?a mod 256 <= _ =>
        rewrite (Z.mod_small a 256) by lia
    end; lia.
Qed.

Lemma RecalculateTempo_index (s : State) :
  g_multiplier_alignment_index (RecalculateTempo s)
  = g_multiplier_alignment_index s.
Proof. reflexivity. Qed.

Lemma SetBaseTempo_index (ms : Z) (s : State) :
  g_multiplier_alignment_index (SetBaseTempo ms s)
  = g_multiplier_alignment_index s.
Proof. unfold SetBaseTempo. split_ifs; reflexivity. Qed.

Lemma StartTempoCount_index (s : State) :
  0 <= g_multiplier_alignment_index s ->
  1 <= g_multiplier_alignment_index (StartTempoCount s) <= 12.
Proof. intros H. unfold StartTempoCount. apply AlignWaveform_index. exact H. Qed.

Lemma StopTempoCount_index (s : State) :
  0 <= g_multiplier_alignment_index s ->
  1 <= g_multiplier_alignment_index (StopTempoCount s) <= 12.
Proof.
  intros H. unfold StopTempoCount. cbv zeta. apply AlignWaveform_index.
  unfold ResetBaseTempo. state_simpl.
  destruct (is_counting_tempo s); state_simpl; [|exact H].
  rewrite SetBaseTempo_index. exact H.
Qed.

Section AlignmentIndex.

Variable rand : Z -> Z * Z.

Lemma UpdateRandomNumber_index (s : State) :
  g_multiplier_alignment_index (UpdateRandomNumber rand s)
  = g_multiplier_alignment_index s.
Proof.
  unfold UpdateRandomNumber. destruct (rand _) as [r next]. reflexivity.
Qed.

Lemma main_tap_closed_index (s : State) :
  0 <= g_multiplier_alignment_index s <= 12 ->
  0 <= g_multiplier_alignment_index (main_tap_closed rand s) <= 12.
Proof.
  intros H. unfold main_tap_closed.
  assert (H0 : 0 <= g_multiplier_alignment_index (ResetSignals s))
    by (unfold ResetSignals; state_simpl; lia).
  pose proof (StartTempoCount_index _ H0) as Hstart.
  pose proof (StopTempoCount_index _ H0) as Hstop.
  revert Hstart Hstop.
  generalize (StartTempoCount (ResetSignals s)).
  generalize (StopTempoCount (ResetSignals s)).
  intros stopped started Hstart Hstop.
  set (s1 := if negb (is_counting_tempo s) then started
             else set_has_received_tap_input true stopped).
  assert (H1 : 0 <= g_multiplier_alignment_index s1 <= 12).
  { subst s1. destruct (negb (is_counting_tempo s)); state_simpl; lia. }
  clearbody s1. cbv zeta.
  destruct (negb (has_random_seed s1)); [|exact H1].
  destruct (negb (has_received_tap_input s1)); [|exact H1].
  rewrite UpdateRandomNumber_index.
  unfold SeedRandomNumberGenerator. state_simpl. exact H1.
Qed.

Lemma PCINT1_vect_index (b : bool) (s : State) :
  0 <= g_multiplier_alignment_index s <= 12 ->
  0 <= g_multiplier_alignment_index (PCINT1_vect b s) <= 12.
Proof.
  intros H. unfold PCINT1_vect. cbv zeta.
  assert (H0 : 0 <= g_multiplier_alignment_index (set_previous_sync_input b s))
    by (state_simpl; lia).
  pose proof (StartTempoCount_index _ H0).
  pose proof (StopTempoCount_index _ H0).
  destruct (negb _); [|exact H].
  destruct b; lia.
Qed.

Lemma step_index (e : Event) (s : State) :
  0 <= g_multiplier_alignment_index s <= 12 ->
  0 <= g_multiplier_alignment_index (step rand e s) <= 12.
Proof.
  intros H. destruct e; unfold step.
  - unfold TIM0_OVF_vect, PlotWaveform. cbv zeta.
    split_ifs; rewrite ?UpdateRandomNumber_index; state_simpl; exact H.
  - unfold TIM1_COMPA_vect, TempoCountTimeout. cbv zeta.
    split_ifs; exact H.
  - apply main_tap_closed_index. exact H.
  - apply PCINT1_vect_index. exact H.
  - unfold SetWaveform, CalcDepthTable. cbv zeta. split_ifs; exact H.
  - unfold SetMultiplier, AdjustPhaseAccumulation, RecalculateTempo.
    cbv zeta. split_ifs; exact H.
  - unfold SetDepth, CalcDepthTable. cbv zeta. split_ifs; exact H.
  - unfold AdjustSpeed, RecalculateTempo. cbv zeta. split_ifs; exact H.
  - exact H.
  - unfold ResetMultiplierSetting, AdjustPhaseAccumulation, RecalculateTempo.
    cbv zeta. split_ifs; exact H.
  - exact H.
  - exact H.
Qed.

Lemma boot_index : g_multiplier_alignment_index (boot rand) = 0.
Proof.
  unfold boot, main_init. cbv zeta.
  rewrite SetBaseTempo_index, UpdateRandomNumber_index. reflexivity.
Qed.

Lemma run_index (es : list Event) (s : State) :
  0 <= g_multiplier_alignment_index s <= 12 ->
  0 <= g_multiplier_alignment_index (run rand es s) <= 12.
Proof.
  revert s. induction es as [|e es IH]; intros s H; simpl; [exact H|].
  apply IH. apply step_index. exact H.
Qed.

(** C6 (as amended).  After any sequence of core operations from the
    initial state, MultiplierAlignmentIndex lies in [0, 12]; right after
    a call to AlignWaveform it lies in [1, 12], and 12 is the value
    AdjustPhaseAccumulation may read. *)
Theorem alignment_index_range (es : list Event) :
  0 <= g_multiplier_alignment_index (run rand es (boot rand)) <= 12
  /\ 1 <= g_multiplier_alignment_index
            (AlignWaveform (run rand es (boot rand))) <= 12.
Proof.
  assert (H : 0 <= g_multiplier_alignment_index (run rand es (boot rand)) <= 12).
  { apply run_index. rewrite boot_index. lia. }
  split; [exact H|]. apply AlignWaveform_index. lia.
Qed.

End AlignmentIndex.

(** C6 as stated fails.  Twelve edges on the sync input, each calling
    AlignWaveform, leave the index at 12. *)
Lemma alignment_index_reaches_12 :
  g_multiplier_alignment_index (run libc_rand twelve_sync_edges (boot libc_rand))
  = 12
  /\ ~ (0 <= g_multiplier_alignment_index
               (run libc_rand twelve_sync_edges (boot libc_rand)) <= 11).
Proof.
  assert (H : g_multiplier_alignment_index
                (run libc_rand twelve_sync_edges (boot libc_rand)) = 12)
    by (vm_compute; reflexivity).
  split; [exact H|]. rewrite H. lia.
Qed.

(** ** Depth steps *)

Lemma SetDepth_g_depth_ratio (c : Z) (s : State) :
  g_depth_ratio (SetDepth c s) = SetDepth_ratio c (g_depth_ratio s).
Proof.
  unfold SetDepth, SetDepth_ratio, CalcDepthTable. cbv zeta.
  split_ifs; reflexivity.
Qed.

Lemma iter_SetDepth_g_depth_ratio (c : Z) (k : nat) (s : State) :
  g_depth_ratio (iter k (SetDepth c) s)
  = iter k (SetDepth_ratio c) (g_depth_ratio s).
Proof.
  revert s. induction k as [|k IH]; intros s; simpl; [reflexivity|].
  rewrite IH, SetDepth_g_depth_ratio. reflexivity.
Qed.

Lemma SetDepth_ratio_up (r : Z) :
  depth_ratio_reachable r ->
  SetDepth_ratio 1 r = Z.min 100 (r + 5)
  /\ depth_ratio_reachable (SetDepth_ratio 1 r).
Proof.
  intros [Hr Hm]. unfold SetDepth_ratio, depth_ratio_reachable, C.u8.
  assert (H5 : r = 5 * (r / 5)) by (pose proof (Z.div_mod r 5); lia).
  destruct (r >=? 5) eqn:E1; destruct (r <=? 95) eqn:E2;
    destruct (r =? 0) eqn:E3; destruct (r =? 100) eqn:E4; simpl;
    try rewrite (Z.mod_small (r + 5) 256) by lia; try lia.
  all: split; [lia|]; split; [lia|].
  all: try (replace (r + 5) with (5 * (r / 5 + 1)) by lia;
            rewrite Z.mul_comm; apply Z.mod_mul; lia).
  all: exact Hm.
Qed.

Lemma SetDepth_ratio_down (r : Z) :
  depth_ratio_reachable r ->
  SetDepth_ratio (-1) r = Z.max 0 (r - 5)
  /\ depth_ratio_reachable (SetDepth_ratio (-1) r).
Proof.
  intros [Hr Hm]. unfold SetDepth_ratio, depth_ratio_reachable, C.u8.
  assert (H5 : r = 5 * (r / 5)) by (pose proof (Z.div_mod r 5); lia).
  change (-1 * 5) with (-5).
  destruct (r >=? 5) eqn:E1; destruct (r <=? 95) eqn:E2;
    destruct (r =? 0) eqn:E3; destruct (r =? 100) eqn:E4; simpl;
    try rewrite (Z.mod_small (r + -5) 256) by lia; try lia.
  all: split; [lia|]; split; [lia|].
  all: try (replace (r + -5) with (5 * (r / 5 - 1)) by lia;
            rewrite Z.mul_comm; apply Z.mod_mul; lia).
  all: exact Hm.
Qed.

Lemma iter_SetDepth_ratio_up (k : nat) (r : Z) :
  depth_ratio_reachable r ->
  iter k (SetDepth_ratio 1) r = Z.min 100 (r + 5 * Z.of_nat k)
  /\ depth_ratio_reachable (iter k (SetDepth_ratio 1) r).
Proof.
  revert r. induction k as [|k IH]; intros r Hr.
  - simpl. destruct Hr as [Hr Hm]. split; [lia|]. split; assumption.
  - cbn [iter]. destruct (SetDepth_ratio_up r Hr) as [E Hr'].
    destruct (IH _ Hr') as [E' Hr'']. split; [|exact Hr''].
    rewrite E', E. lia.
Qed.

Lemma iter_SetDepth_ratio_down (k : nat) (r : Z) :
  depth_ratio_reachable r ->
  iter k (SetDepth_ratio (-1)) r = Z.max 0 (r - 5 * Z.of_nat k)
  /\ depth_ratio_reachable (iter k (SetDepth_ratio (-1)) r).
Proof.
  revert r. induction k as [|k IH]; intros r Hr.
  - simpl. destruct Hr as [Hr Hm]. split; [lia|]. split; assumption.
  - cbn [iter]. destruct (SetDepth_ratio_down r Hr) as [E Hr'].
    destruct (IH _ Hr') as [E' Hr'']. split; [|exact Hr''].
    rewrite E', E. lia.
Qed.

(** C7 (as amended).  From a depth ratio r in {0, 5, ..., 100}, k steps
    up followed by k steps down give max 0 (min 100 (r + 5k) - 5k), and k
    steps down followed by k steps up give min 100 (max 0 (r - 5k) + 5k).
    The original ratio is restored when the first k steps do not reach
    the clamp: r + 5k <= 100 for up-then-down, 5k <= r for
    down-then-up. *)
Theorem SetDepth_round_trip (s : State) (k : nat) :
  depth_ratio_reachable (g_depth_ratio s) ->
  let r := g_depth_ratio s in
  let n := Z.of_nat k in
  g_depth_ratio (iter k (SetDepth (-1)) (iter k (SetDepth 1) s))
  = Z.max 0 (Z.min 100 (r + 5 * n) - 5 * n)
  /\ g_depth_ratio (iter k (SetDepth 1) (iter k (SetDepth (-1)) s))
     = Z.min 100 (Z.max 0 (r - 5 * n) + 5 * n)
  /\ (r + 5 * n <= 100 ->
      g_depth_ratio (iter k (SetDepth (-1)) (iter k (SetDepth 1) s)) = r)
  /\ (5 * n <= r ->
      g_depth_ratio (iter k (SetDepth 1) (iter k (SetDepth (-1)) s)) = r).
Proof.
  intros Hr r n.
  rewrite !iter_SetDepth_g_depth_ratio. fold r.
  destruct (iter_SetDepth_ratio_up k r Hr) as [Eu Hu].
  destruct (iter_SetDepth_ratio_down k r Hr) as [Ed Hd].
  destruct (iter_SetDepth_ratio_down k _ Hu) as [Eud _].
  destruct (iter_SetDepth_ratio_up k _ Hd) as [Edu _].
  rewrite Eud, Edu, Eu, Ed. fold n.
  destruct Hr as [Hr _].
  repeat split; lia.
Qed.

Lemma SetDepth_round_trip_witness :
  g_depth_ratio
    (iter 3 (SetDepth 1) (iter 3 (SetDepth (-1)) half_depth_square))
  = g_depth_ratio half_depth_square.
Proof.
  assert (Hr : depth_ratio_reachable (g_depth_ratio half_depth_square))
    by (vm_compute; split; [split; discriminate | reflexivity]).
  destruct (SetDepth_round_trip half_depth_square 3 Hr) as [_ [_ [_ H]]].
  apply H. vm_compute. discriminate.
Defined.

(** C7 as stated fails.  At the initial ratio 100 a step up is refused
    and the step down that follows is not: one up, one down leave 95. *)
Lemma SetDepth_up_down_from_100 :
  g_depth_ratio (boot libc_rand) = 100
  /\ g_depth_ratio
       (iter 1 (SetDepth (-1)) (iter 1 (SetDepth 1) (boot libc_rand))) = 95.
Proof. split; vm_compute; reflexivity. Qed.

(** ** SetBaseTempo *)

(** C8 (as amended).  SetBaseTempo returns the state unchanged for every
    ms below LFO_MAX_TEMPO or above LFO_MIN_TEMPO; the two endpoints
    themselves pass the boundary test and are committed when they differ
    from the current tempo by more than 2; and whenever the call changes
    the state, the new BaseTempo lies in [LFO_MAX_TEMPO, LFO_MIN_TEMPO]. *)
Theorem SetBaseTempo_range (ms : Z) (s : State) :
  (ms < LFO_MAX_TEMPO \/ LFO_MIN_TEMPO < ms -> SetBaseTempo ms s = s)
  /\ (ms = LFO_MAX_TEMPO \/ ms = LFO_MIN_TEMPO ->
      g_base_tempo s < ms - 2 \/ ms + 2 < g_base_tempo s ->
      g_base_tempo (SetBaseTempo ms s) = ms
      /\ g_tempo_adjust_offset (SetBaseTempo ms s) = 0)
  /\ (SetBaseTempo ms s <> s ->
      LFO_MAX_TEMPO <= g_base_tempo (SetBaseTempo ms s) <= LFO_MIN_TEMPO).
Proof.
  unfold LFO_MAX_TEMPO, LFO_MIN_TEMPO.
  split; [|split].
  - intros H. unfold SetBaseTempo, LFO_MAX_TEMPO, LFO_MIN_TEMPO.
    rewrite (proj2 (orb_true_iff (ms >? 10000) (ms <? 50))) by lia.
    reflexivity.
  - intros Hend Hfar.
    assert (Hgate : (ms >? 10000) || (ms <? 50) = false)
      by (apply orb_false_iff; lia).
    assert (Hp : C.u16 (ms + 2) = ms + 2) by (apply u16_small; lia).
    assert (Hm : C.u16 (ms - 2) = ms - 2) by (apply u16_small; lia).
    unfold SetBaseTempo, LFO_MAX_TEMPO, LFO_MIN_TEMPO.
    rewrite Hgate, Hp, Hm.
    rewrite (proj2 (orb_true_iff _ _)) by lia.
    unfold RecalculateTempo. state_simpl. split; reflexivity.
  - intros Hchanged. revert Hchanged.
    unfold SetBaseTempo, LFO_MAX_TEMPO, LFO_MIN_TEMPO.
    destruct ((ms >? 10000) || (ms <? 50)) eqn:E;
      [intros Hc; exfalso; apply Hc; reflexivity|].
    apply orb_false_iff in E.
    destruct ((g_base_tempo s >? C.u16 (ms + 2))
              || (g_base_tempo s <? C.u16 (ms - 2)));
      [|intros Hc; exfalso; apply Hc; reflexivity].
    intros _. unfold RecalculateTempo. state_simpl. lia.
Qed.

Lemma SetBaseTempo_range_witness :
  SetBaseTempo 49 (boot libc_rand) = boot libc_rand
  /\ SetBaseTempo 10001 (boot libc_rand) = boot libc_rand
  /\ g_base_tempo (SetBaseTempo 10000 (boot libc_rand)) = 10000.
Proof.
  split; [|split].
  - apply (SetBaseTempo_range 49 (boot libc_rand)). left. vm_compute. reflexivity.
  - apply (SetBaseTempo_range 10001 (boot libc_rand)). right. vm_compute. reflexivity.
  - apply (SetBaseTempo_range 10000 (boot libc_rand)).
    + right. reflexivity.
    + left. vm_compute. reflexivity.
Defined.

(** C8 as stated fails.  From the default tempo of 1000 ms, SetBaseTempo
    at each endpoint is accepted and committed. *)
Lemma SetBaseTempo_accepts_endpoints :
  g_base_tempo (boot libc_rand) = 1000
  /\ g_base_tempo (SetBaseTempo LFO_MAX_TEMPO (boot libc_rand)) = LFO_MAX_TEMPO
  /\ g_base_tempo (SetBaseTempo LFO_MIN_TEMPO (boot libc_rand)) = LFO_MIN_TEMPO
  /\ SetBaseTempo LFO_MAX_TEMPO (boot libc_rand) <> boot libc_rand
  /\ SetBaseTempo LFO_MIN_TEMPO (boot libc_rand) <> boot libc_rand.
Proof.
  repeat split; try (vm_compute; reflexivity).
  - intros H. apply (f_equal g_base_tempo) in H. vm_compute in H. discriminate.
  - intros H. apply (f_equal g_base_tempo) in H. vm_compute in H. discriminate.
Qed.

(** C9.  For ms in [LFO_MAX_TEMPO, LFO_MIN_TEMPO]: within 2 of the
    current BaseTempo the call changes nothing; 3 or more away it stores
    ms, clears TempoAdjustOffset and recomputes both duty cycles from ms
    and the current multiplier. *)
Theorem SetBaseTempo_hysteresis (ms : Z) (s : State) :
  LFO_MAX_TEMPO <= ms <= LFO_MIN_TEMPO ->
  (Z.abs (ms - g_base_tempo s) <= 2 -> SetBaseTempo ms s = s)
  /\ (3 <= Z.abs (ms - g_base_tempo s) ->
      let s' := SetBaseTempo ms s in
      s' = RecalculateTempo (set_g_tempo_adjust_offset 0 (set_g_base_tempo ms s))
      /\ g_base_tempo s' = ms
      /\ g_tempo_adjust_offset s' = 0
      /\ g_base_duty_cycle s'
         = C.u32 (F32.to_Z (F32.mul (F32.div TEMPO_TO_FREQUENCY (F32.of_Z ms))
                                    (F32.of_Z DUTY_CYCLE_DIVISOR)))
      /\ g_duty_cycle s'
         = C.u32 (F32.to_Z (F32.mul (F32.of_Z (g_base_duty_cycle s'))
                                    (k_multiplier_ratio (g_multiplier s))))).
Proof.
  unfold LFO_MAX_TEMPO, LFO_MIN_TEMPO. intros Hms.
  assert (Hgate : (ms >? 10000) || (ms <? 50) = false)
    by (apply orb_false_iff; lia).
  assert (Hp : C.u16 (ms + 2) = ms + 2) by (apply u16_small; lia).
  assert (Hm : C.u16 (ms - 2) = ms - 2) by (apply u16_small; lia).
  assert (H0 : C.u16 (ms + 0) = ms) by (rewrite Z.add_0_r; apply u16_small; lia).
  split.
  - intros Hnear. unfold SetBaseTempo, LFO_MAX_TEMPO, LFO_MIN_TEMPO.
    rewrite Hgate, Hp, Hm.
    rewrite (proj2 (orb_false_iff _ _)) by lia. reflexivity.
  - intros Hfar. cbv zeta.
    assert (E : SetBaseTempo ms s
                = RecalculateTempo
                    (set_g_tempo_adjust_offset 0 (set_g_base_tempo ms s))).
    { unfold SetBaseTempo, LFO_MAX_TEMPO, LFO_MIN_TEMPO.
      rewrite Hgate, Hp, Hm.
      rewrite (proj2 (orb_true_iff _ _)) by lia. reflexivity. }
    split; [exact E|]. rewrite E. unfold RecalculateTempo. state_simpl.
    rewrite H0. repeat split; reflexivity.
Qed.

Lemma SetBaseTempo_hysteresis_witness :
  g_base_tempo quarter_at_500ms = 500
  /\ SetBaseTempo 501 quarter_at_500ms = quarter_at_500ms
  /\ g_base_tempo (SetBaseTempo 503 quarter_at_500ms) = 503
  /\ g_tempo_adjust_offset (SetBaseTempo 503 quarter_at_500ms) = 0
  /\ g_base_duty_cycle (SetBaseTempo 503 quarter_at_500ms) = 273236.
Proof.
  assert (H1 : LFO_MAX_TEMPO <= 501 <= LFO_MIN_TEMPO) by (vm_compute; split; discriminate).
  assert (H3 : LFO_MAX_TEMPO <= 503 <= LFO_MIN_TEMPO) by (vm_compute; split; discriminate).
  split; [vm_compute; reflexivity|].
  split.
  - assert (Hnear : Z.abs (501 - g_base_tempo quarter_at_500ms) <= 2)
      by (vm_compute; discriminate).
    exact (proj1 (SetBaseTempo_hysteresis 501 quarter_at_500ms H1) Hnear).
  - assert (Hfar : 3 <= Z.abs (503 - g_base_tempo quarter_at_500ms))
      by (vm_compute; discriminate).
    destruct (proj2 (SetBaseTempo_hysteresis 503 quarter_at_500ms H3) Hfar)
      as [_ [Hb [Ho [Hd _]]]].
    split; [exact Hb|]. split; [exact Ho|].
    rewrite Hd. vm_compute. reflexivity.
Defined.

(** ** What the core does to the generator *)

Ltac view_frame :=
  unfold rng_view; cbv zeta; split_ifs; reflexivity.

Lemma ResetBaseTempo_view (s : State) : rng_view (ResetBaseTempo s) = rng_view s.
Proof. reflexivity. Qed.

Lemma RecalculateTempo_view (s : State) : rng_view (RecalculateTempo s) = rng_view s.
Proof. reflexivity. Qed.

Lemma AdjustPhaseAccumulation_view (s : State) :
  rng_view (AdjustPhaseAccumulation s) = rng_view s.
Proof. reflexivity. Qed.

Lemma CalcDepthTable_view (s : State) : rng_view (CalcDepthTable s) = rng_view s.
Proof. reflexivity. Qed.

Lemma ResetSignals_view (s : State) : rng_view (ResetSignals s) = rng_view s.
Proof. reflexivity. Qed.

Lemma TempoCountTimeout_view (s : State) :
  rng_view (TempoCountTimeout s) = rng_view s.
Proof. reflexivity. Qed.

Lemma SetBaseTempo_view (ms : Z) (s : State) :
  rng_view (SetBaseTempo ms s) = rng_view s.
Proof.
  unfold SetBaseTempo. destruct (_ || _); [reflexivity|].
  destruct (_ || _); [|reflexivity].
  rewrite RecalculateTempo_view. reflexivity.
Qed.

Lemma AlignWaveform_view (s : State) : rng_view (AlignWaveform s) = rng_view s.
Proof. unfold AlignWaveform. view_frame. Qed.

Lemma StartTempoCount_view (s : State) :
  rng_view (StartTempoCount s) = rng_view s.
Proof.
  unfold StartTempoCount. cbv zeta.
  rewrite AlignWaveform_view, ResetBaseTempo_view. reflexivity.
Qed.

Lemma StopTempoCount_view (s : State) : rng_view (StopTempoCount s) = rng_view s.
Proof.
  unfold StopTempoCount. cbv zeta.
  rewrite AlignWaveform_view, ResetBaseTempo_view.
  destruct (is_counting_tempo s); [|reflexivity].
  transitivity (rng_view (SetBaseTempo (g_tempo_ms_count (set_is_counting_tempo false s))
                                       (set_is_counting_tempo false s))).
  - generalize (SetBaseTempo (g_tempo_ms_count (set_is_counting_tempo false s))
                             (set_is_counting_tempo false s)).
    intros s'. reflexivity.
  - rewrite SetBaseTempo_view. reflexivity.
Qed.

Lemma AdjustSpeed_view (c : Z) (s : State) : rng_view (AdjustSpeed c s) = rng_view s.
Proof.
  unfold AdjustSpeed. cbv zeta. destruct (_ || _); [reflexivity|].
  rewrite RecalculateTempo_view. reflexivity.
Qed.

Lemma SetWaveform_view (c : Z) (s : State) : rng_view (SetWaveform c s) = rng_view s.
Proof.
  unfold SetWaveform. cbv zeta. rewrite CalcDepthTable_view. view_frame.
Qed.

Lemma SetMultiplier_view (c : Z) (s : State) :
  rng_view (SetMultiplier c s) = rng_view s.
Proof.
  unfold SetMultiplier. cbv zeta. destruct (negb _); [|reflexivity].
  rewrite AdjustPhaseAccumulation_view, RecalculateTempo_view. reflexivity.
Qed.

Lemma ResetMultiplierSetting_view (s : State) :
  rng_view (ResetMultiplierSetting s) = rng_view s.
Proof.
  unfold ResetMultiplierSetting. destruct (negb _); [|reflexivity].
  rewrite AdjustPhaseAccumulation_view, RecalculateTempo_view. reflexivity.
Qed.

Lemma SetDepth_view (c : Z) (s : State) : rng_view (SetDepth c s) = rng_view s.
Proof. unfold SetDepth, CalcDepthTable. view_frame. Qed.

Lemma TIM1_COMPA_vect_view (s : State) :
  rng_view (TIM1_COMPA_vect s) = rng_view s.
Proof. unfold TIM1_COMPA_vect, TempoCountTimeout. view_frame. Qed.

Lemma PCINT1_vect_view (b : bool) (s : State) :
  rng_view (PCINT1_vect b s) = rng_view s.
Proof.
  unfold PCINT1_vect. cbv zeta. destruct (negb _); [|reflexivity].
  destruct b; rewrite ?StopTempoCount_view, ?StartTempoCount_view; reflexivity.
Qed.

Lemma SeedRandomNumberGenerator_view (seed : Z) (s : State) :
  rng_view (SeedRandomNumberGenerator seed s) = seed_view seed (rng_view s).
Proof. reflexivity. Qed.

Lemma StartTempoCount_ms_count (s : State) :
  g_tempo_ms_count (StartTempoCount s) = 0.
Proof. unfold StartTempoCount, AlignWaveform, ResetBaseTempo. cbv zeta. split_ifs; reflexivity. Qed.

Section Generator.

Variable rand : Z -> Z * Z.

Lemma UpdateRandomNumber_view (s : State) :
  rng_view (UpdateRandomNumber rand s) = draw_view rand (rng_view s).
Proof.
  unfold UpdateRandomNumber, rng_view, draw_view, random_level.
  destruct (rand (rand_next s)) as [r next]. reflexivity.
Qed.

Lemma PlotWaveform_view (s : State) :
  rng_view (PlotWaveform rand s) = rng_view s
  \/ rng_view (PlotWaveform rand s) = draw_view rand (rng_view s).
Proof.
  unfold PlotWaveform. cbv zeta.
  destruct (_ >? _); [right|left].
  - rewrite UpdateRandomNumber_view. f_equal. view_frame.
  - view_frame.
Qed.

Lemma TIM0_OVF_vect_view (s : State) :
  rng_view (TIM0_OVF_vect rand s) = rng_view s
  \/ rng_view (TIM0_OVF_vect rand s) = draw_view rand (rng_view s).
Proof.
  unfold TIM0_OVF_vect. cbv zeta.
  destruct (PlotWaveform_view
              (set_g_base_table_index
                 (Z.shiftr
                    (Z.land
                       (g_base_phase_accumulator
                          (set_g_base_phase_accumulator
                             (C.u32 (g_base_phase_accumulator s
                                     + g_base_duty_cycle s)) s))
                       4278190080) 24)
                 (set_g_base_phase_accumulator
                    (C.u32 (g_base_phase_accumulator s + g_base_duty_cycle s)) s)))
    as [E|E]; [left|right]; rewrite E; reflexivity.
Qed.

(** Every step but a tap leaves the generator alone or draws once. *)
Lemma step_view (e : Event) (s : State) :
  is_tap e = false ->
  rng_view (step rand e s) = rng_view s
  \/ rng_view (step rand e s) = draw_view rand (rng_view s).
Proof.
  intros Hno. destruct e; try discriminate; unfold step.
  - apply TIM0_OVF_vect_view.
  - left. apply TIM1_COMPA_vect_view.
  - left. apply PCINT1_vect_view.
  - left. apply SetWaveform_view.
  - left. apply SetMultiplier_view.
  - left. apply SetDepth_view.
  - left. apply AdjustSpeed_view.
  - left. reflexivity.
  - left. apply ResetMultiplierSetting_view.
  - left. unfold ResetDepthSetting. rewrite CalcDepthTable_view. reflexivity.
  - left. unfold ResetSpeedAdjustSetting. rewrite RecalculateTempo_view. reflexivity.
Qed.

(** A tap leaves the generator alone or seeds it with 0 and draws. *)
Lemma main_tap_closed_view (s : State) :
  rng_view (main_tap_closed rand s) = rng_view s
  \/ rng_view (main_tap_closed rand s)
     = draw_view rand (seed_view 0 (rng_view s)).
Proof.
  unfold main_tap_closed.
  pose proof (StartTempoCount_view (ResetSignals s)) as Vstart.
  pose proof (StopTempoCount_view (ResetSignals s)) as Vstop.
  pose proof (StartTempoCount_ms_count (ResetSignals s)) as Cstart.
  rewrite ResetSignals_view in Vstart, Vstop.
  revert Vstart Vstop Cstart.
  generalize (StartTempoCount (ResetSignals s)).
  generalize (StopTempoCount (ResetSignals s)).
  intros stopped started Vstart Vstop Cstart.
  destruct (negb (is_counting_tempo s)); cbv zeta.
  - destruct (negb (has_random_seed started)); [|left; exact Vstart].
    destruct (negb (has_received_tap_input started)); [|left; exact Vstart].
    right. rewrite UpdateRandomNumber_view, SeedRandomNumberGenerator_view.
    state_simpl. rewrite Cstart. f_equal. f_equal.
    rewrite <- Vstart. reflexivity.
  - left. state_simpl.
    destruct (negb (has_random_seed stopped)); state_simpl; exact Vstop.
Qed.

End Generator.

(** ** The random levels *)

Section RandomLevels.

Variable rand : Z -> Z * Z.

Lemma random_level_multiple_of_31 (r : Z) :
  0 <= r ->
  exists k, 0 <= k <= 7 /\ random_level r = k * 31.
Proof.
  intros Hr. exists (Z.rem r 8).
  unfold random_level, C.rem, WAVEFORM_RANDOM_STEP_COUNT.
  change WAVEFORM_STEP_SIZE with 31.
  pose proof (Z.rem_bound_pos r 8 Hr ltac:(lia)) as Hb.
  split; [lia|]. apply u8_small. lia.
Qed.

(** C5 (as amended).  Every refresh of RandomNumber yields k * 31 for
    some k in 0..7, that is an element of {0, 31, 62, 93, 124, 155,
    186, 217}: the step is 0xff / 8 = 31 in integer arithmetic.  [rand]
    is taken to return a non-negative value, as the C library's does. *)
Theorem UpdateRandomNumber_levels (s : State) :
  0 <= fst (rand (rand_next s)) ->
  WAVEFORM_STEP_SIZE = 31
  /\ (exists k, 0 <= k <= 7
                /\ g_random_number (UpdateRandomNumber rand s) = k * 31)
  /\ In (g_random_number (UpdateRandomNumber rand s))
        [0; 31; 62; 93; 124; 155; 186; 217].
Proof.
  intros Hr. split; [reflexivity|].
  assert (E : g_random_number (UpdateRandomNumber rand s)
              = random_level (fst (rand (rand_next s)))).
  { unfold UpdateRandomNumber, random_level.
    destruct (rand (rand_next s)) as [r next]. reflexivity. }
  rewrite E.
  destruct (random_level_multiple_of_31 _ Hr) as [k [Hk Ek]].
  split; [exists k; split; assumption|].
  rewrite Ek. simpl.
  assert (Hc : k = 0 \/ k = 1 \/ k = 2 \/ k = 3 \/ k = 4 \/ k = 5
               \/ k = 6 \/ k = 7) by lia.
  intuition (subst k; auto).
Qed.

(** *** Runs without taps *)

Lemma canonical_draw (v : Z * list Z * list Z) :
  canonical_view rand v -> canonical_view rand (draw_view rand v).
Proof.
  destruct v as [[next log] seeds]. unfold canonical_view, draw_view.
  intros [Hs [Hl Hn]]. subst next. split; [exact Hs|]. split.
  - cbn [rev length]. rewrite seq_S, map_app, Hl. reflexivity.
  - reflexivity.
Qed.

Lemma canonical_boot : canonical_view rand (rng_view (boot rand)).
Proof.
  unfold boot, main_init. cbv zeta.
  rewrite SetBaseTempo_view, UpdateRandomNumber_view.
  apply canonical_draw.
  rewrite SeedRandomNumberGenerator_view.
  unfold canonical_view, seed_view, rng_view. state_simpl. simpl.
  repeat split; reflexivity.
Qed.

Lemma canonical_run (es : list Event) (s : State) :
  no_tap es ->
  canonical_view rand (rng_view s) ->
  canonical_view rand (rng_view (run rand es s)).
Proof.
  unfold no_tap. revert s.
  induction es as [|e es IH]; intros s Hno Hc; simpl; [exact Hc|].
  simpl in Hno. apply andb_true_iff in Hno. destruct Hno as [He Hes].
  apply IH; [exact Hes|].
  apply negb_true_iff in He.
  destruct (step_view rand e s He) as [E|E]; rewrite E.
  - exact Hc.
  - apply canonical_draw. exact Hc.
Qed.

Lemma canonical_nth (s : State) (n : nat) (v : Z) :
  canonical_view rand (rng_view s) ->
  nth_error (rev (random_log s)) n = Some v ->
  v = random_value_at rand 0 n.
Proof.
  unfold canonical_view, rng_view. intros [_ [Hl _]] Hn.
  rewrite Hl in Hn.
  assert (Hlt : (n < length (random_log s))%nat).
  { rewrite <- (length_seq (length (random_log s)) 0) at 1.
    rewrite <- (length_map (random_value_at rand 0)).
    apply nth_error_Some. rewrite Hn. discriminate. }
  rewrite nth_error_map in Hn.
  rewrite (nth_error_nth' _ 0%nat) in Hn by (rewrite length_seq; exact Hlt).
  rewrite seq_nth in Hn by exact Hlt. simpl in Hn.
  injection Hn as Hn. symmetry. exact Hn.
Qed.

Lemma TIM0_OVF_vect_OCR0A_random (s : State) :
  g_waveform s = Waveform_to_Z WaveformRandom ->
  OCR0A (TIM0_OVF_vect rand s) = tget (g_depth_table s) (g_random_number s).
Proof.
  intros Hw. unfold TIM0_OVF_vect, PlotWaveform, UpdateRandomNumber.
  cbv zeta. destruct (rand _) as [r next].
  split_ifs; try reflexivity;
    match goal with
    | H : (_ =? _) = false |- _ => rewrite Hw in H; discriminate H
    end.
Qed.

(** C10.  In a run without taps the generator is seeded once, with 0, by
    main; the n-th value stored in RandomNumber is then the n-th level of
    the one sequence that seed determines, so any two such runs agree on
    every RandomNumber they both produce, whatever else (sample ticks,
    millisecond ticks, sync edges, encoder operations) they contain.
    With the Random waveform each sample tick puts out the depth table
    entry at the RandomNumber of the moment. *)
Theorem random_sequence_deterministic (es1 es2 : list Event) :
  no_tap es1 -> no_tap es2 ->
  srand_log (run rand es1 (boot rand)) = [0]
  /\ srand_log (run rand es2 (boot rand)) = [0]
  /\ (forall n v1 v2,
        nth_error (rev (random_log (run rand es1 (boot rand)))) n = Some v1 ->
        nth_error (rev (random_log (run rand es2 (boot rand)))) n = Some v2 ->
        v1 = v2 /\ v1 = random_value_at rand 0 n)
  /\ (forall s,
        g_waveform s = Waveform_to_Z WaveformRandom ->
        OCR0A (TIM0_OVF_vect rand s)
        = tget (g_depth_table s) (g_random_number s)).
Proof.
  intros H1 H2.
  pose proof (canonical_run es1 (boot rand) H1 canonical_boot) as C1.
  pose proof (canonical_run es2 (boot rand) H2 canonical_boot) as C2.
  split; [exact (proj1 C1)|]. split; [exact (proj1 C2)|].
  split; [|exact TIM0_OVF_vect_OCR0A_random].
  intros n v1 v2 E1 E2.
  rewrite (canonical_nth _ n v1 C1 E1), (canonical_nth _ n v2 C2 E2).
  split; reflexivity.
Qed.

(** *** Seeds in arbitrary runs *)

Lemma seeds_zero_step (e : Event) (s : State) :
  Forall (fun z => z = 0) (srand_log s) ->
  Forall (fun z => z = 0) (srand_log (step rand e s)).
Proof.
  intros H.
  assert (Hv : forall s', rng_view s' = rng_view s
                          \/ rng_view s' = draw_view rand (rng_view s)
                          \/ rng_view s'
                             = draw_view rand (seed_view 0 (rng_view s)) ->
                     Forall (fun z => z = 0) (srand_log s')).
  { intros s' [E|[E|E]]; unfold rng_view, draw_view, seed_view in E;
      injection E as _ _ E; rewrite E; auto. }
  apply Hv. destruct (is_tap e) eqn:Ht.
  - destruct e; try discriminate. unfold step.
    destruct (main_tap_closed_view rand s) as [E|E]; auto.
  - destruct (step_view rand e s Ht) as [E|E]; auto.
Qed.

(** Whatever the events, taps included, no seed other than 0 is ever
    given to the generator. *)
Lemma seeds_zero_run (es : list Event) :
  Forall (fun z => z = 0) (srand_log (run rand es (boot rand))).
Proof.
  assert (H : forall s, Forall (fun z => z = 0) (srand_log s) ->
                        Forall (fun z => z = 0) (srand_log (run rand es s))).
  { induction es as [|e es IH]; intros s Hs; simpl; [exact Hs|].
    apply IH. apply seeds_zero_step. exact Hs. }
  apply H. destruct (canonical_boot) as [E _].
  unfold rng_view in E. rewrite E. auto.
Qed.

End RandomLevels.

Lemma UpdateRandomNumber_levels_witness :
  In (g_random_number
        (UpdateRandomNumber libc_rand (SeedRandomNumberGenerator 0 power_on)))
     [0; 31; 62; 93; 124; 155; 186; 217].
Proof.
  assert (Hr : 0 <= fst (libc_rand
                           (rand_next (SeedRandomNumberGenerator 0 power_on))))
    by (vm_compute; discriminate).
  exact (proj2 (proj2 (UpdateRandomNumber_levels
                         libc_rand (SeedRandomNumberGenerator 0 power_on) Hr))).
Defined.

(** C5 as stated fails.  The first refresh, made by main after srand (0),
    stores 62 = 2 * 31, which is not a multiple of 32. *)
Lemma first_random_number_is_62 :
  g_random_number (boot libc_rand) = 62
  /\ ~ In (g_random_number (boot libc_rand)) [0; 32; 64; 96; 128; 160; 192; 224]
  /\ ~ (exists k, 0 <= k <= 7 /\ g_random_number (boot libc_rand) = k * 32).
Proof.
  assert (E : g_random_number (boot libc_rand) = 62) by (vm_compute; reflexivity).
  rewrite E. split; [reflexivity|]. split.
  - simpl. intros H. repeat (destruct H as [H|H]; [discriminate H|]). exact H.
  - intros [k [Hk Ek]]. lia.
Qed.

Lemma random_sequence_deterministic_witness :
  nth_error
    (rev (random_log (run libc_rand synced_sixteenths (boot libc_rand)))) 1
  = nth_error
      (rev (random_log (run libc_rand synced_triplets_random (boot libc_rand)))) 1.
Proof.
  assert (H1 : no_tap synced_sixteenths) by (vm_compute; reflexivity).
  assert (H2 : no_tap synced_triplets_random) by (vm_compute; reflexivity).
  assert (E1 : nth_error
                 (rev (random_log (run libc_rand synced_sixteenths
                                       (boot libc_rand)))) 1 = Some 93)
    by (vm_compute; reflexivity).
  assert (E2 : nth_error
                 (rev (random_log (run libc_rand synced_triplets_random
                                       (boot libc_rand)))) 1 = Some 93)
    by (vm_compute; reflexivity).
  destruct (proj1 (proj2 (proj2 (random_sequence_deterministic
                                   libc_rand synced_sixteenths
                                   synced_triplets_random H1 H2)))
                  1%nat 93 93 E1 E2) as [_ _].
  rewrite E1, E2. reflexivity.
Defined.

(** C3: what the tap handler does.  The first tap, which starts the count,
    finds has_received_tap_input and has_random_seed both 0: it latches
    has_random_seed and seeds the generator with TempoMsCount, which
    StartTempoCount has just cleared.  The second tap, 500 ms later,
    commits the 500 ms tempo and seeds nothing: the seeds given to the
    generator are the 0 of main and the 0 of the first tap. *)
Theorem first_tap_seeds_with_zero :
  has_random_seed (boot libc_rand) = false
  /\ srand_log (boot libc_rand) = [0]
  /\ has_random_seed (run libc_rand [EvTap] (boot libc_rand)) = true
  /\ has_received_tap_input (run libc_rand [EvTap] (boot libc_rand)) = false
  /\ srand_log (run libc_rand [EvTap] (boot libc_rand)) = [0; 0]
  /\ g_tempo_ms_count
       (run libc_rand ([EvTap] ++ repeat EvMillisecond 500) (boot libc_rand))
     = 500
  /\ g_base_tempo (run libc_rand taps_500ms_apart (boot libc_rand)) = 500
  /\ has_received_tap_input (run libc_rand taps_500ms_apart (boot libc_rand))
     = true
  /\ srand_log (run libc_rand taps_500ms_apart (boot libc_rand)) = [0; 0].
Proof. repeat split; vm_compute; reflexivity. Qed.

(** * Further properties of the core *)

(** ** Settings under encoder steps *)

Lemma unit_step_cases (c : Z) : unit_step c = true -> c = 1 \/ c = -1.
Proof. unfold unit_step. intros H. apply orb_true_iff in H. lia. Qed.

Lemma Waveform_of_Z_in_range (z : Z) :
  0 <= z <= 6 -> exists w, Waveform_of_Z z = Some w /\ Waveform_to_Z w = z.
Proof.
  intros H.
  assert (Hc : z = 0 \/ z = 1 \/ z = 2 \/ z = 3 \/ z = 4 \/ z = 5 \/ z = 6) by lia.
  destruct Hc as [E|[E|[E|[E|[E|[E|E]]]]]]; subst z;
    eexists; split; reflexivity.
Qed.

Lemma depth_offset_agrees_all : forallb depth_offset_agrees (indices 101) = true.
Proof. vm_compute. reflexivity. Qed.

Lemma sample_is_byte_all :
  forallb (fun w => forallb (sample_is_byte w) (indices 256)) all_waveforms = true.
Proof. vm_compute. reflexivity. Qed.

Lemma spec_WaveformSample_byte (w : Waveform) (i : Z) :
  0 <= i <= 255 -> 0 <= spec_WaveformSample w i <= 255.
Proof.
  intros Hi. pose proof sample_is_byte_all as H.
  rewrite forallb_forall in H.
  assert (Hw : In w all_waveforms) by (destruct w; simpl; tauto).
  specialize (H w Hw). rewrite forallb_forall in H.
  assert (Hin : In i (indices 256)) by (apply In_indices; lia).
  specialize (H i Hin). unfold sample_is_byte in H.
  apply andb_true_iff in H. lia.
Qed.

(** The scaled sample never leaves [DepthOffset, 255]. *)
Lemma CalcSignalDepth_bounds (s : State) (v : Z) :
  depth_ratio_reachable (g_depth_ratio s) ->
  g_depth_offset s = depth_offset_of (g_depth_ratio s) ->
  0 <= v <= 255 ->
  g_depth_offset s <= CalcSignalDepth s v <= 255.
Proof.
  intros [Hr Hm] Ho Hv.
  destruct (Z.eq_dec (g_depth_ratio s) 100) as [E|E].
  - unfold CalcSignalDepth. cbv zeta. rewrite Ho, E, Z.eqb_refl.
    rewrite u8_small by lia. change (depth_offset_of 100) with 0. lia.
  - assert (Hlt : 0 <= g_depth_ratio s < 100) by lia.
    rewrite (CalcSignalDepth_floor s v Hlt Ho Hv).
    rewrite Ho. unfold depth_offset_of.
    remember (g_depth_ratio s) as r.
    assert (Hp : 0 <= v * r <= 255 * r) by nia.
    remember (v * r) as p.
    pose proof (Z.div_mod p 100 ltac:(lia)).
    pose proof (Z.mod_pos_bound p 100 ltac:(lia)).
    pose proof (Z.div_mod (255 * (100 - r)) 100 ltac:(lia)).
    pose proof (Z.mod_pos_bound (255 * (100 - r)) 100 ltac:(lia)).
    lia.
Qed.

Lemma stored_sample_bounds (s : State) (w : Waveform) (i : Z) :
  depth_ratio_reachable (g_depth_ratio s) ->
  g_depth_offset s = depth_offset_of (g_depth_ratio s) ->
  0 <= i <= 255 ->
  g_depth_offset s <= stored_sample (CalcSignalDepth s) w i <= 255.
Proof.
  intros Hr Ho Hi.
  pose proof (spec_WaveformSample_byte w i Hi) as Hb.
  pose proof (CalcSignalDepth_bounds s _ Hr Ho Hb) as Hc.
  assert (H255 : g_depth_offset s <= 255).
  { pose proof (CalcSignalDepth_bounds s 0 Hr Ho ltac:(lia)). lia. }
  unfold stored_sample.
  destruct w; try exact Hc;
    destruct (spec_WaveformSample _ i =? 255); try exact Hc; lia.
Qed.

Lemma CalcDepthTable_table (s : State) (w : Waveform) :
  length (g_depth_table s) = 256%nat ->
  Waveform_of_Z (g_waveform s) = Some w ->
  g_depth_table (CalcDepthTable s)
  = map (stored_sample (CalcSignalDepth s) w) (indices 256).
Proof.
  intros Hlen Hw. unfold CalcDepthTable. state_simpl. rewrite Hw.
  apply CalcDepthTable_fill_stored. exact Hlen.
Qed.

Lemma length_indices (n : nat) : length (indices n) = n.
Proof. unfold indices. rewrite length_map, length_seq. reflexivity. Qed.

Lemma CalcDepthTable_length (s : State) :
  0 <= g_waveform s <= 6 ->
  length (g_depth_table s) = 256%nat ->
  length (g_depth_table (CalcDepthTable s)) = 256%nat.
Proof.
  intros Hw Hlen. destruct (Waveform_of_Z_in_range _ Hw) as [w [E _]].
  rewrite (CalcDepthTable_table s w Hlen E).
  rewrite length_map. apply length_indices.
Qed.

Lemma CalcDepthTable_in_range (s : State) :
  settings_ok s -> table_in_range (CalcDepthTable s).
Proof.
  intros [Hw [_ [Hr [Ho Hlen]]]].
  destruct (Waveform_of_Z_in_range _ Hw) as [w [E _]].
  unfold table_in_range. rewrite (CalcDepthTable_table s w Hlen E).
  apply Forall_forall. intros v Hin. apply in_map_iff in Hin.
  destruct Hin as [i [Ei Hi]]. apply In_indices in Hi. subst v.
  change (g_depth_offset (CalcDepthTable s)) with (g_depth_offset s).
  apply stored_sample_bounds; try assumption. simpl in Hi. lia.
Qed.

(** *** What leaves the settings alone *)

Ltac settings_frame :=
  unfold settings_view; cbv zeta; split_ifs; reflexivity.

Lemma RecalculateTempo_settings (s : State) :
  settings_view (RecalculateTempo s) = settings_view s.
Proof. reflexivity. Qed.

Lemma SetBaseTempo_settings (ms : Z) (s : State) :
  settings_view (SetBaseTempo ms s) = settings_view s.
Proof.
  unfold SetBaseTempo. destruct (_ || _); [reflexivity|].
  destruct (_ || _); [|reflexivity].
  rewrite RecalculateTempo_settings. reflexivity.
Qed.

Lemma AlignWaveform_settings (s : State) :
  settings_view (AlignWaveform s) = settings_view s.
Proof. unfold AlignWaveform. settings_frame. Qed.

Lemma StartTempoCount_settings (s : State) :
  settings_view (StartTempoCount s) = settings_view s.
Proof.
  unfold StartTempoCount. cbv zeta.
  rewrite AlignWaveform_settings. reflexivity.
Qed.

Lemma StopTempoCount_settings (s : State) :
  settings_view (StopTempoCount s) = settings_view s.
Proof.
  unfold StopTempoCount. cbv zeta. rewrite AlignWaveform_settings.
  destruct (is_counting_tempo s); [|reflexivity].
  transitivity (settings_view
                  (SetBaseTempo (g_tempo_ms_count (set_is_counting_tempo false s))
                                (set_is_counting_tempo false s))).
  - generalize (SetBaseTempo (g_tempo_ms_count (set_is_counting_tempo false s))
                             (set_is_counting_tempo false s)).
    intros s'. reflexivity.
  - rewrite SetBaseTempo_settings. reflexivity.
Qed.

Lemma AdjustSpeed_settings (c : Z) (s : State) :
  settings_view (AdjustSpeed c s) = settings_view s.
Proof.
  unfold AdjustSpeed. cbv zeta. destruct (_ || _); [reflexivity|].
  rewrite RecalculateTempo_settings. reflexivity.
Qed.

Lemma TIM1_COMPA_vect_settings (s : State) :
  settings_view (TIM1_COMPA_vect s) = settings_view s.
Proof. unfold TIM1_COMPA_vect, TempoCountTimeout. settings_frame. Qed.

Lemma PCINT1_vect_settings (b : bool) (s : State) :
  settings_view (PCINT1_vect b s) = settings_view s.
Proof.
  unfold PCINT1_vect. cbv zeta. destruct (negb _); [|reflexivity].
  destruct b; rewrite ?StopTempoCount_settings, ?StartTempoCount_settings;
    reflexivity.
Qed.

Section SettingsFrames.

Variable rand : Z -> Z * Z.

Lemma UpdateRandomNumber_settings (s : State) :
  settings_view (UpdateRandomNumber rand s) = settings_view s.
Proof.
  unfold UpdateRandomNumber. destruct (rand (rand_next s)) as [r next].
  reflexivity.
Qed.

Lemma TIM0_OVF_vect_settings (s : State) :
  settings_view (TIM0_OVF_vect rand s) = settings_view s.
Proof.
  unfold TIM0_OVF_vect, PlotWaveform. cbv zeta.
  destruct (_ >? _).
  - rewrite UpdateRandomNumber_settings. settings_frame.
  - settings_frame.
Qed.

Lemma main_tap_closed_settings (s : State) :
  settings_view (main_tap_closed rand s) = settings_view s.
Proof.
  unfold main_tap_closed.
  pose proof (StartTempoCount_settings (ResetSignals s)) as Vstart.
  pose proof (StopTempoCount_settings (ResetSignals s)) as Vstop.
  change (settings_view (ResetSignals s)) with (settings_view s) in Vstart, Vstop.
  revert Vstart Vstop.
  generalize (StartTempoCount (ResetSignals s)).
  generalize (StopTempoCount (ResetSignals s)).
  intros stopped started Vstart Vstop.
  set (s1 := if negb (is_counting_tempo s) then started
             else set_has_received_tap_input true stopped).
  assert (V1 : settings_view s1 = settings_view s).
  { subst s1. destruct (negb (is_counting_tempo s)); [exact Vstart|].
    rewrite <- Vstop. reflexivity. }
  clearbody s1. cbv zeta.
  destruct (negb (has_random_seed s1)); [|exact V1].
  destruct (negb (has_received_tap_input s1)); [|exact V1].
  rewrite UpdateRandomNumber_settings, <- V1. reflexivity.
Qed.

(** *** The invariant *)

Lemma settings_ok_view (s s' : State) :
  settings_view s' = settings_view s -> settings_ok s -> settings_ok s'.
Proof.
  unfold settings_view, settings_ok. intros E H.
  injection E as Ew Em Er Eo Et. rewrite Ew, Em, Er, Eo, Et. exact H.
Qed.

Lemma table_in_range_view (s s' : State) :
  settings_view s' = settings_view s -> table_in_range s -> table_in_range s'.
Proof.
  unfold settings_view, table_in_range. intros E H.
  injection E as Ew Em Er Eo Et. rewrite Eo, Et. exact H.
Qed.

Lemma CalcDepthTable_settings_ok (s : State) :
  settings_ok s -> settings_ok (CalcDepthTable s).
Proof.
  intros [Hw [Hm [Hr [Ho Hl]]]].
  unfold settings_ok.
  change (g_waveform (CalcDepthTable s)) with (g_waveform s).
  change (g_multiplier (CalcDepthTable s)) with (g_multiplier s).
  change (g_depth_ratio (CalcDepthTable s)) with (g_depth_ratio s).
  change (g_depth_offset (CalcDepthTable s)) with (g_depth_offset s).
  split; [|split; [|split; [|split]]]; try assumption.
  apply CalcDepthTable_length; assumption.
Qed.

Lemma SetWaveform_settings_ok (c : Z) (s : State) :
  unit_step c = true -> settings_ok s ->
  settings_ok (SetWaveform c s) /\ table_in_range (SetWaveform c s).
Proof.
  intros Hc Hs. unfold SetWaveform. cbv zeta.
  set (s1 := if (g_waveform s =? Waveform_to_Z WaveformSine) && (c <? 0)
             then set_g_waveform (Waveform_to_Z WaveformRandom) s
             else if (g_waveform s =? Waveform_to_Z WaveformRandom) && (c >? 0)
                  then set_g_waveform (Waveform_to_Z WaveformSine) s
                  else set_g_waveform (g_waveform s + c) s).
  assert (H1 : settings_ok s1).
  { destruct Hs as [Hw [Hm [Hr [Ho Hl]]]].
    apply unit_step_cases in Hc. subst s1. simpl Waveform_to_Z.
    destruct ((g_waveform s =? 0) && (c <? 0)) eqn:E1;
      [|destruct ((g_waveform s =? 6) && (c >? 0)) eqn:E2];
      unfold settings_ok; state_simpl;
      (split; [|split; [|split; [|split]]]); try assumption; lia. }
  clearbody s1. split.
  - apply CalcDepthTable_settings_ok. exact H1.
  - apply CalcDepthTable_in_range. exact H1.
Qed.

Lemma SetMultiplier_g_multiplier (c : Z) (s : State) :
  g_multiplier (SetMultiplier c s)
  = if (g_multiplier s =? 0) && (c <? 0) then 0
    else if (g_multiplier s =? 9) && (c >? 0) then 9
    else g_multiplier s + c.
Proof.
  unfold SetMultiplier. simpl Multiplier_to_Z. cbv zeta.
  set (m := if (g_multiplier s =? 0) && (c <? 0) then 0
            else if (g_multiplier s =? 9) && (c >? 0) then 9
                 else g_multiplier s + c).
  destruct (negb (m =? g_multiplier s)) eqn:E.
  - reflexivity.
  - apply negb_false_iff, Z.eqb_eq in E. symmetry. exact E.
Qed.

Lemma SetMultiplier_other_settings (c : Z) (s : State) :
  g_waveform (SetMultiplier c s) = g_waveform s
  /\ g_depth_ratio (SetMultiplier c s) = g_depth_ratio s
  /\ g_depth_offset (SetMultiplier c s) = g_depth_offset s
  /\ g_depth_table (SetMultiplier c s) = g_depth_table s.
Proof.
  unfold SetMultiplier, AdjustPhaseAccumulation, RecalculateTempo. cbv zeta.
  destruct (negb _); repeat split; reflexivity.
Qed.

Lemma ResetMultiplierSetting_settings (s : State) :
  g_multiplier (ResetMultiplierSetting s) = 4
  /\ g_waveform (ResetMultiplierSetting s) = g_waveform s
  /\ g_depth_ratio (ResetMultiplierSetting s) = g_depth_ratio s
  /\ g_depth_offset (ResetMultiplierSetting s) = g_depth_offset s
  /\ g_depth_table (ResetMultiplierSetting s) = g_depth_table s.
Proof.
  unfold ResetMultiplierSetting, AdjustPhaseAccumulation, RecalculateTempo.
  simpl Multiplier_to_Z.
  destruct (negb (g_multiplier s =? 4)) eqn:E; repeat split; try reflexivity.
  apply negb_false_iff, Z.eqb_eq in E. exact E.
Qed.

End SettingsFrames.

Lemma depth_offset_float (r : Z) :
  0 <= r <= 100 ->
  C.u8 (F32.to_Z (F32.div (F32.mul (F32.of_Z 255) (F32.of_Z (100 - r)))
                          (F32.of_Z 100)))
  = depth_offset_of r.
Proof.
  intros Hr. pose proof depth_offset_agrees_all as H.
  rewrite forallb_forall in H.
  assert (Hin : In r (indices 101)) by (apply In_indices; simpl; lia).
  specialize (H r Hin). unfold depth_offset_agrees in H.
  apply Z.eqb_eq in H. exact H.
Qed.

Lemma depth_step_reachable (c r : Z) :
  c = 1 \/ c = -1 ->
  depth_ratio_reachable r ->
  0 <= r + c * 5 <= 100 ->
  depth_ratio_reachable (C.u8 (r + c * 5)).
Proof.
  intros Hc [Hr Hm] Hb. rewrite u8_small by lia.
  split; [exact Hb|].
  assert (E : r = 5 * (r / 5)) by (pose proof (Z.div_mod r 5); lia).
  destruct Hc; subst c.
  - replace (r + 1 * 5) with ((r / 5 + 1) * 5) by lia. apply Z.mod_mul. lia.
  - replace (r + -1 * 5) with ((r / 5 - 1) * 5) by lia. apply Z.mod_mul. lia.
Qed.

(** One depth step keeps the settings well formed and the table inside
    [DepthOffset, 255]. *)
Lemma SetDepth_settings_ok (c : Z) (s : State) :
  unit_step c = true -> settings_ok s -> table_in_range s ->
  settings_ok (SetDepth c s) /\ table_in_range (SetDepth c s).
Proof.
  intros Hc Hs Ht. apply unit_step_cases in Hc.
  destruct Hs as [Hw [Hm [Hr [Ho Hl]]]].
  assert (Hstep : 0 <= g_depth_ratio s + c * 5 <= 100 ->
                  let s2 :=
                    set_g_depth_offset
                      (depth_offset_of (C.u8 (g_depth_ratio s + c * 5)))
                      (set_g_depth_ratio (C.u8 (g_depth_ratio s + c * 5)) s) in
                  settings_ok (CalcDepthTable s2)
                  /\ table_in_range (CalcDepthTable s2)).
  { intros Hb s2.
    assert (H2 : settings_ok s2).
    { subst s2. unfold settings_ok. state_simpl.
      split; [|split; [|split; [|split]]]; try assumption; try reflexivity.
      apply depth_step_reachable; assumption. }
    split; [apply CalcDepthTable_settings_ok|apply CalcDepthTable_in_range];
      exact H2. }
  assert (Hoff : 0 <= g_depth_ratio s + c * 5 <= 100 ->
                 C.u8 (F32.to_Z
                         (F32.div
                            (F32.mul (F32.of_Z 255)
                               (F32.of_Z (100 - C.u8 (g_depth_ratio s + c * 5))))
                            (F32.of_Z 100)))
                 = depth_offset_of (C.u8 (g_depth_ratio s + c * 5))).
  { intros Hb. apply depth_offset_float. rewrite u8_small; lia. }
  assert (Hsame : C.u8 (F32.to_Z
                          (F32.div
                             (F32.mul (F32.of_Z 255)
                                (F32.of_Z (100 - g_depth_ratio s)))
                             (F32.of_Z 100)))
                  = g_depth_offset s).
  { rewrite Ho. apply depth_offset_float. destruct Hr. assumption. }
  pose proof Hr as [Hr1 Hr5].
  unfold SetDepth. cbv zeta.
  destruct ((g_depth_ratio s >=? 5) && (g_depth_ratio s <=? 95)) eqn:E1;
    [|destruct ((c >? 0) && (g_depth_ratio s =? 0)) eqn:E2;
      [|destruct ((c <? 0) && (g_depth_ratio s =? 100)) eqn:E3]];
    state_simpl.
  - rewrite Hoff by lia. apply Hstep. lia.
  - rewrite Hoff by lia. apply Hstep. lia.
  - rewrite Hoff by lia. apply Hstep. lia.
  - rewrite Hsame. split.
    + unfold settings_ok. state_simpl.
      split; [|split; [|split; [|split]]]; assumption.
    + unfold table_in_range. state_simpl. exact Ht.
Qed.

Lemma ResetDepthSetting_settings_ok (s : State) :
  settings_ok s ->
  settings_ok (ResetDepthSetting s) /\ table_in_range (ResetDepthSetting s).
Proof.
  intros [Hw [Hm [Hr [Ho Hl]]]]. unfold ResetDepthSetting.
  assert (H2 : settings_ok (set_g_depth_offset 0 (set_g_depth_ratio 100 s))).
  { unfold settings_ok. state_simpl.
    split; [|split; [|split; [|split]]]; try assumption; try reflexivity.
    split; [lia|reflexivity]. }
  split; [apply CalcDepthTable_settings_ok|apply CalcDepthTable_in_range];
    exact H2.
Qed.

Section SettingsInvariant.

Variable rand : Z -> Z * Z.

Lemma step_settings_ok (e : Event) (s : State) :
  encoder_event e = true ->
  settings_ok s /\ table_in_range s ->
  settings_ok (step rand e s) /\ table_in_range (step rand e s).
Proof.
  intros He [Hs Ht].
  assert (Hview : forall s', settings_view s' = settings_view s ->
                             settings_ok s' /\ table_in_range s').
  { intros s' E. split.
    - apply (settings_ok_view s s' E Hs).
    - apply (table_in_range_view s s' E Ht). }
  destruct e; unfold step; simpl in He.
  - apply Hview, TIM0_OVF_vect_settings.
  - apply Hview, TIM1_COMPA_vect_settings.
  - apply Hview, main_tap_closed_settings.
  - apply Hview, PCINT1_vect_settings.
  - apply SetWaveform_settings_ok; assumption.
  - destruct (SetMultiplier_other_settings change_value s) as [Ew [Er [Eo Et]]].
    pose proof (SetMultiplier_g_multiplier change_value s) as Em.
    apply unit_step_cases in He.
    destruct Hs as [Hw [Hm [Hr [Ho Hl]]]].
    split.
    + unfold settings_ok. rewrite Ew, Er, Eo, Et, Em.
      split; [|split; [|split; [|split]]]; try assumption.
      destruct ((g_multiplier s =? 0) && (change_value <? 0)) eqn:E1;
        [lia|].
      destruct ((g_multiplier s =? 9) && (change_value >? 0)) eqn:E2;
        [lia|].
      apply andb_false_iff in E1. apply andb_false_iff in E2. lia.
    + unfold table_in_range. rewrite Eo, Et. exact Ht.
  - apply SetDepth_settings_ok; assumption.
  - apply Hview, AdjustSpeed_settings.
  - destruct Hs as [Hw [Hm [Hr [Ho Hl]]]]. split.
    + unfold settings_ok, ResetWaveformSetting. state_simpl. simpl Waveform_to_Z.
      split; [|split; [|split; [|split]]]; try assumption. lia.
    + exact Ht.
  - destruct (ResetMultiplierSetting_settings s) as [Em [Ew [Er [Eo Et]]]].
    destruct Hs as [Hw [Hm [Hr [Ho Hl]]]].
    split.
    + unfold settings_ok. rewrite Ew, Er, Eo, Et, Em.
      split; [|split; [|split; [|split]]]; try assumption. lia.
    + unfold table_in_range. rewrite Eo, Et. exact Ht.
  - apply ResetDepthSetting_settings_ok. exact Hs.
  - apply Hview. unfold ResetSpeedAdjustSetting.
    rewrite RecalculateTempo_settings. reflexivity.
Qed.

Lemma boot_settings_ok : settings_ok (boot rand) /\ table_in_range (boot rand).
Proof.
  assert (E : settings_view (boot rand) = settings_view power_on).
  { unfold boot, main_init. cbv zeta.
    rewrite SetBaseTempo_settings, UpdateRandomNumber_settings. reflexivity. }
  assert (H0 : settings_ok power_on /\ table_in_range power_on).
  { split.
    - unfold settings_ok, depth_ratio_reachable. simpl.
      repeat split; try lia; reflexivity.
    - unfold table_in_range.
      change (g_depth_offset power_on) with 0.
      change (g_depth_table power_on) with (repeat 0 256).
      apply Forall_forall. intros v Hv. apply repeat_spec in Hv. lia. }
  destruct H0 as [H0 H1]. split.
  - apply (settings_ok_view power_on _ E H0).
  - apply (table_in_range_view power_on _ E H1).
Qed.

Lemma run_settings_ok (es : list Event) (s : State) :
  encoder_run es ->
  settings_ok s /\ table_in_range s ->
  settings_ok (run rand es s) /\ table_in_range (run rand es s).
Proof.
  unfold encoder_run. revert s.
  induction es as [|e es IH]; intros s He Hs; simpl; [exact Hs|].
  simpl in He. apply andb_true_iff in He. destruct He as [He Hes].
  apply IH; [exact Hes|]. apply step_settings_ok; assumption.
Qed.

End SettingsInvariant.

(** ** Settings: the properties *)

Section SettingsProperties.

Variable rand : Z -> Z * Z.

(** X1.  Whatever the timing events and speed trims, as long as the
    waveform, multiplier and depth are stepped by +1 or -1, Waveform and
    Multiplier stay inside their enumerations, DepthRatio is one of 0, 5,
    ..., 100, DepthOffset is floor (255 * (100 - DepthRatio) / 100), and the
    depth table keeps its 256 entries. *)
Theorem settings_stay_well_formed (es : list Event) :
  encoder_run es ->
  let s := run rand es (boot rand) in
  0 <= g_waveform s <= 6
  /\ 0 <= g_multiplier s <= 9
  /\ 0 <= g_depth_ratio s <= 100
  /\ g_depth_ratio s mod 5 = 0
  /\ g_depth_offset s = 255 * (100 - g_depth_ratio s) / 100
  /\ length (g_depth_table s) = 256%nat.
Proof.
  intros He s.
  destruct (run_settings_ok rand es (boot rand) He (boot_settings_ok rand))
    as [[Hw [Hm [[Hr H5] [Ho Hl]]]] _].
  fold s in Hw, Hm, Hr, H5, Ho, Hl. unfold depth_offset_of in Ho.
  repeat split; try assumption; lia.
Qed.

(** X2.  In such a run every entry of the depth table lies between
    DepthOffset and 255. *)
Theorem depth_table_between_offset_and_255 (es : list Event) (i : Z) :
  encoder_run es ->
  0 <= i <= 255 ->
  let s := run rand es (boot rand) in
  g_depth_offset s <= tget (g_depth_table s) i <= 255.
Proof.
  intros He Hi s.
  destruct (run_settings_ok rand es (boot rand) He (boot_settings_ok rand))
    as [[_ [_ [_ [_ Hl]]]] Ht].
  fold s in Hl, Ht. unfold table_in_range in Ht.
  rewrite Forall_forall in Ht. apply Ht.
  unfold tget. apply nth_In. rewrite Hl. lia.
Qed.

End SettingsProperties.

Lemma settings_stay_well_formed_witness :
  g_depth_offset (run libc_rand depth_down_then_square (boot libc_rand))
  = 255 * (100 - g_depth_ratio
                   (run libc_rand depth_down_then_square (boot libc_rand))) / 100.
Proof.
  assert (He : encoder_run depth_down_then_square) by (vm_compute; reflexivity).
  exact (proj1 (proj2 (proj2 (proj2 (proj2
           (settings_stay_well_formed libc_rand depth_down_then_square He)))))).
Defined.

Lemma depth_table_between_offset_and_255_witness :
  g_depth_offset (run libc_rand depth_down_then_square (boot libc_rand))
  <= tget (g_depth_table (run libc_rand depth_down_then_square (boot libc_rand)))
          200
  <= 255.
Proof.
  assert (He : encoder_run depth_down_then_square) by (vm_compute; reflexivity).
  assert (Hi : 0 <= 200 <= 255) by lia.
  exact (depth_table_between_offset_and_255
           libc_rand depth_down_then_square 200 He Hi).
Defined.

(** X3.  SetMultiplier saturates: a step down at Whole and a step up at
    Sixteenth return the state untouched; any other step of +1 or -1 moves
    the multiplier by that step, and the result stays in the
    enumeration. *)
Theorem SetMultiplier_saturates (c : Z) (s : State) :
  (g_multiplier s = Multiplier_to_Z MultiplierWhole -> c < 0 ->
   SetMultiplier c s = s)
  /\ (g_multiplier s = Multiplier_to_Z MultiplierSixteenth -> 0 < c ->
      SetMultiplier c s = s)
  /\ (0 <= g_multiplier s <= 9 -> c = 1 \/ c = -1 ->
      0 <= g_multiplier (SetMultiplier c s) <= 9
      /\ (0 <= g_multiplier s + c <= 9 ->
          g_multiplier (SetMultiplier c s) = g_multiplier s + c)).
Proof.
  simpl Multiplier_to_Z. split; [|split].
  - intros E Hc. unfold SetMultiplier. simpl Multiplier_to_Z. cbv zeta.
    rewrite E. simpl (0 =? 0).
    rewrite (proj2 (Z.ltb_lt c 0) Hc). reflexivity.
  - intros E Hc. unfold SetMultiplier. simpl Multiplier_to_Z. cbv zeta.
    rewrite E. simpl (9 =? 0). simpl (9 =? 9).
    rewrite (proj2 (Z.gtb_gt c 0)) by lia. reflexivity.
  - intros Hm Hc. rewrite SetMultiplier_g_multiplier.
    destruct ((g_multiplier s =? 0) && (c <? 0)) eqn:E1;
      [|destruct ((g_multiplier s =? 9) && (c >? 0)) eqn:E2].
    + apply andb_true_iff in E1. split; lia.
    + apply andb_true_iff in E2. split; lia.
    + apply andb_false_iff in E1. apply andb_false_iff in E2. split; lia.
Qed.

Lemma SetMultiplier_saturates_witness :
  SetMultiplier 1 (iter 5 (SetMultiplier 1) (boot libc_rand))
  = iter 5 (SetMultiplier 1) (boot libc_rand).
Proof.
  assert (E : g_multiplier (iter 5 (SetMultiplier 1) (boot libc_rand))
              = Multiplier_to_Z MultiplierSixteenth)
    by (vm_compute; reflexivity).
  assert (Hc : 0 < 1) by lia.
  exact (proj1 (proj2 (SetMultiplier_saturates
                         1 (iter 5 (SetMultiplier 1) (boot libc_rand)))) E Hc).
Defined.

(** ** Waveform steps and the rebuilt table *)

Lemma sample_symmetries_all : forallb sample_symmetries (indices 256) = true.
Proof. vm_compute. reflexivity. Qed.

Lemma sample_symmetries_at (i : Z) :
  0 <= i <= 255 ->
  spec_WaveformSample WaveformSine (255 - i) = spec_WaveformSample WaveformSine i
  /\ spec_WaveformSample WaveformTriangle (255 - i)
     = spec_WaveformSample WaveformTriangle i
  /\ spec_WaveformSample WaveformRampDown i
     = spec_WaveformSample WaveformRampUp (255 - i).
Proof.
  intros Hi. pose proof sample_symmetries_all as H.
  rewrite forallb_forall in H.
  assert (Hin : In i (indices 256)) by (apply In_indices; simpl; lia).
  specialize (H i Hin). unfold sample_symmetries in H.
  apply andb_true_iff in H. destruct H as [H H3].
  apply andb_true_iff in H. destruct H as [H1 H2].
  apply Z.eqb_eq in H1, H2, H3. repeat split; assumption.
Qed.

Lemma SetWaveform_g_waveform (c : Z) (s : State) :
  g_waveform (SetWaveform c s)
  = if (g_waveform s =? 0) && (c <? 0) then 6
    else if (g_waveform s =? 6) && (c >? 0) then 0
    else g_waveform s + c.
Proof.
  unfold SetWaveform. simpl Waveform_to_Z. cbv zeta.
  change (g_waveform (CalcDepthTable ?x)) with (g_waveform x).
  destruct ((g_waveform s =? 0) && (c <? 0));
    [|destruct ((g_waveform s =? 6) && (c >? 0))]; reflexivity.
Qed.

(** The table a rebuild leaves is a function of the waveform and of the
    depth ratio and offset alone. *)
Lemma CalcDepthTable_determined (s s' : State) :
  0 <= g_waveform s <= 6 ->
  length (g_depth_table s) = 256%nat ->
  length (g_depth_table s') = 256%nat ->
  g_waveform s' = g_waveform s ->
  g_depth_ratio s' = g_depth_ratio s ->
  g_depth_offset s' = g_depth_offset s ->
  g_depth_table (CalcDepthTable s') = g_depth_table (CalcDepthTable s).
Proof.
  intros Hw Hl Hl' Ew Er Eo.
  destruct (Waveform_of_Z_in_range _ Hw) as [w [E _]].
  rewrite (CalcDepthTable_table s w Hl E).
  rewrite (CalcDepthTable_table s' w Hl') by (rewrite Ew; exact E).
  apply map_ext. intros i.
  assert (Ec : forall v, CalcSignalDepth s' v = CalcSignalDepth s v).
  { intros v. unfold CalcSignalDepth. rewrite Er, Eo. reflexivity. }
  unfold stored_sample. destruct w; rewrite ?Ec; reflexivity.
Qed.

Lemma SetWaveform_fields (c : Z) (s : State) :
  g_depth_ratio (SetWaveform c s) = g_depth_ratio s
  /\ g_depth_offset (SetWaveform c s) = g_depth_offset s.
Proof.
  unfold SetWaveform. cbv zeta.
  change (g_depth_ratio (CalcDepthTable ?x)) with (g_depth_ratio x).
  change (g_depth_offset (CalcDepthTable ?x)) with (g_depth_offset x).
  split_ifs; split; reflexivity.
Qed.

Lemma SetWaveform_length (c : Z) (s : State) :
  c = 1 \/ c = -1 ->
  0 <= g_waveform s <= 6 ->
  length (g_depth_table s) = 256%nat ->
  0 <= g_waveform (SetWaveform c s) <= 6
  /\ length (g_depth_table (SetWaveform c s)) = 256%nat.
Proof.
  intros Hc Hw Hl. split.
  - rewrite SetWaveform_g_waveform. split_ifs; lia.
  - unfold SetWaveform. simpl Waveform_to_Z. cbv zeta.
    apply CalcDepthTable_length.
    + split_ifs; lia.
    + split_ifs; exact Hl.
Qed.

Lemma SetWaveform_table (c : Z) (s : State) :
  c = 1 \/ c = -1 ->
  0 <= g_waveform s <= 6 ->
  length (g_depth_table s) = 256%nat ->
  g_depth_table (SetWaveform c s)
  = g_depth_table
      (CalcDepthTable (set_g_waveform (g_waveform (SetWaveform c s)) s)).
Proof.
  intros Hc Hw Hl. rewrite SetWaveform_g_waveform.
  unfold SetWaveform. simpl Waveform_to_Z. cbv zeta.
  destruct ((g_waveform s =? 0) && (c <? 0));
    [|destruct ((g_waveform s =? 6) && (c >? 0))]; reflexivity.
Qed.

(** X4.  SetWaveform wraps around the seven waveforms, and a step
    followed by the opposite step is a round trip: the waveform is the
    original one and the depth table is the table a rebuild gives for it,
    hence the original table whenever that one was up to date. *)
Theorem SetWaveform_round_trip (c : Z) (s : State) :
  c = 1 \/ c = -1 ->
  0 <= g_waveform s <= 6 ->
  length (g_depth_table s) = 256%nat ->
  g_waveform (SetWaveform c s) = (g_waveform s + c) mod 7
  /\ g_waveform (SetWaveform (- c) (SetWaveform c s)) = g_waveform s
  /\ g_depth_table (SetWaveform (- c) (SetWaveform c s))
     = g_depth_table (CalcDepthTable s)
  /\ (g_depth_table (CalcDepthTable s) = g_depth_table s ->
      g_depth_table (SetWaveform (- c) (SetWaveform c s)) = g_depth_table s).
Proof.
  intros Hc Hw Hl.
  assert (Hc' : - c = 1 \/ - c = -1) by lia.
  destruct (SetWaveform_length c s Hc Hw Hl) as [Hw1 Hl1].
  destruct (SetWaveform_fields c s) as [Er1 Eo1].
  destruct (SetWaveform_fields (- c) (SetWaveform c s)) as [Er2 Eo2].
  assert (E1 : g_waveform (SetWaveform c s) = (g_waveform s + c) mod 7).
  { rewrite SetWaveform_g_waveform.
    assert (Hcase : g_waveform s + c = -1 \/ g_waveform s + c = 7
                    \/ 0 <= g_waveform s + c <= 6) by lia.
    destruct Hcase as [E|[E|E]].
    - rewrite E. destruct ((g_waveform s =? 0) && (c <? 0)) eqn:B1; [reflexivity|].
      apply andb_false_iff in B1. lia.
    - rewrite E. destruct ((g_waveform s =? 0) && (c <? 0)) eqn:B1.
      + apply andb_true_iff in B1. lia.
      + destruct ((g_waveform s =? 6) && (c >? 0)) eqn:B2; [reflexivity|].
        apply andb_false_iff in B2. lia.
    - rewrite Z.mod_small by lia.
      destruct ((g_waveform s =? 0) && (c <? 0)) eqn:B1.
      + apply andb_true_iff in B1. lia.
      + destruct ((g_waveform s =? 6) && (c >? 0)) eqn:B2; [|reflexivity].
        apply andb_true_iff in B2. lia. }
  assert (E2 : g_waveform (SetWaveform (- c) (SetWaveform c s)) = g_waveform s).
  { rewrite SetWaveform_g_waveform.
    pose proof (SetWaveform_g_waveform c s) as Ew.
    destruct ((g_waveform s =? 0) && (c <? 0)) eqn:B1;
      [|destruct ((g_waveform s =? 6) && (c >? 0)) eqn:B2]; rewrite Ew.
    - apply andb_true_iff in B1. simpl (6 =? 0). simpl (6 =? 6).
      cbn [andb]. rewrite (proj2 (Z.gtb_gt (- c) 0)) by lia. lia.
    - apply andb_true_iff in B2. simpl (0 =? 0).
      cbn [andb]. rewrite (proj2 (Z.ltb_lt (- c) 0)) by lia. lia.
    - apply andb_false_iff in B1. apply andb_false_iff in B2.
      destruct ((g_waveform s + c =? 0) && (- c <? 0)) eqn:B3;
        [apply andb_true_iff in B3; lia|].
      destruct ((g_waveform s + c =? 6) && (- c >? 0)) eqn:B4;
        [apply andb_true_iff in B4; lia|].
      lia. }
  assert (E3 : g_depth_table (SetWaveform (- c) (SetWaveform c s))
               = g_depth_table (CalcDepthTable s)).
  { rewrite (SetWaveform_table (- c) (SetWaveform c s) Hc' Hw1 Hl1).
    rewrite E2.
    apply CalcDepthTable_determined; try assumption; reflexivity. }
  split; [exact E1|]. split; [exact E2|]. split; [exact E3|].
  intros Hup. rewrite E3. exact Hup.
Qed.

Lemma SetWaveform_round_trip_witness :
  g_depth_table (SetWaveform (- 1) (SetWaveform 1 half_depth_square))
  = g_depth_table half_depth_square.
Proof.
  assert (Hc : 1 = 1 \/ 1 = -1) by (left; reflexivity).
  assert (Hw : 0 <= g_waveform half_depth_square <= 6)
    by (vm_compute; split; discriminate).
  assert (Hl : length (g_depth_table half_depth_square) = 256%nat)
    by (vm_compute; reflexivity).
  assert (Hup : g_depth_table (CalcDepthTable half_depth_square)
                = g_depth_table half_depth_square)
    by (vm_compute; reflexivity).
  exact (proj2 (proj2 (proj2
           (SetWaveform_round_trip 1 half_depth_square Hc Hw Hl))) Hup).
Defined.

(** X5.  A rebuild overwrites every entry: the table it leaves does not
    depend on the table it starts from, and rebuilding twice is
    rebuilding once. *)
Theorem CalcDepthTable_overwrites (s : State) (t : list Z) :
  0 <= g_waveform s <= 6 ->
  length (g_depth_table s) = 256%nat ->
  length t = 256%nat ->
  g_depth_table (CalcDepthTable (set_g_depth_table t s))
  = g_depth_table (CalcDepthTable s)
  /\ CalcDepthTable (CalcDepthTable s) = CalcDepthTable s.
Proof.
  intros Hw Hl Ht.
  assert (Hany : forall t', length t' = 256%nat ->
                   g_depth_table (CalcDepthTable (set_g_depth_table t' s))
                   = g_depth_table (CalcDepthTable s)).
  { intros t' Ht'. apply CalcDepthTable_determined; try assumption; reflexivity. }
  split; [apply Hany; exact Ht|].
  pose proof (CalcDepthTable_length s Hw Hl) as Hl1.
  pose proof (Hany _ Hl1) as E.
  unfold CalcDepthTable at 1. unfold CalcDepthTable at 1 in E.
  revert E.
  change (CalcSignalDepth (CalcDepthTable s)) with (CalcSignalDepth s).
  change (g_waveform (CalcDepthTable s)) with (g_waveform s).
  change (CalcSignalDepth (set_g_depth_table (g_depth_table (CalcDepthTable s)) s))
    with (CalcSignalDepth s).
  state_simpl. intros E. rewrite E.
  unfold CalcDepthTable. state_simpl.
  generalize (CalcDepthTable_fill (CalcSignalDepth s)
                (Waveform_of_Z (g_waveform s)) (g_depth_table s)).
  intros T. reflexivity.
Qed.

Lemma CalcDepthTable_overwrites_witness :
  CalcDepthTable (CalcDepthTable half_depth_square)
  = CalcDepthTable half_depth_square.
Proof.
  assert (Hw : 0 <= g_waveform half_depth_square <= 6)
    by (vm_compute; split; discriminate).
  assert (Hl : length (g_depth_table half_depth_square) = 256%nat)
    by (vm_compute; reflexivity).
  exact (proj2 (CalcDepthTable_overwrites
                  half_depth_square (g_depth_table half_depth_square) Hw Hl Hl)).
Defined.

(** ** Shapes of the rebuilt table *)

Lemma CalcDepthTable_entry (s : State) (w : Waveform) (i : Z) :
  length (g_depth_table s) = 256%nat ->
  Waveform_of_Z (g_waveform s) = Some w ->
  0 <= i <= 255 ->
  tget (g_depth_table (CalcDepthTable s)) i
  = stored_sample (CalcSignalDepth s) w i.
Proof.
  intros Hl Hw Hi. rewrite (CalcDepthTable_table s w Hl Hw).
  apply tget_indices. simpl. lia.
Qed.

Lemma CalcSignalDepth_monotone (s : State) (v v' : Z) :
  depth_ratio_reachable (g_depth_ratio s) ->
  g_depth_offset s = depth_offset_of (g_depth_ratio s) ->
  0 <= v <= v' -> v' <= 255 ->
  CalcSignalDepth s v <= CalcSignalDepth s v'.
Proof.
  intros [Hr Hm] Ho Hv Hv'.
  destruct (Z.eq_dec (g_depth_ratio s) 100) as [E|E].
  - unfold CalcSignalDepth. cbv zeta. rewrite E, Z.eqb_refl.
    rewrite !u8_small by lia. lia.
  - assert (Hlt : 0 <= g_depth_ratio s < 100) by lia.
    rewrite (CalcSignalDepth_floor s v Hlt Ho) by lia.
    rewrite (CalcSignalDepth_floor s v' Hlt Ho) by lia.
    apply Z.add_le_mono_l. apply Z.div_le_mono; [lia|]. nia.
Qed.

(** X6.  Shapes of the rebuilt table, at any depth: the Sine and Triangle
    tables read the same from both ends (entry 255 - i equals entry i), and
    the RampDown table is the RampUp table reversed. *)
Theorem rebuilt_table_symmetries (s : State) (i : Z) :
  length (g_depth_table s) = 256%nat ->
  0 <= i <= 255 ->
  let table w :=
    g_depth_table (CalcDepthTable (set_g_waveform (Waveform_to_Z w) s)) in
  tget (table WaveformSine) (255 - i) = tget (table WaveformSine) i
  /\ tget (table WaveformTriangle) (255 - i) = tget (table WaveformTriangle) i
  /\ tget (table WaveformRampDown) i = tget (table WaveformRampUp) (255 - i).
Proof.
  intros Hl Hi table.
  assert (Hi' : 0 <= 255 - i <= 255) by lia.
  destruct (sample_symmetries_at i Hi) as [Es [Et Er]].
  assert (Hentry : forall w j, 0 <= j <= 255 ->
            tget (table w) j = stored_sample (CalcSignalDepth s) w j).
  { intros w j Hj. subst table. cbv beta.
    rewrite (CalcDepthTable_entry _ w j); [reflexivity|exact Hl| |exact Hj].
    state_simpl. destruct w; reflexivity. }
  rewrite !Hentry by assumption.
  unfold stored_sample. rewrite Es, Et, Er. repeat split; reflexivity.
Qed.

Lemma rebuilt_table_symmetries_witness :
  tget (g_depth_table
          (CalcDepthTable
             (set_g_waveform (Waveform_to_Z WaveformSine) half_depth_square)))
       (255 - 40)
  = tget (g_depth_table
            (CalcDepthTable
               (set_g_waveform (Waveform_to_Z WaveformSine) half_depth_square)))
         40.
Proof.
  assert (Hl : length (g_depth_table half_depth_square) = 256%nat)
    by (vm_compute; reflexivity).
  assert (Hi : 0 <= 40 <= 255) by lia.
  exact (proj1 (rebuilt_table_symmetries half_depth_square 40 Hl Hi)).
Defined.

(** X7.  With the depth ratio and offset SetDepth produces, the RampUp
    table never decreases, and the Triangle table never decreases over its
    first half; entry i of the RampUp table is DepthOffset +
    floor (i * DepthRatio / 100) when DepthRatio is below 100 and i itself
    at 100. *)
Theorem ramp_tables_monotone (s : State) (i j : Z) :
  length (g_depth_table s) = 256%nat ->
  depth_ratio_reachable (g_depth_ratio s) ->
  g_depth_offset s = depth_offset_of (g_depth_ratio s) ->
  0 <= i <= j -> j <= 255 ->
  let table w :=
    g_depth_table (CalcDepthTable (set_g_waveform (Waveform_to_Z w) s)) in
  tget (table WaveformRampUp) i <= tget (table WaveformRampUp) j
  /\ (j <= 127 ->
      tget (table WaveformTriangle) i <= tget (table WaveformTriangle) j)
  /\ tget (table WaveformRampUp) i
     = if g_depth_ratio s =? 100 then i
       else g_depth_offset s + i * g_depth_ratio s / 100.
Proof.
  intros Hl Hr Ho Hij Hj table.
  assert (Hentry : forall w k, 0 <= k <= 255 ->
            tget (table w) k = stored_sample (CalcSignalDepth s) w k).
  { intros w k Hk. subst table. cbv beta.
    rewrite (CalcDepthTable_entry _ w k); [reflexivity|exact Hl| |exact Hk].
    state_simpl. destruct w; reflexivity. }
  rewrite !Hentry by lia. unfold stored_sample, spec_WaveformSample.
  split; [|split].
  - apply CalcSignalDepth_monotone; try assumption; lia.
  - intros H127.
    rewrite (proj2 (Z.ltb_lt i 128)) by lia.
    rewrite (proj2 (Z.ltb_lt j 128)) by lia.
    apply CalcSignalDepth_monotone; try assumption; lia.
  - destruct (g_depth_ratio s =? 100) eqn:E.
    + unfold CalcSignalDepth. cbv zeta. rewrite E. apply u8_small. lia.
    + apply Z.eqb_neq in E. destruct Hr as [Hr _].
      apply CalcSignalDepth_floor; try assumption; lia.
Qed.

Lemma ramp_tables_monotone_witness :
  tget (g_depth_table
          (CalcDepthTable
             (set_g_waveform (Waveform_to_Z WaveformRampUp) half_depth_square)))
       255
  = 254.
Proof.
  assert (Hl : length (g_depth_table half_depth_square) = 256%nat)
    by (vm_compute; reflexivity).
  assert (Hr : depth_ratio_reachable (g_depth_ratio half_depth_square))
    by (vm_compute; split; [split; discriminate | reflexivity]).
  assert (Ho : g_depth_offset half_depth_square
               = depth_offset_of (g_depth_ratio half_depth_square))
    by (vm_compute; reflexivity).
  assert (Hij : 0 <= 255 <= 255) by lia.
  assert (Hj : 255 <= 255) by lia.
  rewrite (proj2 (proj2 (ramp_tables_monotone
                           half_depth_square 255 255 Hl Hr Ho Hij Hj))).
  vm_compute. reflexivity.
Defined.

(** X8.  ResetDepthSetting restores full depth: ratio 100, offset 0, and a
    table that holds the raw shape of the current waveform at every
    index. *)
Theorem ResetDepthSetting_raw_shape (s : State) (w : Waveform) (i : Z) :
  length (g_depth_table s) = 256%nat ->
  Waveform_of_Z (g_waveform s) = Some w ->
  0 <= i <= 255 ->
  g_depth_ratio (ResetDepthSetting s) = 100
  /\ g_depth_offset (ResetDepthSetting s) = 0
  /\ tget (g_depth_table (ResetDepthSetting s)) i = spec_WaveformSample w i.
Proof.
  intros Hl Hw Hi. unfold ResetDepthSetting.
  split; [reflexivity|]. split; [reflexivity|].
  rewrite (CalcDepthTable_entry _ w i); [|exact Hl|exact Hw|exact Hi].
  pose proof (spec_WaveformSample_byte w i Hi) as Hb.
  assert (Ec : forall v, 0 <= v <= 255 ->
            CalcSignalDepth (set_g_depth_offset 0 (set_g_depth_ratio 100 s)) v = v).
  { intros v Hv. unfold CalcSignalDepth. state_simpl. cbv zeta.
    rewrite Z.eqb_refl. apply u8_small. lia. }
  unfold stored_sample.
  destruct w; try (apply Ec; exact Hb);
    destruct (spec_WaveformSample _ i =? 255) eqn:E;
    try (apply Ec; exact Hb); apply Z.eqb_eq in E; symmetry; exact E.
Qed.

Lemma ResetDepthSetting_raw_shape_witness :
  tget (g_depth_table (ResetDepthSetting half_depth_square)) 128
  = spec_WaveformSample WaveformSquare 128.
Proof.
  assert (Hl : length (g_depth_table half_depth_square) = 256%nat)
    by (vm_compute; reflexivity).
  assert (Hw : Waveform_of_Z (g_waveform half_depth_square) = Some WaveformSquare)
    by (vm_compute; reflexivity).
  assert (Hi : 0 <= 128 <= 255) by lia.
  exact (proj2 (proj2 (ResetDepthSetting_raw_shape
                         half_depth_square WaveformSquare 128 Hl Hw Hi))).
Defined.

(** ** Tempo, count and phase invariants *)

Ltac unfold_core :=
  unfold step, TIM0_OVF_vect, TIM1_COMPA_vect, PCINT1_vect, main_tap_closed,
    PlotWaveform, StartTempoCount, StopTempoCount, TempoCountTimeout,
    ResetSignals, SetBaseTempo, AlignWaveform, ResetBaseTempo, AdjustSpeed,
    ResetSpeedAdjustSetting, SetWaveform, ResetWaveformSetting, SetMultiplier,
    ResetMultiplierSetting, SetDepth, ResetDepthSetting, CalcDepthTable,
    AdjustPhaseAccumulation, RecalculateTempo, SeedRandomNumberGenerator,
    UpdateRandomNumber;
  cbv zeta.

(** Case analysis on every conditional and on every call of the
    generator. *)
Ltac split_core :=
  repeat (state_simpl;
          match goal with
          | |- context [if ?c then _ else _] => destruct c eqn:?
          | |- context [match ?r with (_, _) => _ end] => destruct r eqn:?
          end);
  state_simpl_all.

Lemma top_byte (x : Z) :
  0 <= x < 4294967296 ->
  Z.shiftr (Z.land x 4278190080) 24 = x / 16777216
  /\ 0 <= x / 16777216 <= 255.
Proof.
  intros Hx.
  assert (Hq : 0 <= x / 16777216 <= 255).
  { split.
    - apply Z.div_pos; lia.
    - assert (x / 16777216 < 256); [|lia].
      apply Z.div_lt_upper_bound; lia. }
  split; [|exact Hq].
  rewrite Z.shiftr_land.
  change (Z.shiftr 4278190080 24) with (Z.ones 8).
  rewrite Z.land_ones by lia.
  rewrite Z.shiftr_div_pow2 by lia.
  change (2 ^ 24) with 16777216. change (2 ^ 8) with 256.
  apply Z.mod_small. lia.
Qed.

Lemma s16_spec (x : Z) :
  -32768 <= C.s16 x <= 32767 /\ exists q, C.s16 x = x + 65536 * q.
Proof.
  unfold C.s16, C.u16. cbv zeta.
  pose proof (Z.mod_pos_bound x 65536 ltac:(lia)) as Hb.
  pose proof (Z.div_mod x 65536 ltac:(lia)) as Hd.
  destruct (x mod 65536 <? 32768) eqn:E.
  - apply Z.ltb_lt in E. split; [lia|]. exists (- (x / 65536)). lia.
  - apply Z.ltb_ge in E. split; [lia|]. exists (- (x / 65536) - 1). lia.
Qed.

Lemma top_byte_u32 (a : Z) :
  0 <= Z.shiftr (Z.land (C.u32 a) 4278190080) 24 <= 255.
Proof.
  assert (Hx : 0 <= C.u32 a < 4294967296)
    by (unfold C.u32; apply Z.mod_pos_bound; lia).
  destruct (top_byte _ Hx) as [E Hq]. rewrite E. exact Hq.
Qed.

(** Closes the arithmetic left at the leaves of a case analysis. *)
Ltac core_arith :=
  unfold LFO_MAX_TEMPO, LFO_MIN_TEMPO, MULTIPLIER_ALIGNMENT_OFFSET in *;
  repeat split;
  try assumption; try reflexivity;
  try (intros; congruence);
  try apply (proj1 (top_byte_u32 _));
  try apply (proj2 (top_byte_u32 _));
  try (unfold C.u8, C.u16, C.u32 in *; Z.div_mod_to_equations; lia).

Section CoreInvariants.

Variable rand : Z -> Z * Z.

Ltac core_intro :=
  unfold core_ok, tempo_ok, count_ok, phase_ok;
  intros [[Hb [Ht [Hd Hw]]] [[Hc Hi] [Hr [Hx [Hbx [Hp Hbp]]]]]].

Lemma TIM0_OVF_vect_core_ok (s : State) :
  core_ok s -> core_ok (TIM0_OVF_vect rand s).
Proof. core_intro. unfold_core. split_core; core_arith. Qed.

Lemma TIM1_COMPA_vect_core_ok (s : State) :
  core_ok s -> core_ok (TIM1_COMPA_vect s).
Proof. core_intro. unfold_core. split_core; core_arith. Qed.

Lemma ResetSignals_core_ok (s : State) : core_ok s -> core_ok (ResetSignals s).
Proof. core_intro. unfold_core. split_core; core_arith. Qed.

Lemma StartTempoCount_core_ok (s : State) :
  core_ok s -> core_ok (StartTempoCount s).
Proof. core_intro. unfold_core. split_core; core_arith. Qed.

Lemma StopTempoCount_core_ok (s : State) :
  core_ok s -> core_ok (StopTempoCount s).
Proof. core_intro. unfold_core. split_core; core_arith. Qed.

Lemma UpdateRandomNumber_core_ok (s : State) :
  core_ok s -> core_ok (UpdateRandomNumber rand s).
Proof. core_intro. unfold_core. split_core; core_arith. Qed.

Lemma flags_core_ok (s : State) (b1 b2 b3 : bool) (seed : Z) :
  core_ok s ->
  core_ok (set_previous_sync_input b1 s)
  /\ core_ok (set_has_received_tap_input b2 s)
  /\ core_ok (SeedRandomNumberGenerator seed (set_has_random_seed b3 s)).
Proof. core_intro. unfold_core. state_simpl. core_arith. Qed.

Lemma SetWaveform_core_ok (c : Z) (s : State) :
  core_ok s -> core_ok (SetWaveform c s).
Proof. core_intro. unfold_core. split_core; core_arith. Qed.

Lemma SetMultiplier_core_ok (c : Z) (s : State) :
  core_ok s -> core_ok (SetMultiplier c s).
Proof. core_intro. unfold_core. split_core; core_arith. Qed.

Lemma SetDepth_core_ok (c : Z) (s : State) :
  core_ok s -> core_ok (SetDepth c s).
Proof. core_intro. unfold_core. split_core; core_arith. Qed.

Lemma AdjustSpeed_core_ok (c : Z) (s : State) :
  core_ok s -> core_ok (AdjustSpeed c s).
Proof.
  core_intro. unfold_core.
  destruct (s16_spec (g_base_tempo s + g_tempo_adjust_offset s + c))
    as [Hn [qn En]].
  destruct (s16_spec (g_tempo_adjust_offset s + c)) as [Ho [qo Eo]].
  split_core; core_arith.
Qed.

Lemma resets_core_ok (s : State) :
  core_ok s ->
  core_ok (ResetWaveformSetting s)
  /\ core_ok (ResetMultiplierSetting s)
  /\ core_ok (ResetDepthSetting s)
  /\ core_ok (ResetSpeedAdjustSetting s).
Proof. core_intro. unfold_core. split_core; core_arith. Qed.

Lemma PCINT1_vect_core_ok (b : bool) (s : State) :
  core_ok s -> core_ok (PCINT1_vect b s).
Proof.
  intros H. unfold PCINT1_vect. cbv zeta.
  destruct (negb _); [|exact H].
  destruct (flags_core_ok s b true true 0 H) as [Hp _].
  destruct b; [apply StopTempoCount_core_ok|apply StartTempoCount_core_ok];
    exact Hp.
Qed.

Lemma main_tap_closed_core_ok (s : State) :
  core_ok s -> core_ok (main_tap_closed rand s).
Proof.
  intros H. unfold main_tap_closed.
  pose proof (StartTempoCount_core_ok _ (ResetSignals_core_ok s H)) as Hstart.
  pose proof (StopTempoCount_core_ok _ (ResetSignals_core_ok s H)) as Hstop.
  revert Hstart Hstop.
  generalize (StartTempoCount (ResetSignals s)).
  generalize (StopTempoCount (ResetSignals s)).
  intros stopped started Hstart Hstop.
  set (s1 := if negb (is_counting_tempo s) then started
             else set_has_received_tap_input true stopped).
  assert (H1 : core_ok s1).
  { subst s1. destruct (negb (is_counting_tempo s)); [exact Hstart|].
    apply (flags_core_ok stopped true true true 0 Hstop). }
  clearbody s1. cbv zeta.
  destruct (negb (has_random_seed s1)); [|exact H1].
  destruct (negb (has_received_tap_input s1)); [|exact H1].
  apply UpdateRandomNumber_core_ok.
  generalize (g_tempo_ms_count (set_has_random_seed true s1)). intros seed.
  apply (flags_core_ok s1 true true true seed H1).
Qed.

Lemma step_core_ok (e : Event) (s : State) :
  core_ok s -> core_ok (step rand e s).
Proof.
  intros H. destruct e; unfold step.
  - apply TIM0_OVF_vect_core_ok. exact H.
  - apply TIM1_COMPA_vect_core_ok. exact H.
  - apply main_tap_closed_core_ok. exact H.
  - apply PCINT1_vect_core_ok. exact H.
  - apply SetWaveform_core_ok. exact H.
  - apply SetMultiplier_core_ok. exact H.
  - apply SetDepth_core_ok. exact H.
  - apply AdjustSpeed_core_ok. exact H.
  - apply (resets_core_ok s H).
  - apply (resets_core_ok s H).
  - apply (resets_core_ok s H).
  - apply (resets_core_ok s H).
Qed.

Lemma SetBaseTempo_first (ms : Z) (s : State) :
  LFO_MAX_TEMPO <= ms <= LFO_MIN_TEMPO ->
  g_base_tempo s = 0 ->
  count_ok s -> phase_ok s ->
  core_ok (SetBaseTempo ms s).
Proof.
  unfold core_ok, tempo_ok, count_ok, phase_ok.
  intros Hms E0 [Hc Hi] [Hr [Hx [Hbx [Hp Hbp]]]].
  unfold_core. rewrite E0. split_core; core_arith.
Qed.

Lemma boot_core_ok : core_ok (boot rand).
Proof.
  unfold boot, main_init. cbv zeta.
  apply SetBaseTempo_first.
  - unfold LFO_MAX_TEMPO, LFO_MIN_TEMPO, DEFAULT_TEMPO. lia.
  - unfold UpdateRandomNumber. destruct (rand _) as [r next]. reflexivity.
  - unfold UpdateRandomNumber. destruct (rand _) as [r next].
    unfold count_ok, LFO_MIN_TEMPO. state_simpl. simpl. split; [lia|reflexivity].
  - unfold UpdateRandomNumber. destruct (rand _) as [r next].
    unfold phase_ok. state_simpl. simpl.
    pose proof (u8_range (C.rem r WAVEFORM_RANDOM_STEP_COUNT * WAVEFORM_STEP_SIZE)).
    lia.
Qed.

Lemma run_core_ok (es : list Event) (s : State) :
  core_ok s -> core_ok (run rand es s).
Proof.
  revert s. induction es as [|e es IH]; intros s H; simpl; [exact H|].
  apply IH. apply step_core_ok. exact H.
Qed.

End CoreInvariants.

(** ** Tempo, count and phase: the properties *)

Section CoreProperties.

Variable rand : Z -> Z * Z.

(** X9.  After any sequence of events, whatever their arguments, BaseTempo
    lies in [LFO_MAX_TEMPO, LFO_MIN_TEMPO] and so does the trimmed tempo
    BaseTempo + TempoAdjustOffset that RecalculateTempo divides by. *)
Theorem tempo_stays_in_range (es : list Event) :
  let s := run rand es (boot rand) in
  LFO_MAX_TEMPO <= g_base_tempo s <= LFO_MIN_TEMPO
  /\ LFO_MAX_TEMPO <= g_base_tempo s + g_tempo_adjust_offset s <= LFO_MIN_TEMPO.
Proof.
  intros s.
  destruct (run_core_ok rand es (boot rand) (boot_core_ok rand))
    as [[Hb [Ht _]] _].
  split; assumption.
Qed.

(** X10.  After any sequence of events both duty cycles are up to date:
    BaseDutyCycle is the value RecalculateTempo derives from the trimmed
    tempo, WorkingDutyCycle the value it derives from BaseDutyCycle and
    the multiplier's ratio, so a further RecalculateTempo would store the
    same two values. *)
Theorem duty_cycles_up_to_date (es : list Event) :
  let s := run rand es (boot rand) in
  g_base_duty_cycle s = base_duty_of (g_base_tempo s + g_tempo_adjust_offset s)
  /\ g_duty_cycle s = working_duty_of (g_base_duty_cycle s) (g_multiplier s)
  /\ g_base_duty_cycle (RecalculateTempo s) = g_base_duty_cycle s
  /\ g_duty_cycle (RecalculateTempo s) = g_duty_cycle s.
Proof.
  intros s.
  destruct (run_core_ok rand es (boot rand) (boot_core_ok rand))
    as [[Hb [Ht [Hd Hw]]] _].
  fold s in Hb, Ht, Hd, Hw.
  assert (Hu : C.u16 (g_base_tempo s + g_tempo_adjust_offset s)
               = g_base_tempo s + g_tempo_adjust_offset s).
  { apply u16_small. unfold LFO_MAX_TEMPO, LFO_MIN_TEMPO in Ht. lia. }
  split; [rewrite <- Hu; exact Hd|]. split; [exact Hw|].
  unfold RecalculateTempo. state_simpl. split.
  - symmetry. exact Hd.
  - fold (base_duty_of (C.u16 (g_base_tempo s + g_tempo_adjust_offset s))).
    rewrite <- Hd. symmetry. exact Hw.
Qed.

(** X11.  After any sequence of events the millisecond count is at most
    LFO_MIN_TEMPO, and it is 0 whenever no count is running. *)
Theorem tempo_count_bounded (es : list Event) :
  let s := run rand es (boot rand) in
  0 <= g_tempo_ms_count s <= LFO_MIN_TEMPO
  /\ (is_counting_tempo s = false -> g_tempo_ms_count s = 0).
Proof.
  intros s.
  destruct (run_core_ok rand es (boot rand) (boot_core_ok rand))
    as [_ [Hc _]].
  exact Hc.
Qed.

Lemma TIM0_OVF_vect_OCR0A (s : State) :
  OCR0A (TIM0_OVF_vect rand s)
  = tget (g_depth_table s)
         (if g_waveform s =? Waveform_to_Z WaveformRandom
          then g_random_number s
          else Z.shiftr
                 (Z.land (C.u32 (g_phase_accumulator s + g_duty_cycle s))
                         4278190080) 24).
Proof.
  unfold TIM0_OVF_vect, PlotWaveform, UpdateRandomNumber. cbv zeta.
  split_core; reflexivity.
Qed.

(** X12.  The depth table is never read outside its 256 entries: in a run
    with unit encoder steps, the index the next sample tick reads at (the
    top byte of the advanced working accumulator, or RandomNumber for the
    Random waveform) is below the table's length, and so are both stored
    indices. *)
Theorem table_reads_in_bounds (es : list Event) :
  encoder_run es ->
  let s := run rand es (boot rand) in
  let read_index :=
    if g_waveform s =? Waveform_to_Z WaveformRandom then g_random_number s
    else g_table_index (TIM0_OVF_vect rand s) in
  0 <= read_index < Z.of_nat (length (g_depth_table s))
  /\ 0 <= g_table_index s < Z.of_nat (length (g_depth_table s))
  /\ 0 <= g_base_table_index s < Z.of_nat (length (g_depth_table s)).
Proof.
  intros He s read_index.
  destruct (run_settings_ok rand es (boot rand) He (boot_settings_ok rand))
    as [[_ [_ [_ [_ Hl]]]] _].
  destruct (run_core_ok rand es (boot rand) (boot_core_ok rand))
    as [_ [_ [Hr [Hx [Hbx _]]]]].
  fold s in Hl, Hr, Hx, Hbx. rewrite Hl.
  assert (Hnext : 0 <= g_table_index (TIM0_OVF_vect rand s) <= 255).
  { unfold TIM0_OVF_vect. cbv zeta. rewrite PlotWaveform_table_index.
    apply top_byte_u32. }
  subst read_index.
  destruct (g_waveform s =? Waveform_to_Z WaveformRandom); simpl; lia.
Qed.

(** X13.  In such a run every sample tick loads the PWM register with a
    value between DepthOffset and 255. *)
Theorem pwm_output_between_offset_and_255 (es : list Event) :
  encoder_run es ->
  let s := run rand es (boot rand) in
  g_depth_offset s <= OCR0A (TIM0_OVF_vect rand s) <= 255.
Proof.
  intros He s.
  destruct (run_settings_ok rand es (boot rand) He (boot_settings_ok rand))
    as [[_ [_ [_ [_ Hl]]]] Ht].
  destruct (run_core_ok rand es (boot rand) (boot_core_ok rand))
    as [_ [_ [Hr _]]].
  fold s in Hl, Ht, Hr.
  rewrite TIM0_OVF_vect_OCR0A.
  unfold table_in_range in Ht. rewrite Forall_forall in Ht. apply Ht.
  unfold tget. apply nth_In. rewrite Hl.
  pose proof (top_byte_u32 (g_phase_accumulator s + g_duty_cycle s)).
  destruct (g_waveform s =? Waveform_to_Z WaveformRandom); lia.
Qed.

End CoreProperties.

Lemma table_reads_in_bounds_witness :
  0 <= g_table_index (run libc_rand synced_triplets_random (boot libc_rand))
    < Z.of_nat
        (length (g_depth_table
                   (run libc_rand synced_triplets_random (boot libc_rand)))).
Proof.
  assert (He : encoder_run synced_triplets_random) by (vm_compute; reflexivity).
  exact (proj1 (proj2 (table_reads_in_bounds
                         libc_rand synced_triplets_random He))).
Defined.

Lemma pwm_output_between_offset_and_255_witness :
  g_depth_offset (run libc_rand depth_down_then_square (boot libc_rand))
  <= OCR0A (TIM0_OVF_vect libc_rand
              (run libc_rand depth_down_then_square (boot libc_rand)))
  <= 255.
Proof.
  assert (He : encoder_run depth_down_then_square) by (vm_compute; reflexivity).
  exact (pwm_output_between_offset_and_255 libc_rand depth_down_then_square He).
Defined.

(** ** The working accumulator over a run of sample ticks *)

Section Accumulator.

Variable rand : Z -> Z * Z.

Lemma TIM0_OVF_vect_working (s : State) :
  g_phase_accumulator (TIM0_OVF_vect rand s)
  = C.u32 (g_phase_accumulator s + g_duty_cycle s)
  /\ g_duty_cycle (TIM0_OVF_vect rand s) = g_duty_cycle s
  /\ g_table_index (TIM0_OVF_vect rand s)
     = Z.shiftr (Z.land (C.u32 (g_phase_accumulator s + g_duty_cycle s))
                        4278190080) 24.
Proof.
  unfold TIM0_OVF_vect, PlotWaveform, UpdateRandomNumber. cbv zeta.
  split_core; repeat split; reflexivity.
Qed.

Lemma tick_consistent_step (s : State) :
  tick_consistent s ->
  tick_consistent (TIM0_OVF_vect rand s)
  /\ toggles rand s = (4294967296 <=? g_phase_accumulator s + g_duty_cycle s)
  /\ g_phase_accumulator (TIM0_OVF_vect rand s)
     = g_phase_accumulator s + g_duty_cycle s
       - (if toggles rand s then 4294967296 else 0).
Proof.
  intros [Ha [Hi Hd]].
  destruct (TIM0_OVF_vect_working s) as [Ea [Ed Ei]].
  assert (Hu : 0 <= C.u32 (g_phase_accumulator s + g_duty_cycle s) < 4294967296)
    by (unfold C.u32; apply Z.mod_pos_bound; lia).
  destruct (top_byte _ Hu) as [Et Hq]. rewrite Et in Ei.
  assert (Htog : toggles rand s
                 = (4294967296 <=? g_phase_accumulator s + g_duty_cycle s)).
  { rewrite toggles_working_index_wraps. unfold working_index_wraps.
    rewrite Ei, Hi. unfold C.u32.
    destruct (4294967296 <=? g_phase_accumulator s + g_duty_cycle s) eqn:E.
    - apply Z.leb_le in E. apply Z.gtb_gt.
      Z.div_mod_to_equations. lia.
    - apply Z.leb_gt in E.
      destruct (_ >? _) eqn:G; [|reflexivity].
      apply Z.gtb_gt in G. exfalso. revert G.
      Z.div_mod_to_equations. lia. }
  split; [|split].
  - unfold tick_consistent. rewrite Ea, Ed, Ei. repeat split; try lia.
  - exact Htog.
  - rewrite Ea, Htog. unfold C.u32.
    destruct (4294967296 <=? g_phase_accumulator s + g_duty_cycle s) eqn:E.
    + apply Z.leb_le in E. Z.div_mod_to_equations. lia.
    + apply Z.leb_gt in E. Z.div_mod_to_equations. lia.
Qed.

Lemma count_toggles_formula (n : nat) (s : State) :
  tick_consistent s ->
  Z.of_nat (count_ticks rand (toggles rand) n s)
  = (g_phase_accumulator s + Z.of_nat n * g_duty_cycle s) / 4294967296.
Proof.
  revert s. induction n as [|n IH]; intros s Hs.
  - simpl. destruct Hs as [Ha _]. rewrite Z.add_0_r.
    symmetry. apply Z.div_small. exact Ha.
  - destruct (tick_consistent_step s Hs) as [Hs' [Htog Ea]].
    destruct (TIM0_OVF_vect_working s) as [_ [Ed _]].
    cbn [count_ticks]. rewrite Nat2Z.inj_add, (IH _ Hs'), Ea, Ed.
    rewrite Nat2Z.inj_succ.
    remember (Z.of_nat n * g_duty_cycle s) as p.
    replace (Z.succ (Z.of_nat n) * g_duty_cycle s) with (p + g_duty_cycle s)
      by (subst p; ring).
    destruct (toggles rand s).
    + change (Z.of_nat 1) with 1.
      replace (g_phase_accumulator s + (p + g_duty_cycle s))
        with (g_phase_accumulator s + g_duty_cycle s - 4294967296 + p
              + 1 * 4294967296) by ring.
      rewrite Z.div_add by lia. ring.
    + change (Z.of_nat 0) with 0.
      replace (g_phase_accumulator s + (p + g_duty_cycle s))
        with (g_phase_accumulator s + g_duty_cycle s - 0 + p) by ring.
      ring.
Qed.

(** X14.  The phase accumulator law.  From a state whose working index is
    the top byte of the working accumulator, with a duty cycle of at most
    2^32 - 2^24: a sample tick toggles the tempo output exactly when the
    accumulator carries out of 32 bits, the same holds after the tick, and
    over n ticks the output toggles floor ((accumulator + n * duty) / 2^32)
    times. *)
Theorem toggles_count_accumulator_carries (n : nat) (s : State) :
  tick_consistent s ->
  tick_consistent (TIM0_OVF_vect rand s)
  /\ toggles rand s = (4294967296 <=? g_phase_accumulator s + g_duty_cycle s)
  /\ g_phase_accumulator (TIM0_OVF_vect rand s)
     = (g_phase_accumulator s + g_duty_cycle s) mod 4294967296
  /\ Z.of_nat (count_ticks rand (toggles rand) n s)
     = (g_phase_accumulator s + Z.of_nat n * g_duty_cycle s) / 4294967296.
Proof.
  intros Hs. destruct (tick_consistent_step s Hs) as [Hs' [Htog _]].
  split; [exact Hs'|]. split; [exact Htog|]. split.
  - apply (TIM0_OVF_vect_working s).
  - apply count_toggles_formula. exact Hs.
Qed.

End Accumulator.

Lemma toggles_count_accumulator_carries_witness :
  Z.of_nat (count_ticks libc_rand (toggles libc_rand) 3126 eighth_at_100ms) = 2.
Proof.
  assert (Hs : tick_consistent eighth_at_100ms).
  { assert (E1 : g_phase_accumulator eighth_at_100ms = 0)
      by (vm_compute; reflexivity).
    assert (E2 : g_table_index eighth_at_100ms = 0)
      by (vm_compute; reflexivity).
    assert (E3 : g_duty_cycle eighth_at_100ms = 2748760)
      by (vm_compute; reflexivity).
    unfold tick_consistent. rewrite E1, E2, E3.
    repeat split; try lia; reflexivity. }
  rewrite (proj2 (proj2 (proj2
             (toggles_count_accumulator_carries libc_rand 3126
                                                eighth_at_100ms Hs)))).
  vm_compute. reflexivity.
Defined.

(** ** Taps *)

Lemma rem_0_l (x : Z) : C.rem 0 x = 0.
Proof. destruct x; reflexivity. Qed.

Lemma run_app (rand : Z -> Z * Z) (es1 es2 : list Event) (s : State) :
  run rand (es1 ++ es2) s = run rand es2 (run rand es1 s).
Proof.
  revert s. induction es1 as [|e es1 IH]; intros s; simpl; [reflexivity|].
  apply IH.
Qed.

Lemma AlignWaveform_from_0 (s : State) :
  g_multiplier_alignment_index s = 0 ->
  tap_view (AlignWaveform s)
  = (is_counting_tempo s, g_tempo_ms_count s, g_base_tempo s,
     (g_base_phase_accumulator s, g_base_table_index s, 0, g_table_index s, 1)).
Proof.
  intros H0. unfold tap_view, AlignWaveform. cbv zeta. rewrite H0.
  destruct (0 >=? MULTIPLIER_ALIGNMENT_OFFSET) eqn:E; [discriminate E|].
  rewrite H0, rem_0_l.
  destruct (0 =? 0) eqn:E0; [|discriminate E0].
  state_simpl. rewrite H0. reflexivity.
Qed.

Lemma StartTempoCount_after_reset (s : State) :
  tap_view (StartTempoCount (ResetSignals s)) = (true, 0, g_base_tempo s, restarted).
Proof.
  unfold StartTempoCount. cbv zeta.
  rewrite AlignWaveform_from_0 by reflexivity.
  reflexivity.
Qed.

Lemma SetBaseTempo_fields (ms : Z) (s : State) :
  g_base_tempo (SetBaseTempo ms s) = tempo_after ms (g_base_tempo s)
  /\ is_counting_tempo (SetBaseTempo ms s) = is_counting_tempo s
  /\ g_tempo_ms_count (SetBaseTempo ms s) = g_tempo_ms_count s
  /\ g_table_index (SetBaseTempo ms s) = g_table_index s.
Proof.
  unfold SetBaseTempo, tempo_after.
  destruct ((ms >? LFO_MIN_TEMPO) || (ms <? LFO_MAX_TEMPO));
    [repeat split; reflexivity|].
  destruct ((g_base_tempo s >? C.u16 (ms + 2))
            || (g_base_tempo s <? C.u16 (ms - 2)));
    repeat split; reflexivity.
Qed.

Lemma StopTempoCount_counting (s : State) :
  is_counting_tempo s = true ->
  g_multiplier_alignment_index s = 0 ->
  tap_view (StopTempoCount s)
  = (false, 0, tempo_after (g_tempo_ms_count s) (g_base_tempo s),
     (0, 0, 0, g_table_index s, 1)).
Proof.
  intros Hc H0. unfold StopTempoCount. cbv zeta. rewrite Hc.
  destruct (SetBaseTempo_fields
              (g_tempo_ms_count (set_is_counting_tempo false s))
              (set_is_counting_tempo false s)) as [Eb [Ec [En Ei]]].
  pose proof (SetBaseTempo_index
                (g_tempo_ms_count (set_is_counting_tempo false s))
                (set_is_counting_tempo false s)) as Ea.
  revert Eb Ec En Ei Ea.
  generalize (SetBaseTempo (g_tempo_ms_count (set_is_counting_tempo false s))
                           (set_is_counting_tempo false s)).
  intros s1. state_simpl. intros Eb Ec En Ei Ea.
  rewrite AlignWaveform_from_0.
  - unfold ResetBaseTempo. state_simpl. rewrite Eb, Ec, Ei. reflexivity.
  - unfold ResetBaseTempo. state_simpl. rewrite Ea. exact H0.
Qed.

Lemma TIM1_COMPA_vect_counting (s : State) :
  is_counting_tempo s = true ->
  0 <= g_tempo_ms_count s -> g_tempo_ms_count s + 1 <= LFO_MIN_TEMPO ->
  tap_view (TIM1_COMPA_vect s)
  = (true, g_tempo_ms_count s + 1, g_base_tempo s, snd (tap_view s)).
Proof.
  unfold LFO_MIN_TEMPO. intros Hc H0 H1.
  unfold tap_view, TIM1_COMPA_vect, TempoCountTimeout. cbv zeta.
  rewrite Hc. state_simpl. rewrite u16_small by lia.
  destruct (g_tempo_ms_count s + 1 >? LFO_MIN_TEMPO) eqn:E.
  - unfold LFO_MIN_TEMPO in E. lia.
  - state_simpl. rewrite Hc. reflexivity.
Qed.

Lemma TIM1_COMPA_vect_timeout (s : State) :
  is_counting_tempo s = true ->
  g_tempo_ms_count s = LFO_MIN_TEMPO ->
  tap_view (TIM1_COMPA_vect s) = (false, 0, g_base_tempo s, snd (tap_view s)).
Proof.
  intros Hc Hn.
  unfold tap_view, TIM1_COMPA_vect, TempoCountTimeout. cbv zeta.
  rewrite Hc. state_simpl. rewrite Hn.
  destruct (C.u16 (LFO_MIN_TEMPO + 1) >? LFO_MIN_TEMPO) eqn:E;
    [|discriminate E].
  reflexivity.
Qed.

Lemma TIM1_COMPA_vect_idle (s : State) :
  is_counting_tempo s = false -> TIM1_COMPA_vect s = s.
Proof. intros Hc. unfold TIM1_COMPA_vect. rewrite Hc. reflexivity. Qed.

Section Taps.

Variable rand : Z -> Z * Z.

Lemma UpdateRandomNumber_tap_view (s : State) :
  tap_view (UpdateRandomNumber rand s) = tap_view s.
Proof.
  unfold UpdateRandomNumber. destruct (rand (rand_next s)) as [r next].
  reflexivity.
Qed.

Lemma main_tap_closed_tap_view (s : State) :
  tap_view (main_tap_closed rand s)
  = (if is_counting_tempo s
     then (false, 0, tempo_after (g_tempo_ms_count s) (g_base_tempo s), restarted)
     else (true, 0, g_base_tempo s, restarted))
  /\ (is_counting_tempo s = true ->
      has_received_tap_input (main_tap_closed rand s) = true).
Proof.
  unfold main_tap_closed.
  pose proof (StartTempoCount_after_reset s) as Vstart.
  assert (Vstop : is_counting_tempo s = true ->
            tap_view (StopTempoCount (ResetSignals s))
            = (false, 0, tempo_after (g_tempo_ms_count s) (g_base_tempo s),
               restarted)).
  { intros Hc. rewrite StopTempoCount_counting; [reflexivity|exact Hc|reflexivity]. }
  revert Vstart Vstop.
  generalize (StartTempoCount (ResetSignals s)).
  generalize (StopTempoCount (ResetSignals s)).
  intros stopped started Vstart Vstop.
  destruct (is_counting_tempo s); cbn [negb]; cbv zeta.
  - state_simpl. cbn [negb].
    destruct (negb (has_random_seed stopped)); state_simpl;
      (split; [rewrite <- Vstop by reflexivity; reflexivity|reflexivity]).
  - split; [|discriminate].
    destruct (negb (has_random_seed started)); [|exact Vstart].
    destruct (negb (has_received_tap_input started)); [|exact Vstart].
    rewrite UpdateRandomNumber_tap_view, <- Vstart. reflexivity.
Qed.

Lemma ms_ticks_counting (n : nat) (s : State) :
  is_counting_tempo s = true ->
  0 <= g_tempo_ms_count s ->
  g_tempo_ms_count s + Z.of_nat n <= LFO_MIN_TEMPO ->
  tap_view (run rand (repeat EvMillisecond n) s)
  = (true, g_tempo_ms_count s + Z.of_nat n, g_base_tempo s, snd (tap_view s)).
Proof.
  revert s. induction n as [|n IH]; intros s Hc H0 Hn.
  - simpl. rewrite Z.add_0_r. unfold tap_view. rewrite Hc. reflexivity.
  - cbn [repeat run step].
    assert (H1 : g_tempo_ms_count s + 1 <= LFO_MIN_TEMPO) by lia.
    pose proof (TIM1_COMPA_vect_counting s Hc H0 H1) as E.
    unfold tap_view in E. injection E as Ec En Eb Ebp Ebi Ep Ei Ea.
    rewrite IH; [|exact Ec|lia|lia].
    unfold tap_view. rewrite En, Eb, Ebp, Ebi, Ep, Ei, Ea. cbn [snd].
    f_equal. f_equal. f_equal. lia.
Qed.

Lemma ms_ticks_idle (n : nat) (s : State) :
  is_counting_tempo s = false ->
  run rand (repeat EvMillisecond n) s = s.
Proof.
  intros Hc. induction n as [|n IH]; [reflexivity|].
  cbn [repeat run step]. rewrite TIM1_COMPA_vect_idle by exact Hc. exact IH.
Qed.

End Taps.

Section TapProperties.

Variable rand : Z -> Z * Z.

(** X15.  Tap tempo.  From a state in which no count is running, a tap,
    n one-millisecond ticks (n at most LFO_MIN_TEMPO) and a second tap
    leave the count stopped and cleared, has_received_tap_input set, both
    accumulators restarted, and as BaseTempo what SetBaseTempo (n) gives:
    n itself when n is in range and more than 2 away from the previous
    tempo, the previous tempo otherwise. *)
Theorem tap_pair_sets_tempo (n : nat) (s : State) :
  is_counting_tempo s = false ->
  Z.of_nat n <= LFO_MIN_TEMPO ->
  let s' := run rand (tap_pair n) s in
  tap_view s'
  = (false, 0, tempo_after (Z.of_nat n) (g_base_tempo s), restarted)
  /\ has_received_tap_input s' = true
  /\ (LFO_MAX_TEMPO <= Z.of_nat n ->
      3 <= Z.abs (Z.of_nat n - g_base_tempo s) ->
      g_base_tempo s' = Z.of_nat n)
  /\ (Z.of_nat n < LFO_MAX_TEMPO \/ Z.abs (Z.of_nat n - g_base_tempo s) <= 2 ->
      g_base_tempo s' = g_base_tempo s).
Proof.
  intros Hc Hn s'.
  assert (E' : s' = main_tap_closed rand
                      (run rand (repeat EvMillisecond n)
                           (main_tap_closed rand s))).
  { subst s'. unfold tap_pair. rewrite !run_app. reflexivity. }
  destruct (main_tap_closed_tap_view rand s) as [V1 _]. rewrite Hc in V1.
  set (s1 := main_tap_closed rand s) in *. clearbody s1.
  assert (V2 : tap_view (run rand (repeat EvMillisecond n) s1)
               = (true, Z.of_nat n, g_base_tempo s, restarted)).
  { unfold tap_view in V1. injection V1 as Ec En Eb Ebp Ebi Ep Ei Ea.
    rewrite ms_ticks_counting; [|exact Ec|lia|lia].
    unfold tap_view, restarted. cbn [snd].
    rewrite En, Eb, Ebp, Ebi, Ep, Ei, Ea. reflexivity. }
  set (s2 := run rand (repeat EvMillisecond n) s1) in *. clearbody s2.
  destruct (main_tap_closed_tap_view rand s2) as [V3 R3].
  unfold tap_view in V2. injection V2 as Ec En Eb Ebp Ebi Ep Ei Ea.
  rewrite Ec, En, Eb in V3. specialize (R3 Ec).
  rewrite <- E' in V3, R3. clear E'.
  assert (Eb' : g_base_tempo s' = tempo_after (Z.of_nat n) (g_base_tempo s)).
  { unfold tap_view in V3. injection V3 as _ _ Eb' _. exact Eb'. }
  split; [exact V3|]. split; [exact R3|].
  unfold LFO_MAX_TEMPO, LFO_MIN_TEMPO in *.
  split.
  - intros Hlo Hfar. rewrite Eb'. unfold tempo_after, LFO_MAX_TEMPO, LFO_MIN_TEMPO.
    rewrite !u16_small by lia.
    rewrite (proj2 (orb_false_iff _ _)) by lia.
    rewrite (proj2 (orb_true_iff _ _)) by lia. reflexivity.
  - intros Hnear. rewrite Eb'. unfold tempo_after, LFO_MAX_TEMPO, LFO_MIN_TEMPO.
    destruct ((Z.of_nat n >? 10000) || (Z.of_nat n <? 50)) eqn:G; [reflexivity|].
    apply orb_false_iff in G.
    rewrite !u16_small by lia.
    rewrite (proj2 (orb_false_iff _ _)) by lia. reflexivity.
Qed.

(** X16.  Tap timeout.  A tap followed by more than LFO_MIN_TEMPO
    one-millisecond ticks abandons the count: counting has stopped, the
    count is 0 and BaseTempo is the one before the tap; the next tap then
    starts a new count instead of committing a tempo. *)
Theorem tap_times_out (m : nat) (s : State) :
  is_counting_tempo s = false ->
  let s' :=
    run rand
        ([EvTap] ++ repeat EvMillisecond (Z.to_nat LFO_MIN_TEMPO)
           ++ [EvMillisecond] ++ repeat EvMillisecond m)
        s in
  tap_view s' = (false, 0, g_base_tempo s, restarted)
  /\ tap_view (run rand [EvTap] s') = (true, 0, g_base_tempo s, restarted).
Proof.
  intros Hc s'.
  assert (E' : s' = run rand (repeat EvMillisecond m)
                      (TIM1_COMPA_vect
                         (run rand (repeat EvMillisecond (Z.to_nat LFO_MIN_TEMPO))
                              (main_tap_closed rand s)))).
  { subst s'. rewrite !run_app. reflexivity. }
  destruct (main_tap_closed_tap_view rand s) as [V1 _]. rewrite Hc in V1.
  set (s1 := main_tap_closed rand s) in *. clearbody s1.
  assert (V2 : tap_view (run rand (repeat EvMillisecond (Z.to_nat LFO_MIN_TEMPO)) s1)
               = (true, LFO_MIN_TEMPO, g_base_tempo s, restarted)).
  { unfold tap_view in V1. injection V1 as Ec En Eb Ebp Ebi Ep Ei Ea.
    assert (Hz : Z.of_nat (Z.to_nat LFO_MIN_TEMPO) = LFO_MIN_TEMPO)
      by (apply Z2Nat.id; unfold LFO_MIN_TEMPO; lia).
    rewrite ms_ticks_counting; [|exact Ec|lia|lia].
    unfold tap_view, restarted. cbn [snd].
    rewrite En, Eb, Ebp, Ebi, Ep, Ei, Ea, Hz. reflexivity. }
  set (s2 := run rand (repeat EvMillisecond (Z.to_nat LFO_MIN_TEMPO)) s1) in *.
  clearbody s2.
  unfold tap_view in V2. injection V2 as Ec En Eb Ebp Ebi Ep Ei Ea.
  pose proof (TIM1_COMPA_vect_timeout s2 Ec En) as V3.
  unfold tap_view in V3. cbn [snd] in V3.
  rewrite Eb, Ebp, Ebi, Ep, Ei, Ea in V3.
  set (s3 := TIM1_COMPA_vect s2) in *. clearbody s3.
  injection V3 as Ec3 En3 Eb3 Ebp3 Ebi3 Ep3 Ei3 Ea3.
  rewrite ms_ticks_idle in E' by exact Ec3. clearbody s'. subst s'.
  assert (V : tap_view s3 = (false, 0, g_base_tempo s, restarted)).
  { unfold tap_view, restarted.
    rewrite Ec3, En3, Eb3, Ebp3, Ebi3, Ep3, Ei3, Ea3. reflexivity. }
  split; [exact V|].
  cbn [run step].
  destruct (main_tap_closed_tap_view rand s3) as [V4 _].
  rewrite Ec3, Eb3 in V4. exact V4.
Qed.

(** X17.  Every tap restarts the waveform: whatever the state, after the
    tap handler both phase accumulators and both table indices are 0 and
    the alignment index is 1. *)
Theorem tap_restarts_waveform (s : State) :
  g_base_phase_accumulator (main_tap_closed rand s) = 0
  /\ g_base_table_index (main_tap_closed rand s) = 0
  /\ g_phase_accumulator (main_tap_closed rand s) = 0
  /\ g_table_index (main_tap_closed rand s) = 0
  /\ g_multiplier_alignment_index (main_tap_closed rand s) = 1.
Proof.
  destruct (main_tap_closed_tap_view rand s) as [V _].
  unfold tap_view, restarted in V.
  destruct (is_counting_tempo s);
    injection V as _ _ _ Ebp Ebi Ep Ei Ea; repeat split; assumption.
Qed.

End TapProperties.

Lemma tap_pair_sets_tempo_witness :
  g_base_tempo (run libc_rand (tap_pair 500) (boot libc_rand)) = 500.
Proof.
  assert (Hc : is_counting_tempo (boot libc_rand) = false)
    by (vm_compute; reflexivity).
  assert (Hn : Z.of_nat 500 <= LFO_MIN_TEMPO) by (vm_compute; discriminate).
  assert (Hlo : LFO_MAX_TEMPO <= Z.of_nat 500) by (vm_compute; discriminate).
  assert (Hfar : 3 <= Z.abs (Z.of_nat 500 - g_base_tempo (boot libc_rand)))
    by (vm_compute; discriminate).
  exact (proj1 (proj2 (proj2
           (tap_pair_sets_tempo libc_rand 500 (boot libc_rand) Hc Hn)))
           Hlo Hfar).
Defined.

Lemma tap_times_out_witness :
  tap_view
    (run libc_rand
         ([EvTap] ++ repeat EvMillisecond (Z.to_nat LFO_MIN_TEMPO)
            ++ [EvMillisecond] ++ repeat EvMillisecond 7)
         (boot libc_rand))
  = (false, 0, g_base_tempo (boot libc_rand), restarted).
Proof.
  assert (Hc : is_counting_tempo (boot libc_rand) = false)
    by (vm_compute; reflexivity).
  exact (proj1 (tap_times_out libc_rand 7 (boot libc_rand) Hc)).
Defined.

(** ** Alignment *)

Lemma AlignWaveform_closed_form (s : State) :
  0 <= g_multiplier_alignment_index s <= 12 ->
  g_multiplier_alignment_index (AlignWaveform s)
  = next_alignment_index (g_multiplier_alignment_index s)
  /\ g_phase_accumulator (AlignWaveform s)
     = (if C.rem (g_multiplier_alignment_index s mod 12)
                 (k_multiplier_alignment (g_multiplier s)) =? 0
        then 0 else g_phase_accumulator s)
  /\ g_multiplier (AlignWaveform s) = g_multiplier s.
Proof.
  intros Hi. unfold AlignWaveform, next_alignment_index,
    MULTIPLIER_ALIGNMENT_OFFSET. cbv zeta.
  destruct (g_multiplier_alignment_index s >=? 12) eqn:E.
  - assert (E12 : g_multiplier_alignment_index s = 12) by lia.
    rewrite E12. state_simpl. change (12 mod 12) with 0.
    destruct (C.rem 0 (k_multiplier_alignment (g_multiplier s)) =? 0);
      state_simpl; repeat split; reflexivity.
  - assert (Hlt : 0 <= g_multiplier_alignment_index s < 12) by lia.
    rewrite (Z.mod_small _ 12 Hlt).
    destruct (C.rem (g_multiplier_alignment_index s)
                    (k_multiplier_alignment (g_multiplier s)) =? 0);
      state_simpl; rewrite u8_small by lia; repeat split; reflexivity.
Qed.

Lemma iter_AlignWaveform_index (k : nat) (s : State) :
  0 <= g_multiplier_alignment_index s <= 12 ->
  g_multiplier_alignment_index (iter k AlignWaveform s)
  = iter k next_alignment_index (g_multiplier_alignment_index s)
  /\ g_multiplier (iter k AlignWaveform s) = g_multiplier s.
Proof.
  revert s. induction k as [|k IH]; intros s Hi; [split; reflexivity|].
  cbn [iter].
  destruct (AlignWaveform_closed_form s Hi) as [Ei [_ Em]].
  assert (Hi' : 0 <= g_multiplier_alignment_index (AlignWaveform s) <= 12).
  { rewrite Ei. unfold next_alignment_index. Z.div_mod_to_equations. lia. }
  destruct (IH _ Hi') as [E1 E2]. rewrite E1, E2, Ei, Em. split; reflexivity.
Qed.

(** X18.  Each call of AlignWaveform steps the alignment index modulo 12
    and realigns by the multiplier's table entry: with the index i in
    [0, 12] the call leaves i mod 12 + 1, and it clears the working
    accumulator exactly when i mod 12 is a multiple of
    alignment[Multiplier], leaving it alone otherwise.  From any index in
    [1, 12], twelve calls bring the index back. *)
Theorem AlignWaveform_period_12 (s : State) :
  0 <= g_multiplier_alignment_index s <= 12 ->
  g_multiplier_alignment_index (AlignWaveform s)
  = g_multiplier_alignment_index s mod 12 + 1
  /\ g_phase_accumulator (AlignWaveform s)
     = (if C.rem (g_multiplier_alignment_index s mod 12)
                 (k_multiplier_alignment (g_multiplier s)) =? 0
        then 0 else g_phase_accumulator s)
  /\ (1 <= g_multiplier_alignment_index s ->
      g_multiplier_alignment_index (iter 12 AlignWaveform s)
      = g_multiplier_alignment_index s).
Proof.
  intros Hi. destruct (AlignWaveform_closed_form s Hi) as [Ei [Ep _]].
  split; [exact Ei|]. split; [exact Ep|].
  intros H1. rewrite (proj1 (iter_AlignWaveform_index 12 s Hi)).
  assert (Hc : g_multiplier_alignment_index s = 1
               \/ g_multiplier_alignment_index s = 2
               \/ g_multiplier_alignment_index s = 3
               \/ g_multiplier_alignment_index s = 4
               \/ g_multiplier_alignment_index s = 5
               \/ g_multiplier_alignment_index s = 6
               \/ g_multiplier_alignment_index s = 7
               \/ g_multiplier_alignment_index s = 8
               \/ g_multiplier_alignment_index s = 9
               \/ g_multiplier_alignment_index s = 10
               \/ g_multiplier_alignment_index s = 11
               \/ g_multiplier_alignment_index s = 12) by lia.
  repeat (destruct Hc as [Hc|Hc]; [rewrite Hc; reflexivity|]).
  rewrite Hc. reflexivity.
Qed.

Lemma AlignWaveform_period_12_witness :
  g_multiplier_alignment_index (iter 12 AlignWaveform eighth_at_100ms)
  = g_multiplier_alignment_index eighth_at_100ms.
Proof.
  assert (E : g_multiplier_alignment_index eighth_at_100ms = 1)
    by (vm_compute; reflexivity).
  assert (Hi : 0 <= g_multiplier_alignment_index eighth_at_100ms <= 12)
    by (rewrite E; lia).
  assert (H1 : 1 <= g_multiplier_alignment_index eighth_at_100ms)
    by (rewrite E; lia).
  exact (proj2 (proj2 (AlignWaveform_period_12 eighth_at_100ms Hi)) H1).
Defined.

(** ** Duty cycles *)

Lemma duty_cycles_exact_all :
  forallb (fun i => duty_cycles_exact (LFO_MAX_TEMPO + i)) (indices 9951) = true.
Proof. vm_compute. reflexivity. Qed.

Lemma duty_cycles_exact_at (t : Z) :
  LFO_MAX_TEMPO <= t <= LFO_MIN_TEMPO -> duty_cycles_exact t = true.
Proof.
  unfold LFO_MAX_TEMPO, LFO_MIN_TEMPO. intros Ht.
  pose proof duty_cycles_exact_all as H. rewrite forallb_forall in H.
  assert (Hin : In (t - 50) (indices 9951)).
  { apply In_indices. change (Z.of_nat 9951) with 9951. lia. }
  specialize (H _ Hin). unfold LFO_MAX_TEMPO in H.
  replace (50 + (t - 50)) with t in H by lia. exact H.
Qed.

Section DutyCycles.

Variable rand : Z -> Z * Z.

(** X19.  Frequency accuracy.  After any sequence of events the base duty
    cycle is floor (137438000 / tempo) or one more, where tempo is the
    trimmed tempo in milliseconds and 137438 = floor (2^32 / 31250); and at
    the Quarter, Eighth, Triplet and Sixteenth multipliers the working duty
    cycle is exactly 1, 2, 3 and 4 times the base duty cycle. *)
Theorem duty_cycles_accurate (es : list Event) :
  let s := run rand es (boot rand) in
  let tempo := g_base_tempo s + g_tempo_adjust_offset s in
  137438000 / tempo <= g_base_duty_cycle s <= 137438000 / tempo + 1
  /\ (g_multiplier s = Multiplier_to_Z MultiplierQuarter ->
      g_duty_cycle s = g_base_duty_cycle s)
  /\ (g_multiplier s = Multiplier_to_Z MultiplierEighth ->
      g_duty_cycle s = 2 * g_base_duty_cycle s)
  /\ (g_multiplier s = Multiplier_to_Z MultiplierTriplet ->
      g_duty_cycle s = 3 * g_base_duty_cycle s)
  /\ (g_multiplier s = Multiplier_to_Z MultiplierSixteenth ->
      g_duty_cycle s = 4 * g_base_duty_cycle s).
Proof.
  intros s tempo.
  destruct (run_core_ok rand es (boot rand) (boot_core_ok rand))
    as [[Hb [Ht [Hd Hw]]] _].
  fold s in Hb, Ht, Hd, Hw. fold tempo in Ht, Hd.
  assert (Hu : C.u16 tempo = tempo).
  { apply u16_small. unfold LFO_MAX_TEMPO, LFO_MIN_TEMPO in Ht. lia. }
  rewrite Hu in Hd.
  pose proof (duty_cycles_exact_at tempo Ht) as He.
  unfold duty_cycles_exact in He. cbv zeta in He. rewrite <- Hd in He.
  repeat (apply andb_true_iff in He; destruct He as [He ?]).
  split; [lia|].
  repeat split; intros Hm; rewrite Hw, Hm; lia.
Qed.

End DutyCycles.

(** ** Speed trim *)

Section SpeedTrim.

Variable rand : Z -> Z * Z.

(** X20.  ResetSpeedAdjustSetting undoes any AdjustSpeed: the state it
    leaves after a trim, accepted or not, is the state it leaves without
    the trim, with TempoAdjustOffset 0 and BaseTempo untouched; a trim that
    would take the tempo out of range changes nothing; and in a reachable
    state whose offset is already 0 it leaves both duty cycles as they
    are. *)
Theorem ResetSpeedAdjustSetting_undoes_trim (es : list Event) (c : Z) (s : State) :
  ResetSpeedAdjustSetting (AdjustSpeed c s) = ResetSpeedAdjustSetting s
  /\ g_tempo_adjust_offset (ResetSpeedAdjustSetting s) = 0
  /\ g_base_tempo (ResetSpeedAdjustSetting s) = g_base_tempo s
  /\ (let t := C.s16 (g_base_tempo s + g_tempo_adjust_offset s + c) in
      t < LFO_MAX_TEMPO \/ LFO_MIN_TEMPO < t -> AdjustSpeed c s = s)
  /\ (let r := run rand es (boot rand) in
      g_tempo_adjust_offset r = 0 ->
      g_base_duty_cycle (ResetSpeedAdjustSetting r) = g_base_duty_cycle r
      /\ g_duty_cycle (ResetSpeedAdjustSetting r) = g_duty_cycle r).
Proof.
  split; [|split; [|split; [|split]]].
  - unfold AdjustSpeed. cbv zeta. destruct (_ || _); [reflexivity|].
    unfold ResetSpeedAdjustSetting, RecalculateTempo. reflexivity.
  - reflexivity.
  - reflexivity.
  - intros t Ht. unfold AdjustSpeed. cbv zeta. fold t.
    rewrite (proj2 (orb_true_iff (t >? LFO_MIN_TEMPO) (t <? LFO_MAX_TEMPO)))
      by lia.
    reflexivity.
  - intros r Ho.
    destruct (run_core_ok rand es (boot rand) (boot_core_ok rand))
      as [[_ [_ [Hd Hw]]] _].
    fold r in Hd, Hw.
    unfold ResetSpeedAdjustSetting, RecalculateTempo. state_simpl.
    rewrite Ho in Hd. split.
    + symmetry. exact Hd.
    + fold (base_duty_of (C.u16 (g_base_tempo r + 0))).
      rewrite <- Hd. symmetry. exact Hw.
Qed.

End SpeedTrim.

Lemma ResetSpeedAdjustSetting_undoes_trim_witness :
  AdjustSpeed 9500 (boot libc_rand) = boot libc_rand.
Proof.
  assert (H : LFO_MIN_TEMPO
              < C.s16 (g_base_tempo (boot libc_rand)
                       + g_tempo_adjust_offset (boot libc_rand) + 9500))
    by (vm_compute; reflexivity).
  exact (proj1 (proj2 (proj2 (proj2
           (ResetSpeedAdjustSetting_undoes_trim libc_rand [] 9500
              (boot libc_rand)))))
           (or_intror H)).
Defined.

(** ** The rotary encoder *)

Definition encoder_step_checked (s v : Z) (a b : bool) : bool :=
  let e := mkEncoder s v in
  let '(e', out) := PCINT0_vect a b e in
  let step := match out with Some c => c | None => 0 end in
  (0 <=? encoder_samples e') && (encoder_samples e' <=? 255)
  && (-3 <=? encoder_value e') && (encoder_value e' <=? 3)
  && (Z.land (encoder_samples e') 3 =? sample_of (a, b))
  && ((step =? 0) || (encoder_value e' =? 0))
  && (4 * step + encoder_value e'
      =? v + encoder_table (4 * Z.land s 3 + sample_of (a, b))).

Definition encoder_checked_all : bool :=
  forallb
    (fun s =>
       forallb
         (fun i =>
            encoder_step_checked s (i - 3) false false
            && encoder_step_checked s (i - 3) false true
            && encoder_step_checked s (i - 3) true false
            && encoder_step_checked s (i - 3) true true)
         (indices 7))
    (indices 256).

Lemma encoder_checked : encoder_checked_all = true.
Proof. vm_compute. reflexivity. Qed.

Lemma PCINT0_vect_step (a b : bool) (e : Encoder) :
  encoder_ok e ->
  encoder_ok (fst (PCINT0_vect a b e))
  /\ Z.land (encoder_samples (fst (PCINT0_vect a b e))) 3 = sample_of (a, b)
  /\ (match snd (PCINT0_vect a b e) with Some c => c | None => 0 end = 0
      \/ encoder_value (fst (PCINT0_vect a b e)) = 0)
  /\ 4 * match snd (PCINT0_vect a b e) with Some c => c | None => 0 end
     + encoder_value (fst (PCINT0_vect a b e))
     = encoder_value e
       + encoder_table (4 * Z.land (encoder_samples e) 3 + sample_of (a, b)).
Proof.
  intros [Hs Hv]. destruct e as [s v]. cbn [encoder_samples encoder_value] in *.
  pose proof encoder_checked as H. unfold encoder_checked_all in H.
  rewrite forallb_forall in H.
  assert (Hin : In s (indices 256)) by (apply In_indices; simpl; lia).
  specialize (H s Hin). rewrite forallb_forall in H.
  assert (Hiv : In (v + 3) (indices 7)) by (apply In_indices; simpl; lia).
  specialize (H _ Hiv). replace (v + 3 - 3) with v in H by lia.
  repeat (apply andb_true_iff in H; destruct H as [H ?]).
  assert (Hab : encoder_step_checked s v a b = true)
    by (destruct a, b; assumption).
  unfold encoder_step_checked in Hab. cbv zeta in Hab.
  destruct (PCINT0_vect a b (mkEncoder s v)) as [e' out].
  cbn [fst snd].
  repeat (apply andb_true_iff in Hab; destruct Hab as [Hab ?]).
  match goal with
  | Hor : (_ || _) = true |- _ => apply orb_true_iff in Hor
  end.
  unfold encoder_ok. lia.
Qed.

Lemma encoder_table_symmetry (p c : Z) :
  0 <= p <= 3 -> 0 <= c <= 3 ->
  encoder_table (4 * p + c) + encoder_table (4 * c + p) = 0
  /\ encoder_table (4 * p + p) = 0
  /\ (p + c = 3 -> encoder_table (4 * p + c) = 0)
  /\ -1 <= encoder_table (4 * p + c) <= 1.
Proof.
  intros Hp Hc.
  assert (Hp' : p = 0 \/ p = 1 \/ p = 2 \/ p = 3) by lia.
  assert (Hc' : c = 0 \/ c = 1 \/ c = 2 \/ c = 3) by lia.
  destruct Hp' as [E|[E|[E|E]]]; destruct Hc' as [F|[F|[F|F]]]; subst p c;
    repeat split; try reflexivity; intros; unfold encoder_table; simpl; lia.
Qed.

Lemma sample_of_range (ab : bool * bool) : 0 <= sample_of ab <= 3.
Proof. destruct ab as [[|] [|]]; unfold sample_of; simpl; lia. Qed.

(** X21.  The decoder loses no quarter step.  Over any sequence of pin
    readings, four times the sum of the steps passed to the mode module
    plus the count left in encoder_value equals the initial count plus the
    quarter steps of the readings, and the count stays within -3 .. 3.
    From a count of 0, readings that amount to 4k quarter steps pass on
    exactly k and leave 0. *)
Theorem encoder_counts_quarter_steps (ins : list (bool * bool)) (e : Encoder) :
  encoder_ok e ->
  let e' := fst (PCINT0_run ins e) in
  let total := snd (PCINT0_run ins e) in
  encoder_ok e'
  /\ 4 * total + encoder_value e'
     = encoder_value e + quarter_steps (Z.land (encoder_samples e) 3) ins
  /\ (forall k, encoder_value e = 0 ->
                quarter_steps (Z.land (encoder_samples e) 3) ins = 4 * k ->
                total = k /\ encoder_value e' = 0).
Proof.
  revert e. induction ins as [|[a b] ins IH]; intros e He.
  - cbn [PCINT0_run quarter_steps fst snd]. split; [exact He|].
    split; [lia|]. intros k Hv Hk. lia.
  - cbn [PCINT0_run quarter_steps].
    destruct (PCINT0_vect_step a b e He) as [He1 [Hl1 [_ Hc1]]].
    destruct (PCINT0_vect a b e) as [e1 out]. cbn [fst snd] in He1, Hl1, Hc1.
    destruct (IH e1 He1) as [He2 [Hc2 _]].
    destruct (PCINT0_run ins e1) as [e2 total]. cbn [fst snd] in *.
    rewrite Hl1 in Hc2.
    assert (Hsum : 4 * (match out with Some c => c | None => 0 end + total)
                   + encoder_value e2
                   = encoder_value e
                     + (encoder_table (4 * Z.land (encoder_samples e) 3
                                       + sample_of (a, b))
                        + quarter_steps (sample_of (a, b)) ins)) by lia.
    split; [exact He2|]. split; [exact Hsum|].
    intros k Hv Hk. destruct He2 as [_ Hv2]. lia.
Qed.

Lemma encoder_counts_quarter_steps_witness :
  snd (PCINT0_run
         [(false, true); (false, false); (true, false); (true, true)]
         encoder_initial)
  = -1
  /\ encoder_value
       (fst (PCINT0_run
               [(false, true); (false, false); (true, false); (true, true)]
               encoder_initial))
     = 0.
Proof.
  assert (He : encoder_ok encoder_initial)
    by (unfold encoder_ok, encoder_initial; simpl; lia).
  apply (proj2 (proj2 (encoder_counts_quarter_steps
                         [(false, true); (false, false); (true, false);
                          (true, true)]
                         encoder_initial He)) (-1)).
  - reflexivity.
  - reflexivity.
Defined.

(** X22.  Contact bounce is ignored.  The table gives a transition and its
    reverse opposite signs and gives 0 to a repeated reading and to a
    reading that changes both pins, so with the count within -2 .. 2 a
    reading followed by a return to the previous one passes nothing to the
    mode module and leaves the count where it was. *)
Theorem encoder_ignores_bounce (ab prev_ab : bool * bool) (e : Encoder) :
  encoder_ok e ->
  -2 <= encoder_value e <= 2 ->
  Z.land (encoder_samples e) 3 = sample_of prev_ab ->
  encoder_table (4 * sample_of prev_ab + sample_of ab)
  + encoder_table (4 * sample_of ab + sample_of prev_ab) = 0
  /\ encoder_table (4 * sample_of ab + sample_of ab) = 0
  /\ (sample_of prev_ab + sample_of ab = 3 ->
      encoder_table (4 * sample_of prev_ab + sample_of ab) = 0)
  /\ snd (PCINT0_run [ab; prev_ab] e) = 0
  /\ encoder_value (fst (PCINT0_run [ab; prev_ab] e)) = encoder_value e
  /\ Z.land (encoder_samples (fst (PCINT0_run [ab; prev_ab] e))) 3
     = sample_of prev_ab.
Proof.
  intros He Hv Hp.
  destruct (encoder_table_symmetry (sample_of prev_ab) (sample_of ab)
              (sample_of_range prev_ab) (sample_of_range ab))
    as [Hanti [_ [Hboth Hb1]]].
  destruct (encoder_table_symmetry (sample_of ab) (sample_of ab)
              (sample_of_range ab) (sample_of_range ab)) as [_ [Hsame _]].
  split; [exact Hanti|]. split; [exact Hsame|]. split; [exact Hboth|].
  clear Hboth Hsame.
  destruct ab as [a b]. destruct prev_ab as [pa pb].
  cbn [PCINT0_run].
  destruct (PCINT0_vect_step a b e He) as [He1 [Hl1 [Hz1 Hc1]]].
  destruct (PCINT0_vect a b e) as [e1 out1].
  cbn [fst snd] in He1, Hl1, Hz1, Hc1.
  destruct (PCINT0_vect_step pa pb e1 He1) as [He2 [Hl2 [Hz2 Hc2]]].
  destruct (PCINT0_vect pa pb e1) as [e2 out2].
  cbn [fst snd] in He2, Hl2, Hz2, Hc2.
  cbn [fst snd]. rewrite Hl1 in Hc2. rewrite Hp in Hc1.
  destruct He1 as [_ Hv1]. destruct He2 as [_ Hv2].
  set (o1 := match out1 with Some c => c | None => 0 end) in *.
  set (o2 := match out2 with Some c => c | None => 0 end) in *.
  set (t1 := encoder_table (4 * sample_of (pa, pb) + sample_of (a, b))) in *.
  set (t2 := encoder_table (4 * sample_of (a, b) + sample_of (pa, pb))) in *.
  split; [|split; [|exact Hl2]]; lia.
Qed.

Lemma encoder_ignores_bounce_witness :
  snd (PCINT0_run [(false, true); (true, true)] encoder_initial) = 0.
Proof.
  assert (He : encoder_ok encoder_initial)
    by (unfold encoder_ok, encoder_initial; simpl; lia).
  assert (Hv : -2 <= encoder_value encoder_initial <= 2)
    by (unfold encoder_initial; simpl; lia).
  assert (Hp : Z.land (encoder_samples encoder_initial) 3
               = sample_of (true, true)) by reflexivity.
  exact (proj1 (proj2 (proj2 (proj2
           (encoder_ignores_bounce (false, true) (true, true)
                                   encoder_initial He Hv Hp))))).
Defined.

(** ** The mode switch *)

Section ModeSwitchProperties.

Variable MODE_RESET_MIN_TIME : Z.

Hypothesis hold_time_fits : 1 <= MODE_RESET_MIN_TIME <= 65535.

Lemma mode_run_app (es es' : list ModeEvent) (t : ModeTimer) :
  mode_run MODE_RESET_MIN_TIME (es ++ es') t
  = (fst (mode_run MODE_RESET_MIN_TIME es'
            (fst (mode_run MODE_RESET_MIN_TIME es t))),
     snd (mode_run MODE_RESET_MIN_TIME es t)
     ++ snd (mode_run MODE_RESET_MIN_TIME es'
               (fst (mode_run MODE_RESET_MIN_TIME es t)))).
Proof.
  revert t. induction es as [|e es IH]; intros t.
  - cbn [app mode_run fst snd].
    destruct (mode_run MODE_RESET_MIN_TIME es' t). reflexivity.
  - cbn [app mode_run].
    destruct (mode_step MODE_RESET_MIN_TIME e t) as [t1 calls].
    rewrite IH.
    destruct (mode_run MODE_RESET_MIN_TIME es t1) as [t2 calls2].
    cbn [fst snd].
    destruct (mode_run MODE_RESET_MIN_TIME es' t2) as [t3 calls3].
    cbn [fst snd]. rewrite app_assoc. reflexivity.
Qed.

Lemma mode_run_ticks (k : nat) (t : ModeTimer) :
  mode_run MODE_RESET_MIN_TIME (repeat ModeMillisecond k) t
  = mode_ticks MODE_RESET_MIN_TIME k t.
Proof.
  revert t. induction k as [|k IH]; intros t.
  - reflexivity.
  - cbn [repeat mode_run mode_step mode_ticks].
    destruct (TIM1_COMPA_vect_mode MODE_RESET_MIN_TIME t) as [t1 calls].
    rewrite IH. reflexivity.
Qed.

Lemma mode_ticks_below (k : nat) (r : bool) (c : Z) :
  0 <= c -> c + Z.of_nat k < MODE_RESET_MIN_TIME ->
  mode_ticks MODE_RESET_MIN_TIME k (mkModeTimer true r c)
  = (mkModeTimer true r (c + Z.of_nat k), []).
Proof.
  revert c. induction k as [|k IH]; intros c Hc Hk.
  - cbn [mode_ticks]. replace (c + Z.of_nat 0) with c by lia.
    reflexivity.
  - cbn [mode_ticks]. unfold TIM1_COMPA_vect_mode.
    cbn [is_counting_mode_reset_time is_resetting_mode g_mode_reset_ms_count].
    rewrite u16_small by lia.
    destruct (c + 1 >=? MODE_RESET_MIN_TIME) eqn:E.
    + rewrite Z.geb_le in E. lia.
    + rewrite IH by lia.
      replace (c + 1 + Z.of_nat k) with (c + Z.of_nat (S k)) by lia.
      reflexivity.
Qed.

Lemma mode_ticks_not_counting (k : nat) (r : bool) (c : Z) :
  mode_ticks MODE_RESET_MIN_TIME k (mkModeTimer false r c)
  = (mkModeTimer false r c, []).
Proof.
  induction k as [|k IH].
  - reflexivity.
  - cbn [mode_ticks]. unfold TIM1_COMPA_vect_mode.
    cbn [is_counting_mode_reset_time]. rewrite IH. reflexivity.
Qed.

(** Once the count reaches the hold time the interrupt makes its call,
    stops the count, and does nothing more. *)
Lemma mode_ticks_reach (k : nat) (r : bool) (c : Z) :
  0 <= c < MODE_RESET_MIN_TIME ->
  MODE_RESET_MIN_TIME <= c + Z.of_nat k ->
  mode_ticks MODE_RESET_MIN_TIME k (mkModeTimer true r c)
  = (mkModeTimer false true 0, [ResetCurrentSelectionMode]).
Proof.
  revert c. induction k as [|k IH]; intros c Hc Hk.
  - lia.
  - cbn [mode_ticks]. unfold TIM1_COMPA_vect_mode.
    cbn [is_counting_mode_reset_time is_resetting_mode g_mode_reset_ms_count].
    rewrite u16_small by lia.
    destruct (c + 1 >=? MODE_RESET_MIN_TIME) eqn:E.
    + rewrite mode_ticks_not_counting. reflexivity.
    + assert (Hlt : c + 1 < MODE_RESET_MIN_TIME).
      { destruct (Z.lt_ge_cases (c + 1) MODE_RESET_MIN_TIME) as [Hl|Hg];
          [exact Hl|].
        apply Z.geb_le in Hg. congruence. }
      rewrite IH by lia. reflexivity.
Qed.

Lemma mode_press_run (p : Press) (t : ModeTimer) :
  mode_run MODE_RESET_MIN_TIME (mode_press p) t
  = (fst (main_mode_opened MODE_RESET_MIN_TIME
            (in_test p) (in_flag p) (in_count p)
            (fst (mode_ticks MODE_RESET_MIN_TIME (held p)
                    (main_mode_closed t)))),
     snd (mode_ticks MODE_RESET_MIN_TIME (held p) (main_mode_closed t))
     ++ snd (main_mode_opened MODE_RESET_MIN_TIME
               (in_test p) (in_flag p) (in_count p)
               (fst (mode_ticks MODE_RESET_MIN_TIME (held p)
                       (main_mode_closed t))))).
Proof.
  unfold mode_press. cbn [app mode_run mode_step].
  rewrite mode_run_app, mode_run_ticks.
  destruct (mode_ticks MODE_RESET_MIN_TIME (held p) (main_mode_closed t))
    as [t1 calls1].
  cbn [fst snd mode_run mode_step].
  destruct (main_mode_opened MODE_RESET_MIN_TIME (in_test p) (in_flag p)
              (in_count p) t1) as [t2 calls2].
  cbn [fst snd]. rewrite app_nil_r. reflexivity.
Qed.

Lemma mode_press_settled (p : Press) :
  press_settled MODE_RESET_MIN_TIME p ->
  mode_run MODE_RESET_MIN_TIME (mode_press p) mode_idle
  = (mode_idle, [press_call MODE_RESET_MIN_TIME p]).
Proof.
  intros Hp. rewrite mode_press_run. unfold press_call.
  unfold main_mode_closed, mode_idle.
  cbn [is_resetting_mode g_mode_reset_ms_count].
  destruct (Z.of_nat (held p) <? MODE_RESET_MIN_TIME) eqn:E.
  - apply Z.ltb_lt in E. destruct Hp as [Hp|Hp]; [|lia].
    rewrite (mode_ticks_below (held p) false 0) by lia. cbn [fst snd app].
    unfold main_mode_opened. cbn [is_resetting_mode].
    rewrite (mode_ticks_below (in_test p) false (0 + Z.of_nat (held p)))
      by lia.
    cbn [is_counting_mode_reset_time is_resetting_mode g_mode_reset_ms_count].
    rewrite !mode_ticks_not_counting. reflexivity.
  - apply Z.ltb_ge in E.
    rewrite (mode_ticks_reach (held p) false 0) by lia. cbn [fst snd app].
    unfold main_mode_opened. cbn [is_resetting_mode].
    rewrite mode_ticks_not_counting. reflexivity.
Qed.

(** X23.  With the timer interrupt allowed between the statements of the
    release reaction, a press of the mode switch whose hold time is not
    reached between the reaction's test of is_resetting_mode and its first
    store makes exactly one call of the mode module:
    SetNextSelectionMode when it was held for fewer than
    MODE_RESET_MIN_TIME milliseconds, ResetCurrentSelectionMode otherwise,
    and nothing more however long the switch stays closed.  After the
    release the flags and the counter are as at power-on, so a sequence of
    such presses gives one call per press, in order. *)
Theorem mode_presses_one_call_each (presses : list Press) :
  Forall (press_settled MODE_RESET_MIN_TIME) presses ->
  mode_run MODE_RESET_MIN_TIME (concat (map mode_press presses)) mode_idle
  = (mode_idle, map (press_call MODE_RESET_MIN_TIME) presses).
Proof.
  induction 1 as [|p presses Hp _ IH].
  - reflexivity.
  - cbn [map concat]. rewrite mode_run_app, (mode_press_settled p Hp).
    cbn [fst snd]. rewrite IH. reflexivity.
Qed.

(** X24.  The release reaction races with the timer interrupt.  When the
    hold time is reached by an interrupt served between the reaction's
    test of is_resetting_mode and its store to
    is_counting_mode_reset_time, one press makes both calls,
    ResetCurrentSelectionMode and then SetNextSelectionMode, and leaves
    is_resetting_mode set.  The next press, if short, then makes no call
    at all and leaves the count running with the switch open. *)
Theorem mode_release_race (p q : Press) :
  Z.of_nat (held p) < MODE_RESET_MIN_TIME ->
  MODE_RESET_MIN_TIME <= Z.of_nat (held p) + Z.of_nat (in_test p) ->
  mode_run MODE_RESET_MIN_TIME (mode_press p) mode_idle
  = (mkModeTimer false true 0,
     [ResetCurrentSelectionMode; SetNextSelectionMode])
  /\ (Z.of_nat (held q) + Z.of_nat (in_test q) < MODE_RESET_MIN_TIME ->
      mode_run MODE_RESET_MIN_TIME (mode_press p ++ mode_press q) mode_idle
      = (mkModeTimer true false (Z.of_nat (held q) + Z.of_nat (in_test q)),
         [ResetCurrentSelectionMode; SetNextSelectionMode])).
Proof.
  intros Hlt Hge.
  assert (Hp : mode_run MODE_RESET_MIN_TIME (mode_press p) mode_idle
               = (mkModeTimer false true 0,
                  [ResetCurrentSelectionMode; SetNextSelectionMode])).
  { rewrite mode_press_run. unfold main_mode_closed, mode_idle.
    cbn [is_resetting_mode g_mode_reset_ms_count].
    rewrite (mode_ticks_below (held p) false 0) by lia. cbn [fst snd app].
    unfold main_mode_opened. cbn [is_resetting_mode].
    rewrite (mode_ticks_reach (in_test p) false (0 + Z.of_nat (held p)))
      by lia.
    cbn [is_counting_mode_reset_time is_resetting_mode g_mode_reset_ms_count].
    rewrite !mode_ticks_not_counting. reflexivity. }
  split; [exact Hp|].
  intros Hq. rewrite mode_run_app, Hp. cbn [fst snd].
  rewrite mode_press_run. unfold main_mode_closed.
  cbn [is_resetting_mode g_mode_reset_ms_count].
  rewrite (mode_ticks_below (held q) true 0) by lia. cbn [fst snd app].
  unfold main_mode_opened. cbn [is_resetting_mode].
  rewrite (mode_ticks_below (in_test q) true (0 + Z.of_nat (held q))) by lia.
  cbn [is_counting_mode_reset_time g_mode_reset_ms_count app].
  replace (0 + Z.of_nat (held q) + Z.of_nat (in_test q))
    with (Z.of_nat (held q) + Z.of_nat (in_test q)) by lia.
  reflexivity.
Qed.

End ModeSwitchProperties.

Lemma mode_presses_one_call_each_witness :
  mode_run 2000
    (concat (map mode_press
               [mkPress 150 1 0 0; mkPress 2000 0 0 1; mkPress 3500 1 1 1;
                mkPress 1998 1 0 0]))
    mode_idle
  = (mode_idle,
     [SetNextSelectionMode; ResetCurrentSelectionMode;
      ResetCurrentSelectionMode; SetNextSelectionMode]).
Proof.
  assert (H : 1 <= 2000 <= 65535) by lia.
  assert (Hs : Forall (press_settled 2000)
                 [mkPress 150 1 0 0; mkPress 2000 0 0 1; mkPress 3500 1 1 1;
                  mkPress 1998 1 0 0]).
  { repeat constructor; unfold press_settled; simpl; lia. }
  exact (mode_presses_one_call_each 2000 H _ Hs).
Defined.

Lemma mode_release_race_witness :
  mode_run 2000 (mode_press (mkPress 1999 1 0 0)) mode_idle
  = (mkModeTimer false true 0,
     [ResetCurrentSelectionMode; SetNextSelectionMode]).
Proof.
  assert (H : 1 <= 2000 <= 65535) by lia.
  assert (Hlt : Z.of_nat (held (mkPress 1999 1 0 0)) < 2000)
    by (simpl; lia).
  assert (Hge : 2000 <= Z.of_nat (held (mkPress 1999 1 0 0))
                        + Z.of_nat (in_test (mkPress 1999 1 0 0)))
    by (simpl; lia).
  exact (proj1 (mode_release_race 2000 H (mkPress 1999 1 0 0)
                  (mkPress 0 0 0 0) Hlt Hge)).
Defined.
